(** * The WEkEO Harmonized Data Access client, embedded in Rocq

    Source: [wekeo-hda/hda_api_functions.ipynb], the notebook that defines
    the functions [generate_api_key], [get_access_token], [acceptTandC],
    [get_job_id], [get_request_status], [get_order_ids],
    [get_order_status] and [downloadFile]; then the rest of it
    ([get_results_list], [get_filenames], [get_filename_from_cd],
    [download_data]) and the cell of [ocean/Sentinel3/33_SRAL_Waveforms]
    that calls them in a row.

    Conventions of the embedding.
    - A Python [str] is a Rocq [string] (the text as its bytes), a [bytes]
      object is a [list ascii]; [str.encode] and [bytes.decode] are the
      two conversions between them.
    - A value decoded from JSON (and every plain value kept in the session
      dictionary) is a [json]; numbers are integers.
    - [hda_dict], the dictionary every function receives and mutates in
      place, is a [gmap string pyval] held in the state.
    - The broker is a script: the list of the responses it gives to the
      requests of the client, in the order the client sends them.  The
      client is sequential, so every run against a real broker is the run
      against the script of the responses it received.  A run that needs a
      response the script does not hold stops as [Blocked]: the client is
      still waiting.
    - [print] produces no event, but for the progress lines of a
      download; an expression that is evaluated to be printed is kept
      where it can raise.
    - Floating-point values, the processor clock, and failures of the
      network or of the file system are not in the model. *)

From Stdlib Require Import ZArith NArith List String Ascii Lia Bool
  DecimalString.
From stdpp Require Import base option gmap strings list sorting.

Set Warnings "-register-all".

Local Open Scope Z_scope.
Local Open Scope string_scope.
Local Open Scope list_scope.

(** ** [base64]: the standard alphabet of RFC 4648, with padding *)

Module Base64.

Definition alphabet : list ascii :=
  list_ascii_of_string
    "ABCDEFGHIJKLMNOPQRSTUVWXYZabcdefghijklmnopqrstuvwxyz0123456789+/".

Definition pad : ascii := "="%char.

(** The character of a 6-bit group. *)
Definition char_of (i : N) : ascii := nth (N.to_nat i) alphabet pad.

Fixpoint find_index (c : ascii) (l : list ascii) (i : N) : option N :=
  match l with
  | [] => None
  | x :: l' => if Ascii.eqb c x then Some i else find_index c l' (N.succ i)
  end.

(** The 6-bit group of a character of the alphabet. *)
Definition index_of (c : ascii) : option N := find_index c alphabet 0%N.

(** [base64.b64encode(bs, altchars=None)]: three bytes give four
    characters; a last group of one or two bytes is padded with [=]. *)
Fixpoint b64encode (bs : list ascii) : list ascii :=
  match bs with
  | [] => []
  | [a] =>
      let x := N_of_ascii a in
      [char_of (x / 4); char_of ((x mod 4) * 16); pad; pad]
  | [a; b] =>
      let x := N_of_ascii a in
      let y := N_of_ascii b in
      [char_of (x / 4); char_of ((x mod 4) * 16 + y / 16);
       char_of ((y mod 16) * 4); pad]
  | a :: b :: c :: rest =>
      let x := N_of_ascii a in
      let y := N_of_ascii b in
      let z := N_of_ascii c in
      char_of (x / 4) :: char_of ((x mod 4) * 16 + y / 16)
        :: char_of ((y mod 16) * 4 + z / 64) :: char_of (z mod 64)
        :: b64encode rest
  end%N.

(** One group of four characters, padded or not. *)
Definition decode_quad (c1 c2 c3 c4 : ascii) : option (list ascii) :=
  match index_of c1, index_of c2 with
  | Some i1, Some i2 =>
      let b1 := ascii_of_N (i1 * 4 + i2 / 16) in
      if Ascii.eqb c3 pad then
        if Ascii.eqb c4 pad then Some [b1] else None
      else
        match index_of c3 with
        | Some i3 =>
            let b2 := ascii_of_N ((i2 mod 16) * 16 + i3 / 4) in
            if Ascii.eqb c4 pad then Some [b1; b2]
            else
              match index_of c4 with
              | Some i4 =>
                  Some [b1; b2; ascii_of_N ((i3 mod 4) * 64 + i4)]
              | None => None
              end
        | None => None
        end
  | _, _ => None
  end%N.

(** [base64.b64decode] on canonical input: groups of four characters, only
    the last of which may be padded.  [None] is [binascii.Error]. *)
Fixpoint b64decode (cs : list ascii) : option (list ascii) :=
  match cs with
  | [] => Some []
  | c1 :: c2 :: c3 :: c4 :: rest =>
      match decode_quad c1 c2 c3 c4 with
      | Some bs =>
          match rest with
          | [] => Some bs
          | _ :: _ =>
              if Nat.eqb (List.length bs) 3 then
                match b64decode rest with
                | Some bs' => Some (bs ++ bs')
                | None => None
                end
              else None
          end
      | None => None
      end
  | _ => None
  end.

End Base64.

(** ** [generate_api_key] *)

(** [str.encode(s)] and [bytes.decode()]. *)
Definition str_encode (s : string) : list ascii := list_ascii_of_string s.
Definition bytes_decode (bs : list ascii) : string := string_of_list_ascii bs.

Definition generate_api_key (username password : string) : string :=
  let s := username +:+ ":" +:+ password in
  bytes_decode (Base64.b64encode (str_encode s)).

(** ** Python values *)

(** What [json.loads] returns; also the plain values of the session.  The
    fields of an object are the items of the dict: a key occurs once. *)
Inductive json : Type :=
| JNull
| JBool (b : bool)
| JNum (n : Z)
| JStr (s : string)
| JArr (items : list json)
| JObj (fields : list (string * json)).

(** A [requests.Response]: the status code, the text as [json.loads] reads
    it ([None] when the text is not a JSON document) and, for a streamed
    response, the chunks that [iter_content] yields. *)
Record response : Type := Response {
  status_code : Z;
  text_json : option json;
  chunks : list string
}.

Inductive pyval : Type :=
| PJson (j : json)
| PResponse (r : response).

Coercion PJson : json >-> pyval.

Inductive exn : Type :=
| KeyError (key : string)
| TypeError
| IndexError
| UnboundLocalError (name : string)
| JSONDecodeError
| ZeroDivisionError
| RequestException.

Inductive method : Type := GET | POST | PUT.

(** What a run does to the outside, in order: requests sent to the broker,
    calls of [time.sleep], and the progress lines of a download (with the
    running byte count they are computed from). *)
Inductive event : Type :=
| Request (m : method) (url : string) (headers : pyval) (payload : option json)
| Sleep (seconds : Z)
| Progress (dl : Z).

Record state : Type := State {
  hda_dict : gmap string pyval;
  script : list response;
  trace : list event;
  files : gmap string string
}.

Definition set_dict (d : gmap string pyval) (s : state) : state :=
  {| hda_dict := d; script := script s; trace := trace s; files := files s |}.
Definition set_script (rs : list response) (s : state) : state :=
  {| hda_dict := hda_dict s; script := rs; trace := trace s; files := files s |}.
Definition log (e : event) (s : state) : state :=
  {| hda_dict := hda_dict s; script := script s; trace := trace s ++ [e];
     files := files s |}.
Definition set_files (fs : gmap string string) (s : state) : state :=
  {| hda_dict := hda_dict s; script := script s; trace := trace s; files := fs |}.

(** ** The monad of a run: state, exceptions, and waiting for the broker *)

Inductive outcome (A : Type) : Type :=
| Ret (a : A) (s : state)
| Raise (e : exn) (s : state)
| Blocked (s : state).
Arguments Ret {A} a s.
Arguments Raise {A} e s.
Arguments Blocked {A} s.

Definition M (A : Type) : Type := state -> outcome A.

Definition ret {A} (a : A) : M A := fun s => Ret a s.
Definition raise {A} (e : exn) : M A := fun s => Raise e s.
Definition bind {A B} (m : M A) (k : A -> M B) : M B :=
  fun s =>
    match m s with
    | Ret a s' => k a s'
    | Raise e s' => Raise e s'
    | Blocked s' => Blocked s'
    end.

Notation "x <- m ;; k" := (bind m (fun x => k))
  (at level 100, m at next level, right associativity).
Notation "m ;;; k" := (bind m (fun _ => k))
  (at level 100, right associativity).

(** The state a run ends in, whatever its outcome. *)
Definition final {A} (o : outcome A) : state :=
  match o with Ret _ s | Raise _ s | Blocked s => s end.

(** *** Primitive operations *)

(** [hda_dict[k]] *)
Definition getitem (k : string) : M pyval :=
  fun s =>
    match hda_dict s !! k with
    | Some v => Ret v s
    | None => Raise (KeyError k) s
    end.

(** [hda_dict[k] = v] *)
Definition setitem (k : string) (v : pyval) : M unit :=
  fun s => Ret tt (set_dict (<[k := v]> (hda_dict s)) s).

Fixpoint assoc (k : string) (fields : list (string * json)) : option json :=
  match fields with
  | [] => None
  | (k', v) :: rest => if String.eqb k k' then Some v else assoc k rest
  end.

(** [v[k]] for a string key [k]: only a dict can be subscripted so. *)
Definition subscript (v : pyval) (k : string) : M json :=
  match v with
  | PJson (JObj fields) =>
      match assoc k fields with
      | Some x => ret x
      | None => raise (KeyError k)
      end
  | _ => raise TypeError
  end.

(** [l[i]] for a list [l] and an index [i >= 0]. *)
Definition index (l : list json) (i : Z) : M json :=
  match l !! Z.to_nat i with
  | Some x => ret x
  | None => raise IndexError
  end.

(** [a + b] where one operand is known to be a [str]: concatenation, and
    [TypeError] when the other operand is not a [str]. *)
Definition str_add (a b : pyval) : M json :=
  match a, b with
  | PJson (JStr x), PJson (JStr y) => ret (JStr (x +:+ y))
  | _, _ => raise TypeError
  end.

(** [code == v] for the integer [code]; [bool] is a subtype of [int]. *)
Definition int_eq (code : Z) (v : pyval) : bool :=
  match v with
  | PJson (JNum n) => Z.eqb code n
  | PJson (JBool b) => Z.eqb code (if b then 1 else 0)
  | _ => false
  end.

(** [v == lit] for the string literal [lit]. *)
Definition str_eq (v : json) (lit : string) : bool :=
  match v with
  | JStr x => String.eqb x lit
  | _ => false
  end.

(** [json.loads(response.text)] *)
Definition json_loads (r : response) : M json :=
  match text_json r with
  | Some j => ret j
  | None => raise JSONDecodeError
  end.

(** [requests.get], [requests.post], [requests.put]: the request is sent
    and the next response of the broker is received.  A URL that is not a
    string is refused by the library; failures of the transport are not in
    the model. *)
Definition requests (m : method) (url : pyval) (headers : pyval)
    (payload : option json) : M response :=
  fun s =>
    match url with
    | PJson (JStr u) =>
        let s' := log (Request m u headers payload) s in
        match script s' with
        | r :: rest => Ret r (set_script rest s')
        | [] => Blocked s'
        end
    | _ => Raise RequestException s
    end.

(** [time.sleep(seconds)] *)
Definition sleep (seconds : Z) : M unit :=
  fun s => Ret tt (log (Sleep seconds) s).

(** The value of a local variable that may not be bound yet. *)
Definition local {A} (name : string) (v : option A) : M A :=
  match v with
  | Some a => ret a
  | None => raise (UnboundLocalError name)
  end.

(** *** Loops *)

(** [while cond: body] over the local variables [l].  Every iteration of
    the loops of this client sends a request, so a run against a script
    of [n] responses makes at most [n] full iterations; [fuel] is taken
    above that. *)
Fixpoint while {L} (fuel : nat) (cond : L -> bool) (body : L -> M L)
    (l : L) : M L :=
  fun s =>
    if cond l then
      match fuel with
      | O => Blocked s
      | S fuel' =>
          match body l s with
          | Ret l' s' => while fuel' cond body l' s'
          | Raise e s' => Raise e s'
          | Blocked s' => Blocked s'
          end
      end
    else Ret l s.

(** [for x in xs: body] over the local variables [l]. *)
Fixpoint for_each {A L} (xs : list A) (body : A -> L -> M L) (l : L) : M L :=
  match xs with
  | [] => ret l
  | x :: xs' => l' <- body x l ;; for_each xs' body l'
  end.

(** What [for x in v] iterates over: the items of a list, the keys of a
    dict, the characters of a string. *)
Definition iterate (v : json) : M (list json) :=
  match v with
  | JArr items => ret items
  | JObj fields => ret (map (fun kv => JStr (fst kv)) fields)
  | JStr x =>
      ret (map (fun c => JStr (String c EmptyString)) (list_ascii_of_string x))
  | _ => raise TypeError
  end.

(** The body [json=data] of a request, from the values of its keys: a
    value that is not JSON (a response object) cannot be serialised. *)
Fixpoint json_payload (fields : list (string * pyval)) : M json :=
  match fields with
  | [] => ret (JObj [])
  | (k, PJson j) :: rest =>
      rest' <- json_payload rest ;;
      match rest' with
      | JObj fs => ret (JObj ((k, j) :: fs))
      | _ => raise TypeError
      end
  | (_, PResponse _) :: _ => raise TypeError
  end.

(** One more than the number of responses the broker still has to give:
    the fuel of a polling loop. *)
Definition polls_left : M nat :=
  fun s => Ret (S (List.length (script s))) s.

(** ** The functions of the notebook *)

(** [init(dataset_id, api_key, download_dir_path)]: the dictionary it
    returns.  The creation of the download directory is left out:
    directories are not in the model. *)
Definition init (dataset_id api_key download_dir_path : string)
    : gmap string pyval :=
  let broker := "https://wekeo-broker.apps.mercator.dpi.wekeo.eu/databroker" in
  <["download_dir_path" := PJson (JStr download_dir_path)]>
  (<["CONST_HTTP_SUCCESS_CODE" := PJson (JNum 200)]>
  (<["api_key" := PJson (JStr api_key)]>
  (<["dataset_id" := PJson (JStr dataset_id)]>
  (<["accessToken_address" := PJson (JStr (broker +:+ "/gettoken"))]>
  (<["acceptTandC_address" :=
       PJson (JStr (broker +:+ "/termsaccepted/Copernicus_General_License"))]>
  (<["broker_endpoint" := PJson (JStr broker)]> ∅)))))).

Definition get_access_token : M unit :=
  api_key <- getitem "api_key" ;;
  auth <- str_add (JStr "Basic ") api_key ;;
  let headers := JObj [("Authorization", auth)] in
  address <- getitem "accessToken_address" ;;
  response <- requests GET address headers None ;;
  ok <- getitem "CONST_HTTP_SUCCESS_CODE" ;;
  access_token <-
    (if int_eq (status_code response) ok then
       j <- json_loads response ;;
       t <- subscript j "access_token" ;;
       str_add (JStr "Success: Access token is ") t ;;;
       ret (Some t)
     else ret None) ;;
  t <- local "access_token" access_token ;;
  setitem "access_token" t ;;;
  t' <- getitem "access_token" ;;
  bearer <- str_add (JStr "Bearer ") t' ;;
  setitem "headers"
    (JObj [("Authorization", bearer); ("Accept", JStr "application/json")]).

Definition query_metadata : M unit :=
  ep <- getitem "broker_endpoint" ;;
  u <- str_add ep (JStr "/querymetadata/") ;;
  ds <- getitem "dataset_id" ;;
  url <- str_add u ds ;;
  hs <- getitem "headers" ;;
  response <- requests GET url hs None ;;
  ep' <- getitem "broker_endpoint" ;;
  p1 <- str_add (JStr "Getting query metadata, URL Is ") ep' ;;
  p2 <- str_add p1 (JStr "/querymetadata/") ;;
  ds' <- getitem "dataset_id" ;;
  p3 <- str_add p2 ds' ;;
  p4 <- str_add p3 (JStr "?access_token=") ;;
  tok <- getitem "access_token" ;;
  str_add p4 tok ;;;
  ds'' <- getitem "dataset_id" ;;
  q1 <- str_add (JStr "************** Query Metadata for ") ds'' ;;
  str_add q1 (JStr " **************") ;;;
  ok <- getitem "CONST_HTTP_SUCCESS_CODE" ;;
  parsedResponse <-
    (if int_eq (status_code response) ok then
       j <- json_loads response ;; ret (Some j)
     else ret None) ;;
  pr <- local "parsedResponse" parsedResponse ;;
  setitem "parsedResponse" pr.

(** [v is False] *)
Definition is_False (v : json) : bool :=
  match v with
  | JBool false => true
  | _ => false
  end.

Definition acceptTandC : M unit :=
  address <- getitem "acceptTandC_address" ;;
  hs <- getitem "headers" ;;
  response <- requests GET address hs None ;;
  j <- json_loads response ;;
  isTandCAccepted <- subscript j "accepted" ;;
  response <-
    (if is_False isTandCAccepted then
       address' <- getitem "acceptTandC_address" ;;
       hs' <- getitem "headers" ;;
       requests PUT address' hs' None
     else ret response) ;;
  j' <- json_loads response ;;
  isTandCAccepted' <- subscript j' "accepted" ;;
  setitem "isTandCAccepted" isTandCAccepted'.

(** The body of the loop of [get_request_status], on its local variables
    [status] and [count]. *)
Definition request_status_body (l : json * Z) : M (json * Z) :=
  let '(status, count) := l in
  let count := count + 1 in
  (if Z.ltb 20 count then sleep 5 else ret tt) ;;;
  ep <- getitem "broker_endpoint" ;;
  u <- str_add ep (JStr "/datarequest/status/") ;;
  job_id <- getitem "job_id" ;;
  url <- str_add u job_id ;;
  hs <- getitem "headers" ;;
  response <- requests GET url hs None ;;
  ok <- getitem "CONST_HTTP_SUCCESS_CODE" ;;
  if int_eq (status_code response) ok then
    j <- json_loads response ;;
    status' <- subscript j "status" ;;
    str_add (JStr "Query successfully submitted. Status is ") status' ;;;
    ret (status', count)
  else ret (status, count).

Definition get_request_status : M unit :=
  fuel <- polls_left ;;
  while fuel (fun l => negb (str_eq (fst l) "completed"))
    request_status_body (JStr "not started", 0) ;;;
  ret tt.

Definition get_job_id (data : json) : M unit :=
  ep <- getitem "broker_endpoint" ;;
  url <- str_add ep (JStr "/datarequest") ;;
  hs <- getitem "headers" ;;
  response <- requests POST url hs (Some data) ;;
  ok <- getitem "CONST_HTTP_SUCCESS_CODE" ;;
  job_id <-
    (if int_eq (status_code response) ok then
       j <- json_loads response ;;
       job_id <- subscript j "jobId" ;;
       str_add (JStr "Query successfully submitted. Job ID is ") job_id ;;;
       ret job_id
     else ret (JStr "")) ;;
  setitem "job_id" job_id ;;;
  get_request_status.

(** The body of the loop of [get_order_status], on its local variables
    [status], [count] and [response]. *)
Definition order_status_body (order_id : json)
    (l : json * Z * option response) : M (json * Z * option response) :=
  let '(status, count, _) := l in
  let count := count + 1 in
  (if Z.ltb 20 count then sleep 5 else ret tt) ;;;
  ep <- getitem "broker_endpoint" ;;
  u <- str_add ep (JStr "/dataorder/status/") ;;
  url <- str_add u order_id ;;
  hs <- getitem "headers" ;;
  response <- requests GET url hs None ;;
  ok <- getitem "CONST_HTTP_SUCCESS_CODE" ;;
  if int_eq (status_code response) ok then
    j <- json_loads response ;;
    status' <- subscript j "status" ;;
    str_add (JStr "Query successfully submitted. Status is ") status' ;;;
    ret (status', count, Some response)
  else ret (status, count, Some response).

Definition get_order_status (order_id : json) : M response :=
  fuel <- polls_left ;;
  l <- while fuel (fun l => negb (str_eq (fst (fst l)) "completed"))
         (order_status_body order_id) (JStr "not started", 0, None) ;;
  local "response" (snd l).

(** The local variables of [get_order_ids]. *)
Record order_locals : Type := OrderLocals {
  ol_i : Z;
  ol_order_ids : list json;
  ol_order_sizes : list json;
  ol_response : option response
}.

(** The body of the loop of [get_order_ids] for one [result]. *)
Definition order_ids_body (result : json) (l : order_locals)
    : M order_locals :=
  let i := ol_i l in
  job_id <- getitem "job_id" ;;
  uri <- subscript result "url" ;;
  size <- subscript result "size" ;;
  let order_sizes := ol_order_sizes l ++ [size] in
  ep <- getitem "broker_endpoint" ;;
  url <- str_add ep (JStr "/dataorder") ;;
  hs <- getitem "headers" ;;
  data <- json_payload [("jobId", job_id); ("uri", PJson uri)] ;;
  response <- requests POST url hs (Some data) ;;
  ok <- getitem "CONST_HTTP_SUCCESS_CODE" ;;
  if int_eq (status_code response) ok then
    j <- json_loads response ;;
    order_id <- subscript j "orderId" ;;
    let order_ids := ol_order_ids l ++ [order_id] in
    x <- index order_ids i ;;
    str_add (JStr "Query successfully submitted. Order ID is ") x ;;;
    y <- index order_ids i ;;
    response' <- get_order_status y ;;
    ret (OrderLocals (i + 1) order_ids order_sizes (Some response'))
  else
    ret (OrderLocals (i + 1) (ol_order_ids l) order_sizes (Some response)).

Definition get_order_ids : M unit :=
  results <- getitem "results" ;;
  content <- subscript results "content" ;;
  items <- iterate content ;;
  l <- for_each items order_ids_body (OrderLocals 0 [] [] None) ;;
  setitem "order_ids" (JArr (ol_order_ids l)) ;;;
  setitem "order_sizes" (JArr (ol_order_sizes l)) ;;;
  response <- local "response" (ol_response l) ;;
  setitem "order_status_response" (PResponse response).

(** [os.path.join(a, b)] of [posixpath]. *)
Definition endswith_sep (a : string) : bool :=
  String.eqb (substring (String.length a - 1) 1 a) "/".

Definition path_join (a b : string) : string :=
  if String.prefix "/" b then b
  else if String.eqb a "" || endswith_sep a then a +:+ b
  else a +:+ "/" +:+ b.

(** What [downloadFile] returns: [None], or the elapsed processor time (a
    float, whose value is not in the model). *)
Inductive retval : Type := RNone | RElapsed.

(** The value of a number in arithmetic; [bool] is a subtype of [int]. *)
Definition number (v : json) : option Z :=
  match v with
  | JNum n => Some n
  | JBool b => Some (if b then 1 else 0)
  | _ => None
  end.

Definition is_None (v : json) : bool :=
  match v with
  | JNull => true
  | _ => false
  end.

(** [open(path, 'wb')]: the file is created, or emptied. *)
Definition fopen (path : string) : M unit :=
  fun s => Ret tt (set_files (<[path := ""]> (files s)) s).

(** [f.write(chunk)] on the file opened at [path]. *)
Definition fwrite (path chunk : string) : M unit :=
  fun s =>
    Ret tt (set_files
              (<[path := default "" (files s !! path) +:+ chunk]> (files s)) s).

(** The progress line for the byte count [dl].  It is printed under
    [try], with a rate over the elapsed processor time: the line is lost
    when that time is still zero.  The clock is not in the model, so the
    event stands for the line being due. *)
Definition report (dl : Z) : M unit :=
  fun s => Ret tt (log (Progress dl) s).

(** The body of the loop of [downloadFile] for one [chunk], on the local
    variable [dl].  The fraction [50 * dl / total_length] is a float; only
    its division by zero is in the model. *)
Definition download_body (filename : string) (total_length : json)
    (chunk : string) (dl : Z) : M Z :=
  let dl := dl + Z.of_nat (String.length chunk) in
  fwrite filename chunk ;;;
  (if negb (is_None total_length) then
     match number total_length with
     | Some n => if Z.eqb n 0 then raise ZeroDivisionError else report dl
     | None => raise TypeError
     end
   else if Z.eqb (dl mod 1024) 0 then report dl else ret tt) ;;;
  ret dl.

(** [downloadFile].  The file size that is printed once the file is open,
    [total_length/(1024*1024)], is a float: the model asks for a number
    and leaves the float out.  Python raises [OverflowError] at this
    division for an int from [2^1044 - 2^990] on; the statements on a
    download with a declared total other than the length of the stream
    are for totals below that ([fits_float]). *)
Definition downloadFile (url headers : pyval) (directory file_name : string)
    (total_length : json) : M retval :=
  r <- requests GET url headers None ;;
  if Z.eqb (status_code r) 200 then
    let filename := path_join directory file_name in
    fopen filename ;;;
    match number total_length with
    | Some _ => ret tt
    | None => raise TypeError
    end ;;;
    dl <- for_each (chunks r) (download_body filename total_length) 0 ;;
    report dl ;;;
    ret RElapsed
  else ret RNone.

(** ** Vocabulary of the properties *)

(** A state that differs from [s] in the responses still to come and in
    the events added to the trace. *)
Definition after (s : state) (rest : list response) (events : list event)
    : state :=
  {| hda_dict := hda_dict s; script := rest; trace := trace s ++ events;
     files := files s |}.

(** The [status] member of the body of a response. *)
Definition status_of (r : response) : option json :=
  match text_json r with
  | Some (JObj fields) => assoc "status" fields
  | _ => None
  end.

(** What a polling loop reads in the body of an HTTP 200 response: the
    status, or the exception that reading it raises. *)
Definition read_status (r : response) : exn + string :=
  match text_json r with
  | None => inl JSONDecodeError
  | Some (JObj fields) =>
      match assoc "status" fields with
      | Some (JStr st) => inr st
      | Some _ => inl TypeError
      | None => inl (KeyError "status")
      end
  | Some _ => inl TypeError
  end.

(** The response is HTTP 200 with status exactly ["completed"]. *)
Definition completed (r : response) : bool :=
  Z.eqb (status_code r) 200
  && match status_of r with
     | Some v => str_eq v "completed"
     | None => false
     end.

(** The response is a reply of a status endpoint: when it is HTTP 200, its
    body is a JSON object whose [status] is a string. *)
Definition status_reply (r : response) : bool :=
  negb (Z.eqb (status_code r) 200)
  || match status_of r with
     | Some (JStr _) => true
     | _ => false
     end.

(** The session can poll: it holds the broker address, the headers and the
    success code 200 that [init] and [get_access_token] store. *)
Definition can_poll (d : gmap string pyval) (ep : string) (hs : pyval)
    : Prop :=
  d !! "broker_endpoint" = Some (PJson (JStr ep))
  /\ d !! "headers" = Some hs
  /\ d !! "CONST_HTTP_SUCCESS_CODE" = Some (PJson (JNum 200)).

(** What the [k]-th poll of a loop adds to the trace: the request, after a
    sleep of five seconds when [k] is above 20. *)
Definition poll_event (url : string) (hs : pyval) (k : Z) : list event :=
  (if Z.ltb 20 k then [Sleep 5] else []) ++ [Request GET url hs None].

(** The polls numbered [count + 1] to [count + n]. *)
Fixpoint polls_from (url : string) (hs : pyval) (count : Z) (n : nat)
    : list event :=
  match n with
  | O => []
  | S n' => poll_event url hs (count + 1) ++ polls_from url hs (count + 1) n'
  end.

(** The first [n] responses of an endless sequence of responses. *)
Definition prefix (srv : nat -> response) (n : nat) : list response :=
  map srv (seq 0 n).

Definition is_request (e : event) : bool :=
  match e with Request _ _ _ _ => true | _ => false end.

Definition is_put (e : event) : bool :=
  match e with Request PUT _ _ _ => true | _ => false end.

Definition is_sleep (e : event) : bool :=
  match e with Sleep _ => true | _ => false end.

(** A response that neither ends a polling loop nor breaks it. *)
Definition pending (r : response) : Prop :=
  status_reply r = true /\ completed r = false.

(** The condition of a polling loop whose locals hold the status [stat]. *)
Definition polling {L} (stat : L -> json) (l : L) : bool :=
  negb (str_eq (stat l) "completed").

(** The locals of a polling loop after the polls that received [rs], when
    one poll that reads the status [st] in the response [r] turns the
    locals [l] into [next l st r]. *)
Fixpoint locals_after {L} (stat : L -> json)
    (next : L -> json -> response -> L) (l : L) (rs : list response) : L :=
  match rs with
  | [] => l
  | r :: rs' =>
      let st :=
        if Z.eqb (status_code r) 200 then
          match read_status r with inr st => JStr st | inl _ => stat l end
        else stat l in
      locals_after stat next (next l st r) rs'
  end.

(** The locals of the two loops: [status] and [count], and [response]. *)
Definition next_request (l : json * Z) (st : json) (r : response)
    : json * Z :=
  (st, snd l + 1).

Definition next_order (l : json * Z * option response) (st : json)
    (r : response) : json * Z * option response :=
  (st, snd (fst l) + 1, Some r).

(** *** Orders *)

(** The member [k] of a JSON object. *)
Definition field (k : string) (j : json) : option json :=
  match j with
  | JObj fields => assoc k fields
  | _ => None
  end.

(** The [orderId] member of the body of a response. *)
Definition order_id_of (r : response) : option json :=
  match text_json r with
  | Some j => field "orderId" j
  | None => None
  end.

(** One result descriptor with what the broker answers about it: the
    reply [o_post] to its order request, then the replies [o_waiting]
    and [o_last] to the polls of its order. *)
Record order_run : Type := OrderRun {
  o_result : json;
  o_url : json;
  o_size : json;
  o_post : response;
  o_id : string;
  o_waiting : list response;
  o_last : response
}.

(** The descriptor has a [url] and a [size]; the order request is
    answered with HTTP 200 and an order id; the polls of the order are
    answered by a status endpoint and [o_last] is the first completed. *)
Definition order_served (o : order_run) : Prop :=
  field "url" (o_result o) = Some (o_url o)
  /\ field "size" (o_result o) = Some (o_size o)
  /\ status_code (o_post o) = 200
  /\ order_id_of (o_post o) = Some (JStr (o_id o))
  /\ Forall pending (o_waiting o)
  /\ completed (o_last o) = true.

(** The responses of the broker for one result, and for all. *)
Definition order_responses (o : order_run) : list response :=
  o_post o :: o_waiting o ++ [o_last o].

Definition orders_script (os : list order_run) : list response :=
  flat_map order_responses os.

(** The events of the order of one result: the order request, with the
    job id and the [url] of the result, then the polls of its order id. *)
Definition order_events (ep : string) (hs : pyval) (job_id : json)
    (o : order_run) : list event :=
  Request POST (ep +:+ "/dataorder") hs
    (Some (JObj [("jobId", job_id); ("uri", o_url o)]))
  :: polls_from ((ep +:+ "/dataorder/status/") +:+ o_id o) hs 0
       (S (List.length (o_waiting o))).

(** One result descriptor whose order request the broker refuses: the
    reply [x_post] has another code than 200. *)
Record order_refusal : Type := OrderRefusal {
  x_result : json;
  x_url : json;
  x_size : json;
  x_post : response
}.

Definition order_refused (x : order_refusal) : Prop :=
  field "url" (x_result x) = Some (x_url x)
  /\ field "size" (x_result x) = Some (x_size x)
  /\ status_code (x_post x) <> 200.

Definition refusal_event (ep : string) (hs : pyval) (job_id : json)
    (x : order_refusal) : event :=
  Request POST (ep +:+ "/dataorder") hs
    (Some (JObj [("jobId", job_id); ("uri", x_url x)])).

(** The session can order: it can poll, and holds a job id and a page of
    results. *)
Definition can_order (d : gmap string pyval) (ep : string) (hs : pyval)
    (job_id : json) (items : list json) : Prop :=
  can_poll d ep hs
  /\ d !! "job_id" = Some (PJson job_id)
  /\ exists page, d !! "results" = Some (PJson page)
                  /\ field "content" page = Some (JArr items).

(** *** Terms and conditions *)

(** What [acceptTandC] reads in the body of a response: the [accepted]
    member, or the exception that reading it raises. *)
Definition read_accepted (r : response) : exn + json :=
  match text_json r with
  | None => inl JSONDecodeError
  | Some (JObj fields) =>
      match assoc "accepted" fields with
      | Some v => inr v
      | None => inl (KeyError "accepted")
      end
  | Some _ => inl TypeError
  end.

(** The number of acceptance requests (PUT) sent so far. *)
Definition puts (s : state) : nat :=
  List.length (List.filter is_put (trace s)).

(** *** Downloads *)

(** The bytes of a stream: its chunks, one after the other. *)
Fixpoint stream_bytes (cs : list string) : string :=
  match cs with
  | [] => ""
  | c :: cs' => c +:+ stream_bytes cs'
  end.

(** The byte counts after each chunk, from the count [dl]. *)
Fixpoint running (dl : Z) (cs : list string) : list Z :=
  match cs with
  | [] => []
  | c :: cs' =>
      let dl' := dl + Z.of_nat (String.length c) in
      dl' :: running dl' cs'
  end.

(** The byte counts of the progress lines of a trace. *)
Definition reports (es : list event) : list Z :=
  flat_map (fun e => match e with Progress dl => [dl] | _ => [] end) es.

(** ** Sample sessions and responses *)

(** A reply of a status endpoint with HTTP 200 and the status [st]. *)
Definition status_response (st : string) : response :=
  {| status_code := 200;
     text_json := Some (JObj [("status", JStr st)]);
     chunks := [] |}.

(** A response with the code [code] and a body that is not JSON. *)
Definition error_response (code : Z) : response :=
  {| status_code := code; text_json := None; chunks := [] |}.

Definition sample_headers : pyval :=
  PJson (JObj [("Authorization", JStr "Bearer 6b2c");
               ("Accept", JStr "application/json")]).

(** A session as [init] makes it. *)
Definition fresh_session : gmap string pyval :=
  init "EO:EUM:DAT:SENTINEL-3:SR_1_SRA___" (generate_api_key "user" "pass")
    "/data".

(** A session after [get_access_token], and after [get_job_id]. *)
Definition token_session : gmap string pyval :=
  <["headers" := sample_headers]>
  (<["access_token" := PJson (JStr "6b2c")]> fresh_session).

Definition sample_session : gmap string pyval :=
  <["job_id" := PJson (JStr "job-1")]> token_session.

(** A query document. *)
Definition sample_query : json :=
  JObj [("datasetId", JStr "EO:EUM:DAT:SENTINEL-3:SR_1_SRA___")].

Definition sample_endpoint : string :=
  "https://wekeo-broker.apps.mercator.dpi.wekeo.eu/databroker".

(** The start of a run of the session [d] against the responses [rs]. *)
Definition start (d : gmap string pyval) (rs : list response) : state :=
  {| hda_dict := d; script := rs; trace := []; files := ∅ |}.

(** A result descriptor, and the reply to an order request that gives the
    order id [oid]. *)
Definition descriptor (filename : string) (bytes : Z) (uri : string) : json :=
  JObj [("filename", JStr filename); ("size", JNum bytes);
        ("url", JStr uri)].

Definition order_response (oid : string) : response :=
  {| status_code := 200;
     text_json := Some (JObj [("orderId", JStr oid)]);
     chunks := [] |}.

(** A session after [get_results_list], with a page of [items]. *)
Definition session_with_results (items : list json) : gmap string pyval :=
  <["results" := PJson (JObj [("content", JArr items)])]> sample_session.

Definition two_results : list json :=
  [descriptor "S3A_SR_1.zip" 1000 "https://store/S3A_SR_1";
   descriptor "S3B_SR_1.zip" 2000 "https://store/S3B_SR_1"].

(** The two results with served orders: the first is polled twice. *)
Definition two_orders : list order_run :=
  [{| o_result := descriptor "S3A_SR_1.zip" 1000 "https://store/S3A_SR_1";
      o_url := JStr "https://store/S3A_SR_1"; o_size := JNum 1000;
      o_post := order_response "order-A"; o_id := "order-A";
      o_waiting := [status_response "running"];
      o_last := status_response "completed" |};
   {| o_result := descriptor "S3B_SR_1.zip" 2000 "https://store/S3B_SR_1";
      o_url := JStr "https://store/S3B_SR_1"; o_size := JNum 2000;
      o_post := order_response "order-B"; o_id := "order-B";
      o_waiting := [];
      o_last := status_response "completed" |}].

(** The reply of the terms endpoint that reports the flag [b]. *)
Definition terms_response (b : bool) : response :=
  {| status_code := 200;
     text_json := Some (JObj [("accepted", JBool b)]);
     chunks := [] |}.

(** A streamed response of three chunks. *)
Definition stream_response : response :=
  {| status_code := 200; text_json := None;
     chunks := ["PK"; "netcdf-"; "data"] |}.

(** The exception a run ends with, if it does. *)
Definition raised {A} (o : outcome A) : option exn :=
  match o with
  | Raise e _ => Some e
  | _ => None
  end.

(** ** The rest of the notebook *)

(** [get_results_list]: one GET for the first page of five results.  A GET
    has no body: the payload of its event is the dict [params] of the
    query parameters.  The status code is not read. *)
Definition get_results_list : M unit :=
  let params := JObj [("page", JStr "0"); ("size", JStr "5")] in
  ep <- getitem "broker_endpoint" ;;
  u1 <- str_add ep (JStr "/datarequest/jobs/") ;;
  job_id <- getitem "job_id" ;;
  u2 <- str_add u1 job_id ;;
  url <- str_add u2 (JStr "/result") ;;
  hs <- getitem "headers" ;;
  response <- requests GET url hs (Some params) ;;
  results <- json_loads response ;;
  setitem "results" (PJson results).

(** [get_filenames]: the [filename] of every result of the page. *)
Definition get_filenames : M (list json) :=
  results <- getitem "results" ;;
  content <- subscript results "content" ;;
  items <- iterate content ;;
  for_each items
    (fun file fileName =>
       name <- subscript (PJson file) "filename" ;;
       ret (fileName ++ [name]))
    [].

(** *** [get_filename_from_cd] *)

(** What [.+] takes at the start of a string: the characters up to the
    first newline.  Without the flag [DOTALL] the dot stands for any
    character but the newline. *)
Fixpoint dot_plus (s : string) : string :=
  match s with
  | EmptyString => EmptyString
  | String c s' =>
      if Ascii.eqb c "010"%char then EmptyString else String c (dot_plus s')
  end.

(** The bytes of [s] after the first [n]. *)
Fixpoint string_drop (n : nat) (s : string) : string :=
  match n, s with
  | O, _ => s
  | S n', EmptyString => EmptyString
  | S n', String _ s' => string_drop n' s'
  end.

(** The group of the first match of [re.findall('filename=(.+)', cd)], if
    there is a match: the scan goes from left to right, and the pattern
    matches where [filename=] is followed by a character that the dot
    takes. *)
Fixpoint findall_first (cd : string) : option string :=
  match cd with
  | EmptyString => None
  | String _ rest =>
      if String.prefix "filename=" cd then
        match dot_plus (string_drop 9 cd) with
        | EmptyString => findall_first rest
        | group => Some group
        end
      else findall_first rest
  end.

(** Python slices a [str] by characters, and the model holds it as the
    bytes of its UTF-8 text.  There the bytes of a character after its
    first one, and only they, are continuation bytes, [10xxxxxx]. *)
Definition continuation (b : ascii) : bool :=
  (128 <=? N_of_ascii b)%N && (N_of_ascii b <? 192)%N.

(** The bytes start in the middle of a character. *)
Definition continues (s : string) : bool :=
  match s with
  | String b _ => continuation b
  | EmptyString => false
  end.

(** The characters of a text, each as its bytes. *)
Fixpoint characters (s : string) : list string :=
  match s with
  | EmptyString => []
  | String b s' =>
      if continues s' then
        match characters s' with
        | c :: cs => String b c :: cs
        | [] => [String b EmptyString]
        end
      else String b EmptyString :: characters s'
  end.

(** [s[n:]] *)
Definition str_from (n : nat) (s : string) : string :=
  String.concat EmptyString (drop n (characters s)).

(** [g[2:-1]]: the characters of [g] but the first two and the last. *)
Definition slice_2_m1 (g : string) : string :=
  String.concat EmptyString (removelast (drop 2 (characters g))).

(** [get_filename_from_cd(cd)], for [cd] a string or [None]. *)
Definition get_filename_from_cd (cd : option string) : option string :=
  match cd with
  | None | Some EmptyString => None
  | Some text =>
      match findall_first text with
      | None => None
      | Some group => Some (slice_2_m1 group)
      end
  end.

(** *** [download_data] *)

(** [if v:] for an optional string. *)
Definition truthy (v : option string) : bool :=
  match v with
  | Some (String _ _) => true
  | _ => false
  end.

(** [v[i]] for a value of the session and an index [i >= 0]. *)
Definition item (v : pyval) (i : Z) : M json :=
  match v with
  | PJson (JArr l) => index l i
  | PJson (JStr x) =>
      match String.get (Z.to_nat i) x with
      | Some c => ret (JStr (String c EmptyString))
      | None => raise IndexError
      end
  | PJson (JObj _) => raise (KeyError (NilZero.string_of_int (Z.to_int i)))
  | _ => raise TypeError
  end.

(** What [for x in v] iterates over, for a value of the session.  The
    bytes of the body of a response are not in the model: iterating over
    a response object stands as [TypeError]. *)
Definition iterate_value (v : pyval) : M (list json) :=
  match v with
  | PJson j => iterate j
  | PResponse _ => raise TypeError
  end.

(** [os.path.join(a, b)] for values that may not be strings. *)
Definition os_path_join (a : pyval) (b : json) : M string :=
  match a, b with
  | PJson (JStr x), JStr y => ret (path_join x y)
  | _, _ => raise TypeError
  end.

(** [downloadFile] called with a directory and a file name that may not
    be strings: [os.path.join] is what the function evaluates first after
    the request, when the code is 200. *)
Definition downloadFile_call (url headers directory : pyval)
    (file_name total_length : json) : M retval :=
  match directory, file_name with
  | PJson (JStr d), JStr f => downloadFile url headers d f total_length
  | _, _ =>
      r <- requests GET url headers None ;;
      if Z.eqb (status_code r) 200 then raise TypeError else ret RNone
  end.

(** How [download_data] ends when no exception of [exn] is raised.
    Reading [status_code] of a value that is not a response raises
    [AttributeError], which [exn] does not have: the run ends there with
    this value, and [filenames] is not stored. *)
Inductive download_end : Type := Downloaded | AttributeError.

(** The body of the loop of [download_data] for one [order_id], on the
    locals [i] and [fileNames]; [None] when [AttributeError] ends it. *)
Definition download_data_body (file_extension user_filename : option string)
    (fileName : list json) (order_id : json) (l : Z * list json)
    : M (option (Z * list json)) :=
  let '(i, fileNames) := l in
  file_name <-
    (if truthy user_filename
     then ret (JStr (default EmptyString user_filename))
     else index fileName i) ;;
  file_name <-
    (if truthy file_extension
     then str_add (PJson file_name)
            (PJson (JStr (default EmptyString file_extension)))
     else ret file_name) ;;
  ep <- getitem "broker_endpoint" ;;
  u <- str_add ep (JStr "/dataorder/download/") ;;
  download_url <- str_add u order_id ;;
  sizes <- getitem "order_sizes" ;;
  product_size <- item sizes i ;;
  hs <- getitem "headers" ;;
  directory <- getitem "download_dir_path" ;;
  downloadFile_call download_url hs directory file_name product_size ;;;
  directory' <- getitem "download_dir_path" ;;
  path <- os_path_join directory' file_name ;;
  let fileNames := fileNames ++ [JStr path] in
  response <- getitem "order_status_response" ;;
  match response with
  | PResponse _ =>
      getitem "CONST_HTTP_SUCCESS_CODE" ;;;
      ret (Some (i + 1, fileNames))
  | PJson _ => ret None
  end.

(** [for order_id in order_ids: body], ended by [AttributeError]. *)
Fixpoint download_each (file_extension user_filename : option string)
    (fileName : list json) (order_ids : list json) (l : Z * list json)
    : M (option (Z * list json)) :=
  match order_ids with
  | [] => ret (Some l)
  | order_id :: rest =>
      r <- download_data_body file_extension user_filename fileName
             order_id l ;;
      match r with
      | Some l' =>
          download_each file_extension user_filename fileName rest l'
      | None => ret None
      end
  end.

Definition download_data (file_extension user_filename : option string)
    : M download_end :=
  fileName <- get_filenames ;;
  order_ids <- getitem "order_ids" ;;
  ids <- iterate_value order_ids ;;
  r <- download_each file_extension user_filename fileName ids (0, []) ;;
  match r with
  | Some l => setitem "filenames" (PJson (JArr (snd l))) ;;; ret Downloaded
  | None => ret AttributeError
  end.

(** ** More sample data *)

(** A served order for the first of [two_results] and a refused order
    request for the second. *)
Definition served_first : list order_run :=
  [{| o_result := descriptor "S3A_SR_1.zip" 1000 "https://store/S3A_SR_1";
      o_url := JStr "https://store/S3A_SR_1"; o_size := JNum 1000;
      o_post := order_response "order-A"; o_id := "order-A";
      o_waiting := [];
      o_last := status_response "completed" |}].

Definition refused_second : list order_refusal :=
  [{| x_result := descriptor "S3B_SR_1.zip" 2000 "https://store/S3B_SR_1";
      x_url := JStr "https://store/S3B_SR_1"; x_size := JNum 2000;
      x_post := error_response 500 |}].

(** ** More vocabulary *)

(** The character [c] does not occur in [s]. *)
Fixpoint lacks (c : ascii) (s : string) : bool :=
  match s with
  | EmptyString => true
  | String x s' => negb (Ascii.eqb x c) && lacks c s'
  end.

Definition newline : ascii := "010"%char.

(** The double quote. *)
Definition quote : ascii := "034"%char.

(** The letter e with an acute accent: two bytes in UTF-8. *)
Definition e_acute : string :=
  String "195"%char (String "169"%char EmptyString).

(** *** Downloads of a session *)

(** One order to download: the file name of its result, its order id,
    the size recorded for it, and the reply of the broker to the download
    request. *)
Record download : Type := Download {
  d_name : string;
  d_order : string;
  d_size : json;
  d_reply : response
}.

(** The file name that [download_data] gives to the download. *)
Definition d_file (file_extension user_filename : option string)
    (w : download) : string :=
  let base :=
    if truthy user_filename then default EmptyString user_filename
    else d_name w in
  if truthy file_extension
  then base +:+ default EmptyString file_extension
  else base.

Definition d_path (dir : string) (file_extension user_filename : option string)
    (w : download) : string :=
  path_join dir (d_file file_extension user_filename w).

Definition d_url (ep : string) (w : download) : string :=
  (ep +:+ "/dataorder/download/") +:+ d_order w.

(** The totals whose size in MB is a float: [n/(1024*1024)] is the
    division of two ints of Python, rounded to the nearest float, and it
    raises [OverflowError] when that is out of the range of the floats:
    from [2^1044 - 2^990] on, on both sides of zero. *)
Definition fits_float (n : Z) : Prop := Z.abs n < 2 ^ 1044 - 2 ^ 990.

(** A reply with HTTP 200 comes with a size that is a number other than
    zero, and one that [downloadFile] can print. *)
Definition d_sized (w : download) : Prop :=
  status_code (d_reply w) = 200 ->
  exists n, number (d_size w) = Some n /\ n <> 0 /\ fits_float n.

(** What one download does to the files, and the events of it. *)
Definition fetch (dir : string) (file_extension user_filename : option string)
    (fs : gmap string string) (w : download) : gmap string string :=
  if Z.eqb (status_code (d_reply w)) 200
  then <[d_path dir file_extension user_filename w :=
           stream_bytes (chunks (d_reply w))]> fs
  else fs.

Definition fetch_events (ep : string) (hs : pyval) (w : download)
    : list event :=
  Request GET (d_url ep w) hs None
  :: (if Z.eqb (status_code (d_reply w)) 200
      then map Progress (running 0 (chunks (d_reply w)))
           ++ [Progress (Z.of_nat (String.length
                                     (stream_bytes (chunks (d_reply w)))))]
      else []).

(** The session can download the orders [ws]: it can poll, it has a
    download directory, a page of results whose first file names are
    those of [ws], the order ids of [ws], sizes that start with those of
    [ws], and the response that [get_order_ids] stores. *)
Definition can_download (d : gmap string pyval) (ep : string) (hs : pyval)
    (dir : string) (ws : list download) : Prop :=
  can_poll d ep hs
  /\ d !! "download_dir_path" = Some (PJson (JStr dir))
  /\ (exists page items more,
        d !! "results" = Some (PJson page)
        /\ field "content" page = Some (JArr items)
        /\ Forall2 (fun file name => field "filename" file = Some name) items
             (map (fun w => JStr (d_name w)) ws ++ more))
  /\ d !! "order_ids" = Some (PJson (JArr (map (fun w => JStr (d_order w)) ws)))
  /\ (exists more, d !! "order_sizes"
                   = Some (PJson (JArr (map d_size ws ++ more))))
  /\ (exists r, d !! "order_status_response" = Some (PResponse r)).

(** A session after [get_order_ids] for [two_results], and the replies to
    its two downloads: a stream, and a refusal. *)
Definition download_session : gmap string pyval :=
  <["order_status_response" := PResponse (status_response "completed")]>
  (<["order_sizes" := PJson (JArr [JNum 1000; JNum 2000])]>
  (<["order_ids" := PJson (JArr [JStr "order-A"; JStr "order-B"])]>
     (session_with_results two_results))).




Definition two_refusals : list download :=
  [{| d_name := "S3A_SR_1.zip"; d_order := "order-A"; d_size := JNum 1000;
      d_reply := error_response 403 |};
   {| d_name := "S3B_SR_1.zip"; d_order := "order-B"; d_size := JNum 2000;
      d_reply := error_response 404 |}].

(** ** The download cell of the waveforms notebook *)









(* ================================================================== *)
(** * Properties *)

(** ** [generate_api_key] *)

Example generate_api_key_user_pass :
  generate_api_key "user" "pass" = "dXNlcjpwYXNz".
Proof. reflexivity. Qed.

Example generate_api_key_padded :
  generate_api_key "ab" "c" = "YWI6Yw==".
Proof. reflexivity. Qed.

Module Base64Facts.
Import Base64.

Ltac divmod := zify; Z.to_euclidean_division_equations; lia.

Lemma index_of_char_of_nat (n : nat) :
  (n < 64)%nat -> index_of (char_of (N.of_nat n)) = Some (N.of_nat n).
Proof.
  intros Hn.
  do 64 (destruct n as [|n]; [reflexivity|]).
  lia.
Qed.

Lemma index_of_char_of (i : N) :
  (i < 64)%N -> index_of (char_of i) = Some i.
Proof.
  intros Hi. rewrite <- (N2Nat.id i). apply index_of_char_of_nat. lia.
Qed.

Lemma char_of_not_pad_nat (n : nat) :
  (n < 64)%nat -> Ascii.eqb (char_of (N.of_nat n)) pad = false.
Proof.
  intros Hn.
  do 64 (destruct n as [|n]; [reflexivity|]).
  lia.
Qed.

Lemma char_of_not_pad (i : N) :
  (i < 64)%N -> Ascii.eqb (char_of i) pad = false.
Proof.
  intros Hi. rewrite <- (N2Nat.id i). apply char_of_not_pad_nat. lia.
Qed.

Lemma byte_bound (a : ascii) : (N_of_ascii a < 256)%N.
Proof. apply N_ascii_bounded. Qed.

(** A full group of three bytes is read back. *)
Lemma decode_quad_three (a b c : ascii) :
  let x := N_of_ascii a in
  let y := N_of_ascii b in
  let z := N_of_ascii c in
  decode_quad (char_of (x / 4)) (char_of ((x mod 4) * 16 + y / 16))
    (char_of ((y mod 16) * 4 + z / 64)) (char_of (z mod 64))
  = Some [a; b; c].
Proof.
  intros x y z.
  pose proof (byte_bound a) as Ha. pose proof (byte_bound b) as Hb.
  pose proof (byte_bound c) as Hc. fold x in Ha. fold y in Hb. fold z in Hc.
  unfold decode_quad.
  rewrite !index_of_char_of by divmod.
  rewrite !char_of_not_pad by divmod.
  replace (x / 4 * 4 + ((x mod 4) * 16 + y / 16) / 16)%N with x by divmod.
  replace ((((x mod 4) * 16 + y / 16) mod 16) * 16
           + ((y mod 16) * 4 + z / 64) / 4)%N with y by divmod.
  replace ((((y mod 16) * 4 + z / 64) mod 4) * 64 + z mod 64)%N
    with z by divmod.
  unfold x, y, z. by rewrite !ascii_N_embedding.
Qed.

(** A last group of two bytes is read back. *)
Lemma decode_quad_two (a b : ascii) :
  let x := N_of_ascii a in
  let y := N_of_ascii b in
  decode_quad (char_of (x / 4)) (char_of ((x mod 4) * 16 + y / 16))
    (char_of ((y mod 16) * 4)) pad
  = Some [a; b].
Proof.
  intros x y.
  pose proof (byte_bound a) as Ha. pose proof (byte_bound b) as Hb.
  fold x in Ha. fold y in Hb.
  unfold decode_quad.
  rewrite !index_of_char_of by divmod.
  rewrite !char_of_not_pad by divmod.
  replace (x / 4 * 4 + ((x mod 4) * 16 + y / 16) / 16)%N with x by divmod.
  replace ((((x mod 4) * 16 + y / 16) mod 16) * 16
           + ((y mod 16) * 4) / 4)%N with y by divmod.
  unfold x, y. by rewrite !ascii_N_embedding.
Qed.

(** A last group of one byte is read back. *)
Lemma decode_quad_one (a : ascii) :
  let x := N_of_ascii a in
  decode_quad (char_of (x / 4)) (char_of ((x mod 4) * 16)) pad pad
  = Some [a].
Proof.
  intros x.
  pose proof (byte_bound a) as Ha. fold x in Ha.
  unfold decode_quad.
  rewrite !index_of_char_of by divmod.
  replace (x / 4 * 4 + ((x mod 4) * 16) / 16)%N with x by divmod.
  unfold x. by rewrite ascii_N_embedding.
Qed.

Lemma b64decode_b64encode_bounded (n : nat) (bs : list ascii) :
  (List.length bs <= n)%nat -> b64decode (b64encode bs) = Some bs.
Proof.
  revert bs. induction n as [|n IH]; intros bs Hlen.
  - destruct bs; [reflexivity | simpl in Hlen; lia].
  - destruct bs as [|a [|b [|c rest]]].
    + reflexivity.
    + cbn [b64encode b64decode]. by rewrite decode_quad_one.
    + cbn [b64encode b64decode]. by rewrite decode_quad_two.
    + cbn [b64encode b64decode]. rewrite decode_quad_three.
      destruct rest as [|d rest']; [reflexivity|].
      assert (Hrec : b64decode (b64encode (d :: rest')) = Some (d :: rest')).
      { apply IH. simpl in Hlen |- *. lia. }
      destruct (b64encode (d :: rest')) as [|e enc] eqn:Henc.
      * destruct rest' as [|? [|? ?]]; discriminate Henc.
      * cbn [List.length Nat.eqb]. by rewrite Hrec.
Qed.

(** [b64decode] is a left inverse of [b64encode]. *)
Lemma b64decode_b64encode (bs : list ascii) :
  b64decode (b64encode bs) = Some bs.
Proof. by apply (b64decode_b64encode_bounded (List.length bs)). Qed.

End Base64Facts.

(** C9. [generate_api_key] is a function of its two arguments (two calls
    with the same username and password give the same key), and the key
    is a reversible encoding: Base64-decoding it gives back exactly the
    text [username:password]. *)
Theorem generate_api_key_reversible (username password : string) :
  (forall k1 k2,
      k1 = generate_api_key username password ->
      k2 = generate_api_key username password -> k1 = k2)
  /\ option_map bytes_decode
       (Base64.b64decode (str_encode (generate_api_key username password)))
     = Some (username +:+ ":" +:+ password).
Proof.
  split; [congruence|].
  unfold generate_api_key, str_encode, bytes_decode.
  rewrite list_ascii_of_string_of_list_ascii.
  rewrite Base64Facts.b64decode_b64encode. simpl.
  by rewrite string_of_list_ascii_of_string.
Qed.

(** ** The polling loops *)

Lemma after_after (s : state) rs es rs' es' :
  after (after s rs es) rs' es' = after s rs' (es ++ es').
Proof. unfold after. simpl. by rewrite app_assoc. Qed.

Lemma str_eq_true (v : json) (lit : string) :
  str_eq v lit = true -> v = JStr lit.
Proof.
  destruct v; simpl; try discriminate.
  intros H. apply String.eqb_eq in H. by subst.
Qed.

Lemma completed_read (r : response) :
  completed r = true ->
  Z.eqb (status_code r) 200 = true /\ read_status r = inr "completed".
Proof.
  unfold completed, read_status, status_of.
  intros H. apply andb_true_iff in H as [Hc Hs]. split; [done|].
  destruct (text_json r) as [[| | | | |fields]|]; try discriminate.
  destruct (assoc "status" fields) as [v|]; [|discriminate].
  apply str_eq_true in Hs. by subst.
Qed.

Lemma pending_read (r : response) :
  status_reply r = true -> completed r = false ->
  Z.eqb (status_code r) 200 = false
  \/ exists st, Z.eqb (status_code r) 200 = true
       /\ read_status r = inr st /\ String.eqb st "completed" = false.
Proof.
  unfold status_reply, completed, read_status, status_of.
  destruct (Z.eqb (status_code r) 200); [|by left].
  simpl. intros Hw Hc. right.
  destruct (text_json r) as [[| | | | |fields]|]; try discriminate.
  destruct (assoc "status" fields) as [[| | |st| |]|]; try discriminate.
  exists st. by simpl in Hc.
Qed.

Lemma read_not_completed (r : response) st :
  completed r = false -> Z.eqb (status_code r) 200 = true ->
  read_status r = inr st -> String.eqb st "completed" = false.
Proof.
  unfold completed, read_status, status_of. intros Hc H200. rewrite H200 in Hc.
  simpl in Hc.
  destruct (text_json r) as [[| | | | |fields]|]; try discriminate.
  destruct (assoc "status" fields) as [[| | |st'| |]|]; try discriminate.
  intros [= <-]. exact Hc.
Qed.

(** The two polling loops of the client have the same shape; their
    properties are proved once, for a loop body that is known by what one
    poll does. *)
Section PollingLoop.

Context {L : Type}.
Variables (body : L -> M L) (stat : L -> json) (cnt : L -> Z).
Variables (next : L -> json -> response -> L).
Variables (d : gmap string pyval) (url : string) (hs : pyval).

Abbreviation cond := (polling stat).
Abbreviation locals_after := (locals_after stat next).

Hypothesis stat_next : forall l st r, stat (next l st r) = st.
Hypothesis cnt_next : forall l st r, cnt (next l st r) = cnt l + 1.

Hypothesis body_step : forall s l r rest,
  hda_dict s = d -> script s = r :: rest ->
  body l s =
    let s' := after s rest (poll_event url hs (cnt l + 1)) in
    if Z.eqb (status_code r) 200 then
      match read_status r with
      | inr st => Ret (next l (JStr st) r) s'
      | inl e => Raise e s'
      end
    else Ret (next l (stat l) r) s'.

Hypothesis body_blocked : forall s l,
  hda_dict s = d -> script s = [] ->
  body l s = Blocked (after s [] (poll_event url hs (cnt l + 1))).

Lemma body_pending (s : state) l r rest :
  hda_dict s = d -> script s = r :: rest -> pending r -> cond l = true ->
  exists l', body l s = Ret l' (after s rest (poll_event url hs (cnt l + 1)))
    /\ l' = locals_after l [r] /\ cond l' = true /\ cnt l' = cnt l + 1.
Proof.
  intros Hd Hs [Hw Hc] Hl. rewrite (body_step s l r rest Hd Hs). simpl.
  destruct (pending_read r Hw Hc) as [H200 | (st & H200 & Hst & Hne)];
    rewrite H200; [| rewrite Hst]; eexists; (split; [reflexivity|]);
    rewrite ?cnt_next; unfold polling; rewrite stat_next; simpl.
  - done.
  - by rewrite Hne.
Qed.

Lemma body_completed (s : state) l r rest :
  hda_dict s = d -> script s = r :: rest -> completed r = true ->
  body l s = Ret (next l (JStr "completed") r)
               (after s rest (poll_event url hs (cnt l + 1))).
Proof.
  intros Hd Hs Hc. rewrite (body_step s l r rest Hd Hs). simpl.
  destruct (completed_read r Hc) as [-> ->]. reflexivity.
Qed.

(** The loop ends at the first response that is completed. *)
Lemma while_completes (waiting : list response) :
  forall fuel s l last rest,
    hda_dict s = d ->
    script s = waiting ++ last :: rest ->
    Forall pending waiting -> completed last = true ->
    cond l = true -> (List.length waiting < fuel)%nat ->
    while fuel cond body l s =
      Ret (next (locals_after l waiting) (JStr "completed") last)
        (after s rest
           (polls_from url hs (cnt l) (S (List.length waiting)))).
Proof.
  induction waiting as [|r waiting IH];
    intros fuel s l last rest Hd Hs Hw Hc Hl Hfuel.
  - destruct fuel as [|fuel]; [simpl in Hfuel; lia|].
    simpl in Hs. simpl. rewrite Hl.
    rewrite (body_completed s l last rest Hd Hs Hc).
    rewrite app_nil_r.
    destruct fuel; simpl; unfold polling; by rewrite stat_next.
  - destruct fuel as [|fuel]; [simpl in Hfuel; lia|].
    simpl in Hs. pose proof (Forall_inv Hw) as Hr. pose proof (Forall_inv_tail Hw) as Hw'.
    destruct (body_pending s l r _ Hd Hs Hr Hl) as (l' & Hb & El & Hl' & Hc').
    cbn [while]. rewrite Hl, Hb.
    rewrite (IH fuel _ l' last rest); try done.
    + rewrite after_after. rewrite Hc'. subst l'. reflexivity.
    + simpl in Hfuel. lia.
Qed.

(** While no response is completed the loop goes on: against the replies
    [waiting] and nothing more, it is left waiting for the next one. *)
Lemma while_blocked (waiting : list response) :
  forall fuel s l,
    hda_dict s = d -> script s = waiting -> Forall pending waiting ->
    cond l = true -> (List.length waiting < fuel)%nat ->
    while fuel cond body l s =
      Blocked (after s []
                 (polls_from url hs (cnt l) (S (List.length waiting)))).
Proof.
  induction waiting as [|r waiting IH]; intros fuel s l Hd Hs Hw Hl Hfuel.
  - destruct fuel as [|fuel]; [simpl in Hfuel; lia|].
    simpl. rewrite Hl. rewrite (body_blocked s l Hd Hs).
    by rewrite app_nil_r.
  - destruct fuel as [|fuel]; [simpl in Hfuel; lia|].
    pose proof (Forall_inv Hw) as Hr. pose proof (Forall_inv_tail Hw) as Hw'.
    destruct (body_pending s l r _ Hd Hs Hr Hl) as (l' & Hb & El & Hl' & Hc').
    cbn [while]. rewrite Hl, Hb.
    rewrite (IH fuel _ l'); try done.
    + rewrite after_after. by rewrite Hc'.
    + simpl in Hfuel. lia.
Qed.

(** Whatever the responses are, the loop does not return as long as none
    of them is completed. *)
Lemma while_no_return (rs : list response) :
  forall fuel s l,
    hda_dict s = d -> script s = rs ->
    Forall (fun r => completed r = false) rs -> cond l = true ->
    forall l' s', while fuel cond body l s <> Ret l' s'.
Proof.
  induction rs as [|r rs IH]; intros fuel s l Hd Hs Hn Hl l' s'.
  - destruct fuel as [|fuel]; simpl; rewrite Hl; [discriminate|].
    by rewrite (body_blocked s l Hd Hs).
  - destruct fuel as [|fuel]; simpl; rewrite Hl; [discriminate|].
    pose proof (Forall_inv Hn) as Hr. pose proof (Forall_inv_tail Hn) as Hn'.
    rewrite (body_step s l r rs Hd Hs). simpl.
    destruct (Z.eqb (status_code r) 200) eqn:H200.
    + destruct (read_status r) as [e|st] eqn:Hst; [discriminate|].
      apply IH; try done.
      unfold polling. rewrite stat_next. simpl.
      by rewrite (read_not_completed r st Hr H200 Hst).
    + apply IH; try done. unfold polling. by rewrite stat_next.
Qed.

End PollingLoop.

(** *** The two loops of the client *)

Section Session.

Variables (d : gmap string pyval) (ep : string) (hs : pyval).
Hypothesis Hpoll : can_poll d ep hs.

(** One poll of [get_request_status] that receives the response [r]. *)
Lemma request_status_body_step (job : string) (s : state) l r rest :
  d !! "job_id" = Some (PJson (JStr job)) ->
  hda_dict s = d -> script s = r :: rest ->
  request_status_body l s =
    let url := (ep +:+ "/datarequest/status/") +:+ job in
    let s' := after s rest (poll_event url hs (snd l + 1)) in
    if Z.eqb (status_code r) 200 then
      match read_status r with
      | inr st => Ret (next_request l (JStr st) r) s'
      | inl e => Raise e s'
      end
    else Ret (next_request l (fst l) r) s'.
Proof.
  intros Hjob Hd Hscript. destruct l as [status count].
  destruct Hpoll as (Hep & Hhs & Hok).
  unfold after, poll_event, read_status, next_request.
  unfold request_status_body, bind, sleep, getitem, ret.
  destruct (Z.ltb 20 (count + 1)) eqn:Hc; simpl; rewrite ?Hc; simpl;
    rewrite Hd, Hep; simpl; rewrite Hd, Hjob; simpl; rewrite Hd, Hhs; simpl;
    unfold requests; simpl; rewrite Hscript; simpl; rewrite Hd, Hok; simpl;
    unfold set_script, log; simpl; rewrite <- ?app_assoc, ?Hd; simpl;
    destruct (Z.eqb (status_code r) 200); try reflexivity;
    unfold json_loads; destruct (text_json r) as [[| | | | |fields]|];
      try reflexivity; simpl;
    destruct (assoc "status" fields) as [[| | | | |]|]; reflexivity.
Qed.

Lemma request_status_body_blocked (job : string) (s : state) l :
  d !! "job_id" = Some (PJson (JStr job)) ->
  hda_dict s = d -> script s = [] ->
  request_status_body l s =
    Blocked (after s []
               (poll_event ((ep +:+ "/datarequest/status/") +:+ job) hs
                  (snd l + 1))).
Proof.
  intros Hjob Hd Hscript. destruct l as [status count].
  destruct Hpoll as (Hep & Hhs & Hok).
  unfold after, poll_event.
  unfold request_status_body, bind, sleep, getitem, ret.
  destruct (Z.ltb 20 (count + 1)) eqn:Hc; simpl; rewrite ?Hc; simpl;
    rewrite Hd, Hep; simpl; rewrite Hd, Hjob; simpl; rewrite Hd, Hhs; simpl;
    unfold requests; simpl; rewrite Hscript; simpl;
    unfold log; simpl; rewrite <- ?app_assoc, ?Hd, ?Hscript; reflexivity.
Qed.

(** One poll of [get_order_status] that receives the response [r]. *)
Lemma order_status_body_step (oid : string) (s : state) l r rest :
  hda_dict s = d -> script s = r :: rest ->
  order_status_body (JStr oid) l s =
    let url := (ep +:+ "/dataorder/status/") +:+ oid in
    let s' := after s rest (poll_event url hs (snd (fst l) + 1)) in
    if Z.eqb (status_code r) 200 then
      match read_status r with
      | inr st => Ret (next_order l (JStr st) r) s'
      | inl e => Raise e s'
      end
    else Ret (next_order l (fst (fst l)) r) s'.
Proof.
  intros Hd Hscript. destruct l as [[status count] resp].
  destruct Hpoll as (Hep & Hhs & Hok).
  unfold after, poll_event, read_status, next_order.
  unfold order_status_body, bind, sleep, getitem, ret.
  destruct (Z.ltb 20 (count + 1)) eqn:Hc; simpl; rewrite ?Hc; simpl;
    rewrite Hd, Hep; simpl; rewrite Hd, Hhs; simpl;
    unfold requests; simpl; rewrite Hscript; simpl; rewrite Hd, Hok; simpl;
    unfold set_script, log; simpl; rewrite <- ?app_assoc, ?Hd; simpl;
    destruct (Z.eqb (status_code r) 200); try reflexivity;
    unfold json_loads; destruct (text_json r) as [[| | | | |fields]|];
      try reflexivity; simpl;
    destruct (assoc "status" fields) as [[| | | | |]|]; reflexivity.
Qed.

Lemma order_status_body_blocked (oid : string) (s : state) l :
  hda_dict s = d -> script s = [] ->
  order_status_body (JStr oid) l s =
    Blocked (after s []
               (poll_event ((ep +:+ "/dataorder/status/") +:+ oid) hs
                  (snd (fst l) + 1))).
Proof.
  intros Hd Hscript. destruct l as [[status count] resp].
  destruct Hpoll as (Hep & Hhs & Hok).
  unfold after, poll_event.
  unfold order_status_body, bind, sleep, getitem, ret.
  destruct (Z.ltb 20 (count + 1)) eqn:Hc; simpl; rewrite ?Hc; simpl;
    rewrite Hd, Hep; simpl; rewrite Hd, Hhs; simpl;
    unfold requests; simpl; rewrite Hscript; simpl;
    unfold log; simpl; rewrite <- ?app_assoc, ?Hd, ?Hscript; reflexivity.
Qed.

End Session.

(** ** The fuel of the loops is never what stops a run *)

Lemma while_blocked_starved {L : Type} (cond : L -> bool) (body : L -> M L) :
  (forall l s l' s',
      body l s = Ret l' s' ->
      (List.length (script s') < List.length (script s))%nat) ->
  (forall l s s', body l s = Blocked s' -> script s' = []) ->
  forall fuel l s s',
    (List.length (script s) < fuel)%nat ->
    while fuel cond body l s = Blocked s' -> script s' = [].
Proof.
  intros Hret Hblocked. induction fuel as [|fuel IH]; intros l s s' Hfuel.
  - lia.
  - cbn [while]. destruct (cond l); [|discriminate].
    destruct (body l s) as [l1 s1|e s1|s1] eqn:Hbody; try discriminate.
    + apply IH. specialize (Hret l s l1 s1 Hbody). lia.
    + intros [= <-]. by apply (Hblocked l s).
Qed.

Lemma requests_ret (m : method) url hs payload (s : state) r s' :
  requests m url hs payload s = Ret r s' ->
  (List.length (script s') < List.length (script s))%nat.
Proof.
  unfold requests. destruct url as [[| | |u| |]|]; try discriminate.
  cbn [script log]. destruct (script s) as [|r0 rest]; [discriminate|].
  intros [= <- <-]. simpl. lia.
Qed.

Lemma requests_blocked (m : method) url hs payload (s s' : state) :
  requests m url hs payload s = Blocked s' -> script s' = [].
Proof.
  unfold requests. destruct url as [[| | |u| |]|]; try discriminate.
  cbn [script log]. destruct (script s) as [|r0 rest] eqn:Hs; [|discriminate].
  intros [= <-]. exact Hs.
Qed.

Ltac run_cases H :=
  unfold request_status_body, order_status_body, bind, sleep, getitem,
    str_add, requests, json_loads, subscript, ret, raise in H;
  repeat (case_match; try discriminate; simplify_eq);
  cbn [script log set_script] in *; simplify_eq.

Lemma request_status_body_ret l s l' s' :
  request_status_body l s = Ret l' s' ->
  (List.length (script s') < List.length (script s))%nat.
Proof.
  destruct l as [status count]. intros H. run_cases H;
    match goal with E : script _ = _ :: _ |- _ => rewrite E end; simpl; lia.
Qed.

Lemma request_status_body_starved l s s' :
  request_status_body l s = Blocked s' -> script s' = [].
Proof. destruct l as [status count]. intros H. by run_cases H. Qed.

Lemma order_status_body_ret oid l s l' s' :
  order_status_body oid l s = Ret l' s' ->
  (List.length (script s') < List.length (script s))%nat.
Proof.
  destruct l as [[status count] resp]. intros H. run_cases H;
    match goal with E : script _ = _ :: _ |- _ => rewrite E end; simpl; lia.
Qed.

Lemma order_status_body_starved oid l s s' :
  order_status_body oid l s = Blocked s' -> script s' = [].
Proof. destruct l as [[status count] resp]. intros H. by run_cases H. Qed.

(** Whatever the session and the responses are, a polling loop that is
    left waiting has used up the responses of the script: it waits for
    the broker, not for fuel. *)
Lemma polling_waits_for_the_broker (s s' : state) :
  (get_request_status s = Blocked s' -> script s' = [])
  /\ (forall oid, get_order_status oid s = Blocked s' -> script s' = []).
Proof.
  split.
  - unfold get_request_status, bind, polls_left.
    destruct (while _ _ _ _ s) as [l1 s1|e s1|s1] eqn:Hw; try discriminate.
    intros [= <-].
    eapply (while_blocked_starved _ _ request_status_body_ret
              request_status_body_starved); [|exact Hw].
    lia.
  - intros oid. unfold get_order_status, bind, polls_left.
    destruct (while _ _ _ _ s) as [l1 s1|e s1|s1] eqn:Hw.
    + unfold local, ret, raise. by destruct (snd l1).
    + discriminate.
    + intros [= <-].
      eapply (while_blocked_starved _ _ (order_status_body_ret oid)
                (order_status_body_starved oid)); [|exact Hw].
      lia.
Qed.

(** *** The events of a run of polls *)

Lemma polls_from_flat_map (url : string) (hs : pyval) (n : nat) :
  forall c : nat,
    polls_from url hs (Z.of_nat c) n =
    flat_map (fun k => poll_event url hs (Z.of_nat k)) (seq (S c) n).
Proof.
  induction n as [|n IH]; intros c; [reflexivity|].
  cbn [polls_from seq flat_map].
  replace (Z.of_nat c + 1) with (Z.of_nat (S c)) by lia.
  by rewrite IH.
Qed.

Lemma polls_from_requests (url : string) (hs : pyval) (n : nat) :
  forall c, List.length (List.filter is_request (polls_from url hs c n)) = n.
Proof.
  induction n as [|n IH]; intros c; [reflexivity|].
  cbn [polls_from]. rewrite List.filter_app, length_app, IH.
  unfold poll_event. by destruct (Z.ltb 20 (c + 1)).
Qed.

Lemma polls_from_sleeps (url : string) (hs : pyval) (n : nat) :
  forall c, 0 <= c ->
    Z.of_nat (List.length (List.filter is_sleep (polls_from url hs c n))) =
    Z.max 0 (c + Z.of_nat n - Z.max c 20).
Proof.
  induction n as [|n IH]; intros c Hc; [simpl; lia|].
  cbn [polls_from]. rewrite List.filter_app, length_app, Nat2Z.inj_add.
  rewrite IH by lia.
  unfold poll_event. destruct (Z.ltb_spec 20 (c + 1)); simpl; lia.
Qed.

(** *** [get_request_status] and [get_order_status] as a whole *)

Lemma get_request_status_completes (s : state) ep hs job waiting last rest :
  can_poll (hda_dict s) ep hs ->
  hda_dict s !! "job_id" = Some (PJson (JStr job)) ->
  script s = waiting ++ last :: rest ->
  Forall pending waiting -> completed last = true ->
  get_request_status s =
    Ret tt (after s rest
              (polls_from ((ep +:+ "/datarequest/status/") +:+ job) hs 0
                 (S (List.length waiting)))).
Proof.
  intros Hpoll Hjob Hs Hw Hc.
  unfold get_request_status, bind, polls_left.
  pose proof (while_completes request_status_body fst snd next_request
                (hda_dict s) ((ep +:+ "/datarequest/status/") +:+ job) hs
                (fun _ _ _ => eq_refl) (fun _ _ _ => eq_refl)
                (fun s0 l r rs =>
                   request_status_body_step _ ep hs Hpoll job s0 l r rs Hjob)
                waiting (S (List.length (script s))) s
                (JStr "not started", 0) last rest eq_refl Hs Hw Hc eq_refl)
    as H.
  unfold polling in H. rewrite H; [reflexivity|].
  rewrite Hs, length_app. lia.
Qed.

Lemma get_request_status_blocked (s : state) ep hs job :
  can_poll (hda_dict s) ep hs ->
  hda_dict s !! "job_id" = Some (PJson (JStr job)) ->
  Forall pending (script s) ->
  get_request_status s =
    Blocked (after s []
               (polls_from ((ep +:+ "/datarequest/status/") +:+ job) hs 0
                  (S (List.length (script s))))).
Proof.
  intros Hpoll Hjob Hw.
  unfold get_request_status, bind, polls_left.
  pose proof (while_blocked request_status_body fst snd next_request
                (hda_dict s) ((ep +:+ "/datarequest/status/") +:+ job) hs
                (fun _ _ _ => eq_refl) (fun _ _ _ => eq_refl)
                (fun s0 l r rs =>
                   request_status_body_step _ ep hs Hpoll job s0 l r rs Hjob)
                (fun s0 l =>
                   request_status_body_blocked _ ep hs Hpoll job s0 l Hjob)
                (script s) (S (List.length (script s))) s
                (JStr "not started", 0) eq_refl eq_refl Hw eq_refl)
    as H.
  unfold polling in H. rewrite H; [reflexivity|lia].
Qed.

Lemma get_request_status_no_return (s : state) ep hs job :
  can_poll (hda_dict s) ep hs ->
  hda_dict s !! "job_id" = Some (PJson (JStr job)) ->
  Forall (fun r => completed r = false) (script s) ->
  forall a s', get_request_status s <> Ret a s'.
Proof.
  intros Hpoll Hjob Hn a s'.
  unfold get_request_status, bind, polls_left.
  pose proof (while_no_return request_status_body fst snd next_request
                (hda_dict s) ((ep +:+ "/datarequest/status/") +:+ job) hs
                (fun _ _ _ => eq_refl)
                (fun s0 l r rs =>
                   request_status_body_step _ ep hs Hpoll job s0 l r rs Hjob)
                (fun s0 l =>
                   request_status_body_blocked _ ep hs Hpoll job s0 l Hjob)
                (script s) (S (List.length (script s))) s
                (JStr "not started", 0) eq_refl eq_refl Hn eq_refl)
    as H.
  unfold polling in H.
  destruct (while _ _ _ _ s) as [l s1| |] eqn:E; try discriminate.
  by destruct (H l s1).
Qed.

Lemma get_order_status_completes (s : state) ep hs oid waiting last rest :
  can_poll (hda_dict s) ep hs ->
  script s = waiting ++ last :: rest ->
  Forall pending waiting -> completed last = true ->
  get_order_status (JStr oid) s =
    Ret last (after s rest
                (polls_from ((ep +:+ "/dataorder/status/") +:+ oid) hs 0
                   (S (List.length waiting)))).
Proof.
  intros Hpoll Hs Hw Hc.
  unfold get_order_status, bind, polls_left.
  pose proof (while_completes (order_status_body (JStr oid))
                (fun l => fst (fst l)) (fun l => snd (fst l)) next_order
                (hda_dict s) ((ep +:+ "/dataorder/status/") +:+ oid) hs
                (fun _ _ _ => eq_refl) (fun _ _ _ => eq_refl)
                (order_status_body_step _ ep hs Hpoll oid)
                waiting (S (List.length (script s))) s
                (JStr "not started", 0, None) last rest eq_refl Hs Hw Hc
                eq_refl)
    as H.
  unfold polling in H. rewrite H; [reflexivity|].
  rewrite Hs, length_app. lia.
Qed.

Lemma get_order_status_blocked (s : state) ep hs oid :
  can_poll (hda_dict s) ep hs ->
  Forall pending (script s) ->
  get_order_status (JStr oid) s =
    Blocked (after s []
               (polls_from ((ep +:+ "/dataorder/status/") +:+ oid) hs 0
                  (S (List.length (script s))))).
Proof.
  intros Hpoll Hw.
  unfold get_order_status, bind, polls_left.
  pose proof (while_blocked (order_status_body (JStr oid))
                (fun l => fst (fst l)) (fun l => snd (fst l)) next_order
                (hda_dict s) ((ep +:+ "/dataorder/status/") +:+ oid) hs
                (fun _ _ _ => eq_refl) (fun _ _ _ => eq_refl)
                (order_status_body_step _ ep hs Hpoll oid)
                (order_status_body_blocked _ ep hs Hpoll oid)
                (script s) (S (List.length (script s))) s
                (JStr "not started", 0, None) eq_refl eq_refl Hw eq_refl)
    as H.
  unfold polling in H. rewrite H; [reflexivity|lia].
Qed.

Lemma get_order_status_no_return (s : state) ep hs oid :
  can_poll (hda_dict s) ep hs ->
  Forall (fun r => completed r = false) (script s) ->
  forall a s', get_order_status (JStr oid) s <> Ret a s'.
Proof.
  intros Hpoll Hn a s'.
  unfold get_order_status, bind, polls_left.
  pose proof (while_no_return (order_status_body (JStr oid))
                (fun l => fst (fst l)) (fun l => snd (fst l)) next_order
                (hda_dict s) ((ep +:+ "/dataorder/status/") +:+ oid) hs
                (fun _ _ _ => eq_refl)
                (order_status_body_step _ ep hs Hpoll oid)
                (order_status_body_blocked _ ep hs Hpoll oid)
                (script s) (S (List.length (script s))) s
                (JStr "not started", 0, None) eq_refl eq_refl Hn eq_refl)
    as H.
  unfold polling in H.
  destruct (while _ _ _ _ s) as [l s1| |] eqn:E; try discriminate.
  by destruct (H l s1).
Qed.

(** C2. When the N-th poll is the first to return HTTP 200 with the status
    ["completed"], [get_request_status] makes exactly N polls and returns.
    Poll number k is the request alone when k is at most 20 and is
    preceded by a sleep of five seconds when k is above 20.  The replies
    before the N-th may carry any status string other than ["completed"]
    (["failed"] as well as ["running"]), or any code other than 200: none
    of them ends the loop. *)
Theorem get_request_status_polls (s : state) (ep : string) (hs : pyval)
    (job : string) (waiting : list response) (last : response)
    (rest : list response) :
  can_poll (hda_dict s) ep hs ->
  hda_dict s !! "job_id" = Some (PJson (JStr job)) ->
  script s = waiting ++ last :: rest ->
  Forall pending waiting ->
  completed last = true ->
  let N := S (List.length waiting) in
  let url := (ep +:+ "/datarequest/status/") +:+ job in
  let polls :=
    flat_map (fun k => poll_event url hs (Z.of_nat k)) (seq 1 N) in
  get_request_status s = Ret tt (after s rest polls)
  /\ List.length (List.filter is_request polls) = N
  /\ List.length (List.filter is_sleep polls) = (N - 20)%nat.
Proof.
  intros Hpoll Hjob Hs Hw Hc N url polls.
  assert (E : polls = polls_from url hs 0 N).
  { unfold polls. symmetry. apply (polls_from_flat_map url hs N 0). }
  rewrite E. split; [|split].
  - by apply (get_request_status_completes s ep hs job waiting last rest).
  - apply polls_from_requests.
  - pose proof (polls_from_sleeps url hs N 0 ltac:(lia)) as H. lia.
Qed.

Lemma get_request_status_polls_witness :
  let waiting :=
    repeat (status_response "running") 20
      ++ [error_response 503; status_response "failed"] in
  let s := start sample_session
             (waiting ++ [status_response "completed"; error_response 500]) in
  let url := sample_endpoint +:+ "/datarequest/status/job-1" in
  get_request_status s =
    Ret tt (after s [error_response 500]
              (repeat (Request GET url sample_headers None) 20
                 ++ [Sleep 5; Request GET url sample_headers None;
                     Sleep 5; Request GET url sample_headers None;
                     Sleep 5; Request GET url sample_headers None])).
Proof.
  intros waiting s url.
  refine (proj1 (get_request_status_polls s sample_endpoint sample_headers
                   "job-1" waiting (status_response "completed")
                   [error_response 500] _ _ _ _ _)).
  - repeat split; vm_compute; reflexivity.
  - vm_compute; reflexivity.
  - reflexivity.
  - unfold waiting. apply Forall_app. split.
    + apply Forall_forall. intros r Hr. apply list_elem_of_In, repeat_spec in Hr. subst r.
      split; reflexivity.
    + repeat constructor.
  - reflexivity.
Defined.

(** *** Endless sequences of responses *)

Lemma length_prefix (srv : nat -> response) (n : nat) :
  List.length (prefix srv n) = n.
Proof. unfold prefix. by rewrite length_map, length_seq. Qed.

Lemma Forall_prefix (P : response -> Prop) (srv : nat -> response) (n : nat) :
  (forall k, (k < n)%nat -> P (srv k)) -> Forall P (prefix srv n).
Proof.
  intros H. unfold prefix. apply Forall_forall. intros r Hr.
  apply list_elem_of_In, in_map_iff in Hr as (k & <- & Hk).
  apply in_seq in Hk. apply H. lia.
Qed.

Lemma prefix_S (srv : nat -> response) (n : nat) :
  prefix srv (S n) = prefix srv n ++ [srv n].
Proof. unfold prefix. by rewrite seq_S, map_app. Qed.

(** The first index at which a boolean sequence is true. *)
Lemma first_true (k : nat) :
  forall p : nat -> bool, p k = true ->
    exists m, p m = true /\ forall j, (j < m)%nat -> p j = false.
Proof.
  induction k as [|k IH]; intros p Hk.
  - exists 0%nat. split; [done|]. intros j Hj. lia.
  - destruct (p 0%nat) eqn:H0.
    + exists 0%nat. split; [done|]. intros j Hj. lia.
    + destruct (IH (fun i => p (S i)) Hk) as (m & Hm & Hlt).
      exists (S m). split; [done|].
      intros [|j] Hj; [done|]. apply Hlt. lia.
Qed.

Lemma completed_in_prefix (srv : nat -> response) (n : nat) :
  ~ Forall (fun r => completed r = false) (prefix srv n) ->
  exists k, completed (srv k) = true.
Proof.
  intros H.
  destruct (List.Forall_Exists_dec (fun r => completed r = false)
              (fun r => bool_dec (completed r) false) (prefix srv n))
    as [Hall | Hex]; [done|].
  apply List.Exists_exists in Hex as (r & Hr & Hc).
  apply in_map_iff in Hr as (k & <- & _).
  exists k. by destruct (completed (srv k)).
Qed.

(** A polling loop ends with the exception that reading a reply raises:
    the generic form, for a loop body known by what one poll does. *)
Section PollingRaises.

Context {L : Type}.
Variables (body : L -> M L) (stat : L -> json) (cnt : L -> Z).
Variables (next : L -> json -> response -> L).
Variables (d : gmap string pyval) (url : string) (hs : pyval).

Hypothesis stat_next : forall l st r, stat (next l st r) = st.
Hypothesis cnt_next : forall l st r, cnt (next l st r) = cnt l + 1.

Hypothesis body_step : forall s l r rest,
  hda_dict s = d -> script s = r :: rest ->
  body l s =
    let s' := after s rest (poll_event url hs (cnt l + 1)) in
    if Z.eqb (status_code r) 200 then
      match read_status r with
      | inr st => Ret (next l (JStr st) r) s'
      | inl e => Raise e s'
      end
    else Ret (next l (stat l) r) s'.

Lemma while_raises (waiting : list response) :
  forall fuel s l bad rest e,
    hda_dict s = d ->
    script s = waiting ++ bad :: rest ->
    Forall pending waiting ->
    status_code bad = 200 -> read_status bad = inl e ->
    polling stat l = true -> (List.length waiting < fuel)%nat ->
    while fuel (polling stat) body l s =
      Raise e
        (after s rest
           (polls_from url hs (cnt l) (S (List.length waiting)))).
Proof.
  induction waiting as [|r waiting IH];
    intros fuel s l bad rest e Hd Hs Hw H200 Hbad Hl Hfuel.
  - destruct fuel as [|fuel]; [simpl in Hfuel; lia|].
    simpl in Hs. simpl. rewrite Hl.
    rewrite (body_step s l bad rest Hd Hs). cbn zeta.
    rewrite H200, Hbad. cbn [Z.eqb Pos.eqb]. by rewrite app_nil_r.
  - destruct fuel as [|fuel]; [simpl in Hfuel; lia|].
    simpl in Hs.
    pose proof (Forall_inv Hw) as Hr. pose proof (Forall_inv_tail Hw) as Hw'.
    destruct (body_pending body stat cnt next d url hs stat_next cnt_next
                body_step s l r _ Hd Hs Hr Hl)
      as (l' & Hb & El & Hl' & Hc').
    cbn [while]. rewrite Hl, Hb.
    rewrite (IH fuel _ l' bad rest e); try done.
    + rewrite after_after. by rewrite Hc'.
    + simpl in Hfuel. lia.
Qed.

End PollingRaises.

Lemma get_request_status_raises (s : state) ep hs job waiting bad rest e :
  can_poll (hda_dict s) ep hs ->
  hda_dict s !! "job_id" = Some (PJson (JStr job)) ->
  script s = waiting ++ bad :: rest ->
  Forall pending waiting ->
  status_code bad = 200 -> read_status bad = inl e ->
  get_request_status s =
    Raise e (after s rest
               (polls_from ((ep +:+ "/datarequest/status/") +:+ job) hs 0
                  (S (List.length waiting)))).
Proof.
  intros Hpoll Hjob Hs Hw H200 Hbad.
  unfold get_request_status, bind, polls_left.
  pose proof (while_raises request_status_body fst snd next_request
                (hda_dict s) ((ep +:+ "/datarequest/status/") +:+ job) hs
                (fun _ _ _ => eq_refl) (fun _ _ _ => eq_refl)
                (fun s0 l r rs =>
                   request_status_body_step _ ep hs Hpoll job s0 l r rs Hjob)
                waiting (S (List.length (script s))) s
                (JStr "not started", 0) bad rest e eq_refl Hs Hw H200 Hbad
                eq_refl) as H.
  unfold polling in H. rewrite H; [reflexivity|].
  rewrite Hs, length_app. lia.
Qed.

Lemma get_order_status_raises (s : state) ep hs oid waiting bad rest e :
  can_poll (hda_dict s) ep hs ->
  script s = waiting ++ bad :: rest ->
  Forall pending waiting ->
  status_code bad = 200 -> read_status bad = inl e ->
  get_order_status (JStr oid) s =
    Raise e (after s rest
               (polls_from ((ep +:+ "/dataorder/status/") +:+ oid) hs 0
                  (S (List.length waiting)))).
Proof.
  intros Hpoll Hs Hw H200 Hbad.
  unfold get_order_status, bind, polls_left.
  pose proof (while_raises (order_status_body (JStr oid))
                (fun l => fst (fst l)) (fun l => snd (fst l)) next_order
                (hda_dict s) ((ep +:+ "/dataorder/status/") +:+ oid) hs
                (fun _ _ _ => eq_refl) (fun _ _ _ => eq_refl)
                (order_status_body_step _ ep hs Hpoll oid)
                waiting (S (List.length (script s))) s
                (JStr "not started", 0, None) bad rest e eq_refl Hs Hw
                H200 Hbad eq_refl) as H.
  unfold polling in H. rewrite H; [reflexivity|].
  rewrite Hs, length_app. lia.
Qed.

(** The responses after the [m]-th one, in a longer prefix. *)
Lemma prefix_split (srv : nat -> response) (m n : nat) :
  (m < n)%nat ->
  prefix srv n = prefix srv m ++ srv m :: map srv (seq (S m) (n - S m)).
Proof.
  intros H. unfold prefix.
  replace n with (m + S (n - S m))%nat at 1 by lia.
  by rewrite seq_app, map_app.
Qed.

(** Replies of a status endpoint either all keep a loop going, or have a
    first one that is completed. *)
Lemma status_replies_cases (rs : list response) :
  Forall (fun r => status_reply r = true) rs ->
  Forall pending rs
  \/ exists waiting last rest,
       rs = waiting ++ last :: rest
       /\ Forall pending waiting /\ completed last = true.
Proof.
  induction 1 as [|r rs Hr _ IH]; [by left|].
  destruct (completed r) eqn:Hc.
  - right. by exists [], r, rs.
  - destruct IH as [Hall | (waiting & last & rest & -> & Hw & Hl)].
    + left. by constructor.
    + right. exists (r :: waiting), last, rest.
      split; [reflexivity|]. split; [|done]. by constructor.
Qed.

(** C3. The two polling loops have no bound on the number of polls, and
    what ends them is a reply that is HTTP 200: with the status
    ["completed"], or without a status that can be read.  Against an
    endless sequence of responses none of which is HTTP 200 with the
    status ["completed"], neither loop ever returns; when the responses
    are replies of a status endpoint (an HTTP 200 reply carries a string
    status; sequences of error responses only are among them), the loop
    is still polling after any number [n] of responses: it has sent
    [n + 1] requests and waits.  Against replies of a status endpoint a
    loop never ends with an exception, and it returns if and only if
    some response is HTTP 200 with the status ["completed"].  And where
    the first response that is not such a reply comes before any
    completed one, at index [m], the loop ends there with the exception
    of reading it, after [m + 1] polls. *)
Theorem polling_unbounded (s : state) (ep : string) (hs : pyval)
    (job oid : string) (srv : nat -> response) :
  can_poll (hda_dict s) ep hs ->
  hda_dict s !! "job_id" = Some (PJson (JStr job)) ->
  let run_job n := get_request_status (set_script (prefix srv n) s) in
  let run_order n :=
    get_order_status (JStr oid) (set_script (prefix srv n) s) in
  let job_url := (ep +:+ "/datarequest/status/") +:+ job in
  let order_url := (ep +:+ "/dataorder/status/") +:+ oid in
  ((forall k, completed (srv k) = false) ->
     (forall n a s', run_job n <> Ret a s')
     /\ (forall n a s', run_order n <> Ret a s')
     /\ ((forall k, status_reply (srv k) = true) ->
         forall n,
           run_job n =
             Blocked (after s [] (polls_from job_url hs 0 (S n)))
           /\ run_order n =
                Blocked (after s [] (polls_from order_url hs 0 (S n)))))
  /\ ((forall k, status_reply (srv k) = true) ->
      ((exists n a s', run_job n = Ret a s')
         <-> exists k, completed (srv k) = true)
      /\ ((exists n a s', run_order n = Ret a s')
         <-> exists k, completed (srv k) = true)
      /\ (forall n e s', run_job n <> Raise e s')
      /\ (forall n e s', run_order n <> Raise e s'))
  /\ (forall m e,
        (forall j, (j < m)%nat -> pending (srv j)) ->
        status_code (srv m) = 200 ->
        read_status (srv m) = inl e ->
        forall n, (m < n)%nat ->
          (raised (run_job n) = Some e
           /\ trace (final (run_job n))
              = trace s ++ polls_from job_url hs 0 (S m))
          /\ (raised (run_order n) = Some e
              /\ trace (final (run_order n))
                 = trace s ++ polls_from order_url hs 0 (S m))).
Proof.
  intros Hpoll Hjob run_job run_order job_url order_url.
  assert (Hnone_job : forall n,
             Forall (fun r => completed r = false) (prefix srv n) ->
             forall a s', run_job n <> Ret a s').
  { intros n Hn. by apply (get_request_status_no_return _ ep hs job). }
  assert (Hnone_order : forall n,
             Forall (fun r => completed r = false) (prefix srv n) ->
             forall a s', run_order n <> Ret a s').
  { intros n Hn. by apply (get_order_status_no_return _ ep hs oid). }
  split; [|split].
  - intros Hnever. split; [|split].
    + intros n. apply Hnone_job, Forall_prefix. auto.
    + intros n. apply Hnone_order, Forall_prefix. auto.
    + intros Hreply n.
      assert (Hw : Forall pending (prefix srv n)).
      { apply Forall_prefix. intros k _. by split. }
      split.
      * unfold run_job.
        rewrite (get_request_status_blocked _ ep hs job) by done.
        cbn [script set_script]. by rewrite length_prefix.
      * unfold run_order.
        rewrite (get_order_status_blocked _ ep hs oid) by done.
        cbn [script set_script]. by rewrite length_prefix.
  - intros Hreply.
    assert (Hfirst : (exists k, completed (srv k) = true) ->
              exists m, completed (srv m) = true
                        /\ Forall pending (prefix srv m)).
    { intros [k Hk].
      destruct (first_true k (fun i => completed (srv i)) Hk)
        as (m & Hm & Hlt).
      exists m. split; [done|]. apply Forall_prefix. intros j Hj.
      split; [apply Hreply | by apply Hlt]. }
    assert (Hcases : forall n,
               Forall pending (prefix srv n)
               \/ exists waiting last rest,
                    prefix srv n = waiting ++ last :: rest
                    /\ Forall pending waiting /\ completed last = true).
    { intros n. apply status_replies_cases, Forall_prefix. auto. }
    split; [split|split; [split|split]].
    + intros (n & a & s' & Hrun).
      apply (completed_in_prefix srv n). intros Hall.
      by apply (Hnone_job n Hall a s').
    + intros Hk. destruct (Hfirst Hk) as (m & Hm & Hw).
      exists (S m). unfold run_job. rewrite prefix_S.
      rewrite (get_request_status_completes _ ep hs job (prefix srv m)
                 (srv m) []) by done.
      eauto.
    + intros (n & a & s' & Hrun).
      apply (completed_in_prefix srv n). intros Hall.
      by apply (Hnone_order n Hall a s').
    + intros Hk. destruct (Hfirst Hk) as (m & Hm & Hw).
      exists (S m). unfold run_order. rewrite prefix_S.
      rewrite (get_order_status_completes _ ep hs oid (prefix srv m)
                 (srv m) []) by done.
      eauto.
    + intros n e s'. unfold run_job.
      destruct (Hcases n) as [Hall | (waiting & last & rest & Hp & Hw & Hl)].
      * by rewrite (get_request_status_blocked _ ep hs job).
      * by rewrite (get_request_status_completes _ ep hs job waiting last
                      rest).
    + intros n e s'. unfold run_order.
      destruct (Hcases n) as [Hall | (waiting & last & rest & Hp & Hw & Hl)].
      * by rewrite (get_order_status_blocked _ ep hs oid).
      * by rewrite (get_order_status_completes _ ep hs oid waiting last
                      rest).
  - intros m e Hbefore H200 Hbad n Hn.
    assert (Hw : Forall pending (prefix srv m)).
    { by apply Forall_prefix. }
    pose proof (prefix_split srv m n Hn) as Hp.
    split.
    + unfold run_job.
      rewrite (get_request_status_raises _ ep hs job (prefix srv m) (srv m)
                 (map srv (seq (S m) (n - S m))) e) by done.
      by rewrite length_prefix.
    + unfold run_order.
      rewrite (get_order_status_raises _ ep hs oid (prefix srv m) (srv m)
                 (map srv (seq (S m) (n - S m))) e) by done.
      by rewrite length_prefix.
Qed.

Lemma polling_unbounded_witness :
  let s := start sample_session [] in
  let failing := fun _ : nat => error_response 500 in
  let served := fun k : nat =>
    if Nat.ltb k 2 then status_response "failed"
    else status_response "completed" in
  let unreadable := fun k : nat =>
    if Nat.ltb k 1 then status_response "running"
    else {| status_code := 200; text_json := Some (JObj []);
            chunks := [] |} in
  (forall n a s',
      get_request_status (set_script (prefix failing n) s) <> Ret a s')
  /\ get_order_status (JStr "order-1") (set_script (prefix failing 25) s)
     = Blocked
         (after s []
            (polls_from (sample_endpoint +:+ "/dataorder/status/order-1")
               sample_headers 0 26))
  /\ (exists n a s',
         get_request_status (set_script (prefix served n) s) = Ret a s')
  /\ raised (get_request_status (set_script (prefix unreadable 4) s))
     = Some (KeyError "status").
Proof.
  intros s failing served unreadable.
  assert (Hpoll : can_poll (hda_dict s) sample_endpoint sample_headers).
  { repeat split; vm_compute; reflexivity. }
  assert (Hjob : hda_dict s !! "job_id" = Some (PJson (JStr "job-1"))).
  { vm_compute; reflexivity. }
  split; [|split; [|split]].
  - destruct (polling_unbounded s sample_endpoint sample_headers "job-1"
                "order-1" failing Hpoll Hjob) as [H _].
    exact (proj1 (H (fun _ => eq_refl))).
  - destruct (polling_unbounded s sample_endpoint sample_headers "job-1"
                "order-1" failing Hpoll Hjob) as [H _].
    exact (proj2 (proj2 (proj2 (H (fun _ => eq_refl))) (fun _ => eq_refl)
                    25%nat)).
  - destruct (polling_unbounded s sample_endpoint sample_headers "job-1"
                "order-1" served Hpoll Hjob) as (_ & H & _).
    assert (Hreply : forall k, status_reply (served k) = true).
    { intros k. unfold served. by destruct (Nat.ltb k 2). }
    apply (proj1 (H Hreply)). by exists 2%nat.
  - destruct (polling_unbounded s sample_endpoint sample_headers "job-1"
                "order-1" unreadable Hpoll Hjob) as (_ & _ & H).
    refine (proj1 (proj1 (H 1%nat (KeyError "status") _ eq_refl eq_refl
                            4%nat _))); [|lia].
    intros [|j] Hj; [by split | lia].
Defined.

(** C3, as the claim has it, fails: no response of this sequence is HTTP
    200 with the status ["completed"], and both loops end at the first
    poll, with the exception of reading a body that is not JSON; the
    responses that follow are not asked for. *)
Lemma polling_ends_without_completed :
  let s := start sample_session [] in
  let srv := fun _ : nat =>
    {| status_code := 200; text_json := None; chunks := [] |} in
  (forall k, completed (srv k) = false)
  /\ get_request_status (set_script (prefix srv 3) s)
     = Raise JSONDecodeError
         (after s [srv 1%nat; srv 2%nat]
            [Request GET (sample_endpoint +:+ "/datarequest/status/job-1")
               sample_headers None])
  /\ get_order_status (JStr "order-1") (set_script (prefix srv 3) s)
     = Raise JSONDecodeError
         (after s [srv 1%nat; srv 2%nat]
            [Request GET (sample_endpoint +:+ "/dataorder/status/order-1")
               sample_headers None]).
Proof.
  intros s srv. split; [reflexivity|]. split; vm_compute; reflexivity.
Qed.

(** ** [get_order_ids] *)

Lemma subscript_field (k : string) (j x : json) (s : state) :
  field k j = Some x -> subscript (PJson j) k s = Ret x s.
Proof.
  destruct j; simpl; try discriminate. by intros ->.
Qed.

Lemma index_last (l : list json) (x : json) (s : state) :
  index (l ++ [x]) (Z.of_nat (List.length l)) s = Ret x s.
Proof.
  unfold index. rewrite Nat2Z.id.
  by rewrite list_lookup_middle.
Qed.

Section Orders.

Variables (d : gmap string pyval) (ep : string) (hs : pyval) (job_id : json).
Hypothesis Hpoll : can_poll d ep hs.
Hypothesis Hjob : d !! "job_id" = Some (PJson job_id).

(** One turn of the loop of [get_order_ids], for a result whose order is
    served, when [i] is the number of order ids recorded so far. *)
Lemma order_ids_body_served (o : order_run) (s : state) ids sizes resp rest :
  hda_dict s = d ->
  script s = order_responses o ++ rest ->
  order_served o ->
  order_ids_body (o_result o)
    (OrderLocals (Z.of_nat (List.length ids)) ids sizes resp) s =
  Ret (OrderLocals (Z.of_nat (List.length ids) + 1)
         (ids ++ [JStr (o_id o)]) (sizes ++ [o_size o]) (Some (o_last o)))
      (after s rest (order_events ep hs job_id o)).
Proof.
  intros Hd Hs (Hurl & Hsize & H200 & Hid & Hw & Hc).
  destruct Hpoll as (Hep & Hhs & Hok).
  unfold order_ids_body, bind, getitem. cbn [ol_i ol_order_ids ol_order_sizes].
  rewrite Hd, Hjob. rewrite (subscript_field _ _ _ _ Hurl).
  rewrite (subscript_field _ _ _ _ Hsize).
  rewrite Hd, Hep. cbn [str_add ret]. rewrite Hd, Hhs.
  cbn [json_payload bind ret].
  unfold requests. unfold order_responses in Hs. simpl in Hs.
  cbn [script log]. rewrite Hs.
  cbn [hda_dict set_script log]. rewrite Hd, Hok.
  unfold int_eq. rewrite H200. cbn [Z.eqb Pos.eqb].
  unfold order_id_of in Hid. unfold json_loads.
  destruct (text_json (o_post o)) as [j|]; [|discriminate].
  cbn [ret]. rewrite (subscript_field _ _ _ _ Hid).
  rewrite index_last. cbn [str_add ret]. rewrite index_last.
  match goal with
  | |- context [get_order_status _ ?s2] =>
      assert (Hcall : get_order_status (JStr (o_id o)) s2 =
                Ret (o_last o)
                  (after s2 rest
                     (polls_from ((ep +:+ "/dataorder/status/") +:+ o_id o)
                        hs 0 (S (List.length (o_waiting o))))))
  end.
  { apply get_order_status_completes; try done.
    - cbn [hda_dict set_script log]. by rewrite Hd.
    - cbn [script set_script]. by rewrite <- app_assoc. }
  rewrite Hcall. cbn [ret]. unfold after, order_events. simpl.
  by rewrite <- app_assoc.
Qed.

(** The whole loop, over the results of the served orders [os]. *)
Lemma for_each_orders_served (os : list order_run) :
  forall (s : state) ids sizes resp rest,
    hda_dict s = d ->
    script s = orders_script os ++ rest ->
    Forall order_served os ->
    for_each (map o_result os) order_ids_body
      (OrderLocals (Z.of_nat (List.length ids)) ids sizes resp) s =
    Ret (OrderLocals (Z.of_nat (List.length ids + List.length os))
           (ids ++ map (fun o => JStr (o_id o)) os)
           (sizes ++ map o_size os)
           (match os with [] => resp | _ => option_map o_last (last os) end))
        (after s rest (flat_map (order_events ep hs job_id) os)).
Proof.
  induction os as [|o os IH]; intros s ids sizes resp rest Hd Hs Hall.
  - simpl. unfold ret, after. simpl in Hs. rewrite !app_nil_r, Nat.add_0_r.
    destruct s; simpl in *. by subst.
  - pose proof (Forall_inv Hall) as Ho.
    pose proof (Forall_inv_tail Hall) as Hos.
    cbn [map for_each]. unfold bind at 1.
    unfold orders_script in Hs. cbn [flat_map] in Hs.
    rewrite <- app_assoc in Hs.
    rewrite (order_ids_body_served o s ids sizes resp _ Hd Hs Ho).
    replace (Z.of_nat (List.length ids) + 1)
      with (Z.of_nat (List.length (ids ++ [JStr (o_id o)])))
      by (rewrite length_app; simpl; lia).
    rewrite (IH _ _ _ (Some (o_last o)) rest); try done.
    f_equal.
    + f_equal.
      * rewrite length_app. simpl. f_equal. lia.
      * by rewrite <- app_assoc.
      * by rewrite <- app_assoc.
      * destruct os as [|o' os']; [reflexivity|].
        by rewrite last_cons_cons.
    + rewrite after_after. reflexivity.
Qed.

End Orders.

(** C1. When the results page holds K result descriptors and every order
    request is answered with HTTP 200 and an order id (and the polls of
    every order by a status endpoint that ends with ["completed"]),
    [get_order_ids] stores K order ids, in the order of the results, and K
    sizes: the i-th order id is the one the broker gave for the i-th
    result, and it is paired with the size of the i-th result.  The order
    request of a result carries the [url] of that result, and the polls
    that follow it ask for the order id it was given. *)
Theorem get_order_ids_aligned (s : state) (ep : string) (hs : pyval)
    (job_id : json) (os : list order_run) (rest : list response) :
  can_order (hda_dict s) ep hs job_id (map o_result os) ->
  script s = orders_script os ++ rest ->
  Forall order_served os ->
  let K := List.length os in
  let ids := map (fun o => JStr (o_id o)) os in
  let sizes := map o_size os in
  let s' := final (get_order_ids s) in
  hda_dict s' !! "order_ids" = Some (PJson (JArr ids))
  /\ hda_dict s' !! "order_sizes" = Some (PJson (JArr sizes))
  /\ List.length ids = K /\ List.length sizes = K
  /\ (forall i o, os !! i = Some o ->
        ids !! i = Some (JStr (o_id o)) /\ sizes !! i = Some (o_size o))
  /\ trace s' = trace s ++ flat_map (order_events ep hs job_id) os
  /\ script s' = rest
  /\ (os <> [] -> get_order_ids s = Ret tt s').
Proof.
  intros (Hpoll & Hjob & page & Hres & Hcontent) Hs Hall K ids sizes s'.
  assert (Hrun : get_order_ids s =
            let s1 := after s rest (flat_map (order_events ep hs job_id) os) in
            let s2 := set_dict (<["order_sizes" := PJson (JArr sizes)]>
                                 (<["order_ids" := PJson (JArr ids)]>
                                    (hda_dict s))) s1 in
            match last os with
            | Some o =>
                Ret tt (set_dict (<["order_status_response" :=
                                     PResponse (o_last o)]> (hda_dict s2)) s2)
            | None => Raise (UnboundLocalError "response") s2
            end).
  { unfold get_order_ids, bind, getitem. rewrite Hres.
    rewrite (subscript_field _ _ _ _ Hcontent). cbn [iterate ret].
    pose proof (for_each_orders_served (hda_dict s) ep hs job_id Hpoll Hjob
                  os s [] [] None rest eq_refl Hs Hall) as Hloop.
    change (Z.of_nat (List.length (@nil json))) with 0 in Hloop.
    rewrite Hloop.
    cbn [ol_order_ids ol_order_sizes ol_response setitem app].
    destruct os as [|o os']; [reflexivity|].
    destruct (last (o :: os')) as [o'|] eqn:Hlast; [reflexivity|].
    by apply last_None in Hlast. }
  unfold s'. rewrite Hrun. cbn zeta.
  repeat split.
  - destruct (last os); cbn [final hda_dict set_dict after];
      by simplify_map_eq.
  - destruct (last os); cbn [final hda_dict set_dict after];
      by simplify_map_eq.
  - unfold ids. by rewrite length_map.
  - unfold sizes. by rewrite length_map.
  - unfold ids. rewrite list_lookup_fmap. by rewrite H.
  - unfold sizes. rewrite list_lookup_fmap. by rewrite H.
  - by destruct (last os).
  - by destruct (last os).
  - intros Hne. destruct (last os) eqn:Hlast; [reflexivity|].
    by apply last_None in Hlast.
Qed.

Lemma get_order_ids_aligned_witness :
  let s := start (session_with_results two_results) (orders_script two_orders) in
  hda_dict (final (get_order_ids s)) !! "order_ids"
    = Some (PJson (JArr [JStr "order-A"; JStr "order-B"]))
  /\ hda_dict (final (get_order_ids s)) !! "order_sizes"
     = Some (PJson (JArr [JNum 1000; JNum 2000])).
Proof.
  intros s.
  assert (H1 : can_order (hda_dict s) sample_endpoint sample_headers
                 (JStr "job-1") (map o_result two_orders)).
  { repeat split; try (vm_compute; reflexivity).
    exists (JObj [("content", JArr two_results)]).
    split; vm_compute; reflexivity. }
  assert (H2 : script s = orders_script two_orders ++ []).
  { reflexivity. }
  assert (H3 : Forall order_served two_orders).
  { repeat constructor. }
  destruct (get_order_ids_aligned s sample_endpoint sample_headers
              (JStr "job-1") two_orders [] H1 H2 H3)
    as (Hids & Hsizes & _).
  split; [exact Hids | exact Hsizes].
Defined.

(** ** A failed order request *)

Lemma for_each_app {A L} (xs ys : list A) (body : A -> L -> M L) (l : L)
    (s : state) :
  for_each (xs ++ ys) body l s =
  bind (for_each xs body l) (fun l' => for_each ys body l') s.
Proof.
  revert l s. induction xs as [|x xs IH]; intros l s; [reflexivity|].
  cbn [app for_each]. unfold bind.
  destruct (body x l s) as [l1 s1|e s1|s1]; try reflexivity.
  rewrite IH. reflexivity.
Qed.

Section FailedOrder.

Variables (d : gmap string pyval) (ep : string) (hs : pyval) (job_id : json).
Hypothesis Hpoll : can_poll d ep hs.
Hypothesis Hjob : d !! "job_id" = Some (PJson job_id).

(** One turn of the loop for an order request that is answered with
    another code than 200: the size is recorded, no order id is. *)
Lemma order_ids_body_failed (item uri bytes : json) (s : state) i ids sizes
    resp p rest :
  hda_dict s = d -> script s = p :: rest ->
  field "url" item = Some uri -> field "size" item = Some bytes ->
  status_code p <> 200 ->
  order_ids_body item (OrderLocals i ids sizes resp) s =
    Ret (OrderLocals (i + 1) ids (sizes ++ [bytes]) (Some p))
      (after s rest
         [Request POST (ep +:+ "/dataorder") hs
            (Some (JObj [("jobId", job_id); ("uri", uri)]))]).
Proof.
  intros Hd Hs Hurl Hsize Hp. destruct Hpoll as (Hep & Hhs & Hok).
  unfold order_ids_body, bind, getitem. cbn [ol_i ol_order_ids ol_order_sizes].
  rewrite Hd, Hjob. rewrite (subscript_field _ _ _ _ Hurl).
  rewrite (subscript_field _ _ _ _ Hsize).
  rewrite Hd, Hep. cbn [str_add ret]. rewrite Hd, Hhs.
  cbn [json_payload bind ret].
  unfold requests. cbn [script log]. rewrite Hs.
  cbn [hda_dict set_script log]. rewrite Hd, Hok. unfold int_eq.
  destruct (Z.eqb_spec (status_code p) 200) as [E|_]; [done|].
  reflexivity.
Qed.

(** One turn of the loop for an order request that is answered with HTTP
    200 and an order id, when fewer order ids than [i] are recorded:
    [order_ids[i]] is out of range. *)
Lemma order_ids_body_index_error (item uri bytes oid : json) (s : state) i
    ids sizes resp p rest :
  hda_dict s = d -> script s = p :: rest ->
  field "url" item = Some uri -> field "size" item = Some bytes ->
  status_code p = 200 -> order_id_of p = Some oid ->
  Z.of_nat (List.length ids) < i ->
  order_ids_body item (OrderLocals i ids sizes resp) s =
    Raise IndexError
      (after s rest
         [Request POST (ep +:+ "/dataorder") hs
            (Some (JObj [("jobId", job_id); ("uri", uri)]))]).
Proof.
  intros Hd Hs Hurl Hsize Hp Hid Hi. destruct Hpoll as (Hep & Hhs & Hok).
  unfold order_ids_body, bind, getitem. cbn [ol_i ol_order_ids ol_order_sizes].
  rewrite Hd, Hjob. rewrite (subscript_field _ _ _ _ Hurl).
  rewrite (subscript_field _ _ _ _ Hsize).
  rewrite Hd, Hep. cbn [str_add ret]. rewrite Hd, Hhs.
  cbn [json_payload bind ret].
  unfold requests. cbn [script log]. rewrite Hs.
  cbn [hda_dict set_script log]. rewrite Hd, Hok. unfold int_eq.
  rewrite Hp. cbn [Z.eqb Pos.eqb].
  unfold order_id_of in Hid. unfold json_loads.
  destruct (text_json p) as [j|]; [|discriminate].
  cbn [ret]. rewrite (subscript_field _ _ _ _ Hid).
  unfold index. rewrite lookup_ge_None_2; [reflexivity|].
  rewrite length_app. simpl. lia.
Qed.

End FailedOrder.

(** After any number of served orders, a failed order request followed by
    one that the broker serves ends [get_order_ids] with [IndexError];
    the session is left as it was. *)
Lemma get_order_ids_index_error (s : state) ep hs job_id
    (os : list order_run) (item1 item2 : json) (more : list json)
    (p1 p2 : response) (rest : list response) (uri1 bytes1 uri2 bytes2 oid : json) :
  can_order (hda_dict s) ep hs job_id
    (map o_result os ++ item1 :: item2 :: more) ->
  Forall order_served os ->
  field "url" item1 = Some uri1 -> field "size" item1 = Some bytes1 ->
  field "url" item2 = Some uri2 -> field "size" item2 = Some bytes2 ->
  script s = orders_script os ++ p1 :: p2 :: rest ->
  status_code p1 <> 200 ->
  status_code p2 = 200 -> order_id_of p2 = Some oid ->
  raised (get_order_ids s) = Some IndexError
  /\ hda_dict (final (get_order_ids s)) = hda_dict s.
Proof.
  intros (Hpoll & Hjob & page & Hres & Hcontent) Hall Hu1 Hz1 Hu2 Hz2 Hs
    Hp1 Hp2 Hid.
  pose (post := fun uri =>
          Request POST (ep +:+ "/dataorder") hs
            (Some (JObj [("jobId", job_id); ("uri", uri)]))).
  assert (Hrun : get_order_ids s =
            Raise IndexError
              (after s rest
                 (flat_map (order_events ep hs job_id) os
                    ++ [post uri1; post uri2]))).
  { unfold get_order_ids, bind at 1 2 3, getitem. rewrite Hres.
    rewrite (subscript_field _ _ _ _ Hcontent). cbn [iterate ret].
    unfold bind at 1. rewrite for_each_app. unfold bind at 1.
    pose proof (for_each_orders_served (hda_dict s) ep hs job_id Hpoll Hjob
                  os s [] [] None (p1 :: p2 :: rest) eq_refl Hs Hall)
      as Hloop.
    change (Z.of_nat (List.length (@nil json))) with 0 in Hloop.
    rewrite Hloop. cbn [for_each app]. unfold bind at 1.
    erewrite (order_ids_body_failed (hda_dict s) ep hs job_id Hpoll Hjob
                item1 uri1 bytes1); try done.
    cbn [for_each]. unfold bind at 1.
    erewrite (order_ids_body_index_error (hda_dict s) ep hs job_id Hpoll
                Hjob item2 uri2 bytes2 oid); try done.
    - rewrite !after_after. reflexivity.
    - cbn [app List.length]. rewrite length_map. lia. }
  rewrite Hrun. split; reflexivity.
Qed.

(** The loop over results whose order requests are all refused: every
    size is recorded and no order id is. *)
Lemma for_each_orders_refused (d : gmap string pyval) ep hs job_id
    (xs : list order_refusal) :
  can_poll d ep hs -> d !! "job_id" = Some (PJson job_id) ->
  forall (s : state) i ids sizes resp rest,
    hda_dict s = d ->
    script s = map x_post xs ++ rest ->
    Forall order_refused xs ->
    for_each (map x_result xs) order_ids_body (OrderLocals i ids sizes resp) s
    = Ret (OrderLocals (i + Z.of_nat (List.length xs)) ids
             (sizes ++ map x_size xs)
             (match xs with [] => resp | _ => option_map x_post (last xs) end))
        (after s rest (map (refusal_event ep hs job_id) xs)).
Proof.
  intros Hpoll Hjob.
  induction xs as [|x xs IH]; intros s i ids sizes resp rest Hd Hs Hall.
  - simpl. unfold ret, after. simpl in Hs. rewrite !app_nil_r, Z.add_0_r.
    destruct s; simpl in *. by subst.
  - pose proof (Forall_inv Hall) as (Hurl & Hsize & Hcode).
    pose proof (Forall_inv_tail Hall) as Hxs.
    cbn [map for_each]. unfold bind at 1. simpl in Hs.
    rewrite (order_ids_body_failed d ep hs job_id Hpoll Hjob (x_result x)
               (x_url x) (x_size x) s i ids sizes resp (x_post x)
               (map x_post xs ++ rest) Hd Hs Hurl Hsize Hcode).
    rewrite (IH _ _ _ _ (Some (x_post x)) rest); try done.
    f_equal.
    + f_equal.
      * cbn [List.length]. lia.
      * by rewrite <- app_assoc.
      * destruct xs as [|x' xs']; [reflexivity|].
        by rewrite last_cons_cons.
    + rewrite after_after. reflexivity.
Qed.

(** Where the failed orders come last, the lists are stored, and are of
    different lengths: after the served orders [os], when the order
    requests of the results [xs] are all refused, [get_order_ids] stores the order ids of
    [os] alone and the sizes of all the results, so [order_ids] is shorter
    than [order_sizes] by the number of refusals. *)
Lemma get_order_ids_refused_last (s : state) ep hs job_id
    (os : list order_run) (xs : list order_refusal) (rest : list response) :
  can_order (hda_dict s) ep hs job_id (map o_result os ++ map x_result xs) ->
  script s = orders_script os ++ map x_post xs ++ rest ->
  Forall order_served os ->
  Forall order_refused xs ->
  let s' := final (get_order_ids s) in
  hda_dict s' !! "order_ids"
    = Some (PJson (JArr (map (fun o => JStr (o_id o)) os)))
  /\ hda_dict s' !! "order_sizes"
     = Some (PJson (JArr (map o_size os ++ map x_size xs)))
  /\ (List.length (map o_size os ++ map x_size xs)
      = List.length (map (fun o => JStr (o_id o)) os) + List.length xs)%nat.
Proof.
  intros (Hpoll & Hjob & page & Hres & Hcontent) Hs Hos Hxs s'.
  assert (Hloop : for_each (map o_result os ++ map x_result xs)
                    order_ids_body (OrderLocals 0 [] [] None) s =
            Ret (OrderLocals (Z.of_nat (List.length os)
                              + Z.of_nat (List.length xs))
                   (map (fun o => JStr (o_id o)) os)
                   (map o_size os ++ map x_size xs)
                   (match xs with
                    | [] => match os with
                            | [] => None
                            | _ => option_map o_last (last os)
                            end
                    | _ => option_map x_post (last xs)
                    end))
              (after s rest
                 (flat_map (order_events ep hs job_id) os
                    ++ map (refusal_event ep hs job_id) xs))).
  { rewrite for_each_app. unfold bind.
    pose proof (for_each_orders_served (hda_dict s) ep hs job_id Hpoll Hjob
                  os s [] [] None (map x_post xs ++ rest) eq_refl Hs Hos)
      as H1.
    change (Z.of_nat (List.length (@nil json))) with 0 in H1.
    rewrite H1. cbn [app List.length Nat.add].
    erewrite (for_each_orders_refused (hda_dict s) ep hs job_id xs Hpoll
                Hjob); [|reflexivity|reflexivity|exact Hxs].
    rewrite after_after. reflexivity. }
  unfold s', get_order_ids, bind, getitem. rewrite Hres.
  rewrite (subscript_field _ _ _ _ Hcontent). cbn [iterate ret].
  rewrite Hloop.
  cbn [ol_order_ids ol_order_sizes ol_response setitem].
  split; [|split].
  - destruct (match xs with [] => _ | _ => _ end);
      cbn [local ret raise final hda_dict set_dict after]; by simplify_map_eq.
  - destruct (match xs with [] => _ | _ => _ end);
      cbn [local ret raise final hda_dict set_dict after]; by simplify_map_eq.
  - rewrite length_app, !length_map. reflexivity.
Qed.

(** C4 (the code departs from it). Two results; the first order request
    is answered with HTTP 500, the second with HTTP 200 and an order id.
    The loop does go on to the second result after the failure, and sends
    its order request; but it then reads [order_ids[i]] with [i = 1] in a
    list of one order id, and [get_order_ids] ends with [IndexError]:
    neither [order_ids] nor [order_sizes] is stored in the session, and
    the order is never polled. *)
Theorem get_order_ids_failed_then_served :
  let s := start (session_with_results two_results)
             [error_response 500; order_response "order-B";
              status_response "completed"] in
  let s' := final (get_order_ids s) in
  raised (get_order_ids s) = Some IndexError
  /\ hda_dict s' !! "order_ids" = None
  /\ hda_dict s' !! "order_sizes" = None
  /\ trace s' =
       [Request POST (sample_endpoint +:+ "/dataorder") sample_headers
          (Some (JObj [("jobId", JStr "job-1");
                       ("uri", JStr "https://store/S3A_SR_1")]));
        Request POST (sample_endpoint +:+ "/dataorder") sample_headers
          (Some (JObj [("jobId", JStr "job-1");
                       ("uri", JStr "https://store/S3B_SR_1")]))]
  /\ script s' = [status_response "completed"].
Proof. repeat split; vm_compute; reflexivity. Qed.

(** ** [get_job_id] *)





(** ** [get_access_token] *)

(** Without the [headers] entry, the functions that send the headers of
    the session raise before they send anything. *)
Lemma query_metadata_needs_headers (s : state) :
  hda_dict s !! "headers" = None -> exists e, query_metadata s = Raise e s.
Proof.
  intros H. unfold query_metadata, bind, getitem, str_add, ret, raise.
  cbn beta. repeat (case_match; simplify_eq; eauto).
Qed.

Lemma acceptTandC_needs_headers (s : state) :
  hda_dict s !! "headers" = None -> exists e, acceptTandC s = Raise e s.
Proof.
  intros H. unfold acceptTandC, bind, getitem, ret, raise.
  cbn beta. repeat (case_match; simplify_eq; eauto).
Qed.

Lemma get_job_id_needs_headers (data : json) (s : state) :
  hda_dict s !! "headers" = None -> exists e, get_job_id data s = Raise e s.
Proof.
  intros H. unfold get_job_id, bind, getitem, str_add, ret, raise.
  cbn beta. repeat (case_match; simplify_eq; eauto).
Qed.

(** C8. When the token request is answered with another code than 200,
    [get_access_token] stores nothing: it ends with [UnboundLocalError]
    at the assignment of the token, and the session is as it was, so a
    session that had no [access_token] and no [headers] entry still has
    none; the calls that send the headers of the session
    ([query_metadata], [acceptTandC], [get_job_id]) then fail, before any
    request is sent. *)
Theorem get_access_token_failure (s : state) (key address : string)
    (r : response) (rest : list response) :
  hda_dict s !! "api_key" = Some (PJson (JStr key)) ->
  hda_dict s !! "accessToken_address" = Some (PJson (JStr address)) ->
  hda_dict s !! "CONST_HTTP_SUCCESS_CODE" = Some (PJson (JNum 200)) ->
  script s = r :: rest ->
  status_code r <> 200 ->
  hda_dict s !! "access_token" = None ->
  hda_dict s !! "headers" = None ->
  let s' :=
    after s rest
      [Request GET address
         (PJson (JObj [("Authorization", JStr ("Basic " +:+ key))])) None] in
  get_access_token s = Raise (UnboundLocalError "access_token") s'
  /\ hda_dict s' = hda_dict s
  /\ hda_dict s' !! "access_token" = None
  /\ hda_dict s' !! "headers" = None
  /\ (exists e, query_metadata s' = Raise e s')
  /\ (exists e, acceptTandC s' = Raise e s')
  /\ (forall data, exists e, get_job_id data s' = Raise e s').
Proof.
  intros Hkey Haddr Hok Hs Hr Htok Hhs s'.
  split; [|repeat split; try done].
  - unfold get_access_token, bind, getitem. rewrite Hkey. cbn [str_add ret].
    rewrite Haddr. unfold requests. cbn [script log]. rewrite Hs.
    cbn [hda_dict set_script log]. rewrite Hok. unfold int_eq.
    destruct (Z.eqb_spec (status_code r) 200) as [E|_]; [done|].
    reflexivity.
  - by apply query_metadata_needs_headers.
  - by apply acceptTandC_needs_headers.
  - intros data. by apply get_job_id_needs_headers.
Qed.

Lemma get_access_token_failure_witness :
  let s := start fresh_session [error_response 401] in
  let s' :=
    after s []
      [Request GET (sample_endpoint +:+ "/gettoken")
         (PJson (JObj [("Authorization", JStr "Basic dXNlcjpwYXNz")])) None] in
  get_access_token s = Raise (UnboundLocalError "access_token") s'
  /\ hda_dict s' !! "access_token" = None
  /\ hda_dict s' !! "headers" = None
  /\ (exists e, query_metadata s' = Raise e s').
Proof.
  intros s s'.
  destruct (get_access_token_failure s "dXNlcjpwYXNz"
              (sample_endpoint +:+ "/gettoken") (error_response 401) []
              ltac:(vm_compute; reflexivity) ltac:(vm_compute; reflexivity)
              ltac:(vm_compute; reflexivity) eq_refl
              ltac:(vm_compute; discriminate)
              ltac:(vm_compute; reflexivity) ltac:(vm_compute; reflexivity))
    as (H1 & _ & H3 & H4 & H5 & _).
  repeat split; assumption.
Defined.

(** ** [acceptTandC] *)

Lemma puts_after (s : state) rest es :
  puts (after s rest es) = (puts s + List.length (List.filter is_put es))%nat.
Proof. unfold puts, after. simpl. by rewrite List.filter_app, length_app. Qed.

Lemma puts_set_dict (s : state) d : puts (set_dict d s) = puts s.
Proof. reflexivity. Qed.

(** One call of [acceptTandC] that receives the response [r] to its GET. *)
Lemma acceptTandC_run (s : state) address hs r rest :
  hda_dict s !! "acceptTandC_address" = Some (PJson (JStr address)) ->
  hda_dict s !! "headers" = Some hs ->
  script s = r :: rest ->
  let get := Request GET address hs None in
  let put := Request PUT address hs None in
  acceptTandC s =
    match read_accepted r with
    | inl e => Raise e (after s rest [get])
    | inr v =>
        if is_False v then
          match rest with
          | [] => Blocked (after s [] [get; put])
          | r2 :: rest2 =>
              match read_accepted r2 with
              | inl e => Raise e (after s rest2 [get; put])
              | inr v2 =>
                  Ret tt (set_dict (<["isTandCAccepted" := PJson v2]>
                                      (hda_dict s))
                            (after s rest2 [get; put]))
              end
          end
        else
          Ret tt (set_dict (<["isTandCAccepted" := PJson v]> (hda_dict s))
                    (after s rest [get]))
    end.
Proof.
  intros Haddr Hhs Hs get put.
  unfold acceptTandC, bind, getitem. rewrite Haddr. cbn beta iota.
  rewrite Hhs. cbn beta iota.
  unfold requests. cbn [script log]. rewrite Hs.
  unfold read_accepted, json_loads.
  destruct (text_json r) as [[| | | | |fields]|] eqn:Ht; try reflexivity.
  cbn [ret subscript].
  destruct (assoc "accepted" fields) as [v|] eqn:Hf; [|reflexivity].
  cbn [ret]. destruct (is_False v) eqn:Hv.
  - cbn beta iota. cbn [hda_dict set_script log]. rewrite Haddr.
    cbn beta iota. cbn [hda_dict set_script log]. rewrite Hhs. cbn beta iota.
    cbn [script set_script log].
    destruct rest as [|r2 rest2].
    + unfold after, log. simpl. by rewrite <- app_assoc.
    + destruct (text_json r2) as [[| | | | |fields2]|];
        try (unfold after, log, set_script; simpl; by rewrite <- app_assoc).
      cbn [ret subscript]. destruct (assoc "accepted" fields2) as [v2|];
        unfold after, log, set_script, setitem, set_dict, ret, raise; simpl;
        by rewrite <- app_assoc.
  - cbn [ret]. rewrite Ht. cbn [ret subscript]. rewrite Hf. reflexivity.
Qed.

Lemma acceptTandC_blocked (s : state) address hs :
  hda_dict s !! "acceptTandC_address" = Some (PJson (JStr address)) ->
  hda_dict s !! "headers" = Some hs ->
  script s = [] ->
  acceptTandC s = Blocked (after s [] [Request GET address hs None]).
Proof.
  intros Haddr Hhs Hs.
  unfold acceptTandC, bind, getitem. rewrite Haddr. cbn beta iota.
  rewrite Hhs. cbn beta iota.
  unfold requests. cbn [script log]. rewrite Hs.
  unfold after, log. cbn beta iota. by rewrite Hs.
Qed.

(** Whatever the session and the responses are, one call sends at most
    one acceptance request. *)
Lemma acceptTandC_at_most_one_put (s : state) :
  (puts (final (acceptTandC s)) <= puts s + 1)%nat.
Proof.
  destruct (hda_dict s !! "acceptTandC_address") as [v|] eqn:Haddr;
    [| unfold acceptTandC, bind, getitem; rewrite Haddr; simpl; lia].
  destruct (hda_dict s !! "headers") as [hs|] eqn:Hhs;
    [| unfold acceptTandC, bind, getitem; rewrite Haddr; cbn beta iota;
       rewrite Hhs; simpl; lia].
  assert (Hurl : (exists address, v = PJson (JStr address))
                 \/ acceptTandC s = Raise RequestException s).
  { unfold acceptTandC, bind, getitem. rewrite Haddr. cbn beta iota.
    rewrite Hhs. cbn beta iota.
    destruct v as [[| | |address| |]|]; eauto. }
  destruct Hurl as [[address ->] | ->]; [|simpl; lia].
  destruct (script s) as [|r rest] eqn:Hs.
  - rewrite (acceptTandC_blocked s address hs Haddr Hhs Hs).
    cbn [final]. rewrite puts_after. simpl. lia.
  - rewrite (acceptTandC_run s address hs r rest Haddr Hhs Hs).
    repeat case_match; cbn [final]; rewrite ?puts_set_dict, puts_after;
      simpl; lia.
Qed.

(** C5. With respect to acceptance requests [acceptTandC] is idempotent.
    When the GET of the terms flag reports [accepted = true], no PUT is
    sent: the GET is the only request of the call.  When it reports
    [accepted = false], exactly one PUT is sent.  Hence two calls in
    succession send at most one PUT in total, against a broker that
    keeps the acceptance: one whose flag is not reported false again
    after the PUT. *)
Theorem acceptTandC_idempotent (s : state) (address : string) (hs : pyval)
    (r : response) (rest : list response) :
  hda_dict s !! "acceptTandC_address" = Some (PJson (JStr address)) ->
  hda_dict s !! "headers" = Some hs ->
  script s = r :: rest ->
  let get := Request GET address hs None in
  let put := Request PUT address hs None in
  (read_accepted r = inr (JBool true) ->
     acceptTandC s =
       Ret tt (set_dict (<["isTandCAccepted" := PJson (JBool true)]>
                           (hda_dict s))
                 (after s rest [get]))
     /\ puts (final (acceptTandC s)) = puts s)
  /\ (read_accepted r = inr (JBool false) ->
      trace (final (acceptTandC s)) = trace s ++ [get; put]
      /\ puts (final (acceptTandC s)) = (puts s + 1)%nat)
  /\ ((read_accepted r = inr (JBool false) ->
       forall r2 r3 rest',
         rest = r2 :: r3 :: rest' -> read_accepted r3 <> inr (JBool false)) ->
      (puts (final ((acceptTandC ;;; acceptTandC) s)) <= puts s + 1)%nat).
Proof.
  intros Haddr Hhs Hs get put.
  pose proof (acceptTandC_run s address hs r rest Haddr Hhs Hs) as Hrun.
  cbn zeta in Hrun. fold get put in Hrun.
  split; [|split].
  - intros Hr. rewrite Hrun, Hr. cbn [is_False]. split; [reflexivity|].
    cbn [final]. rewrite puts_set_dict, puts_after. simpl. lia.
  - intros Hr. rewrite Hrun, Hr. cbn [is_False].
    destruct rest as [|r2 rest2]; [|destruct (read_accepted r2)];
      cbn [final]; rewrite ?puts_set_dict, ?puts_after; split;
      try reflexivity; simpl; lia.
  - intros Hkeeps. unfold bind. rewrite Hrun.
    destruct (read_accepted r) as [e|v] eqn:Hr.
    { cbn [final]. rewrite puts_after. simpl. lia. }
    destruct (is_False v) eqn:Hv.
    + assert (v = JBool false) as -> by (by destruct v as [|[|]| | | |]).
      destruct rest as [|r2 rest2].
      { cbn [final]. rewrite puts_after. simpl. lia. }
      destruct (read_accepted r2) as [e2|v2].
      { cbn [final]. rewrite puts_after. simpl. lia. }
      set (s1 := set_dict _ _).
      assert (Haddr1 : hda_dict s1 !! "acceptTandC_address"
                       = Some (PJson (JStr address))).
      { unfold s1. cbn [hda_dict set_dict after]. by simplify_map_eq. }
      assert (Hhs1 : hda_dict s1 !! "headers" = Some hs).
      { unfold s1. cbn [hda_dict set_dict after]. by simplify_map_eq. }
      assert (Hputs1 : puts s1 = (puts s + 1)%nat).
      { unfold s1. rewrite puts_set_dict, puts_after. reflexivity. }
      destruct rest2 as [|r3 rest'].
      * rewrite (acceptTandC_blocked s1 address hs Haddr1 Hhs1 eq_refl).
        cbn [final]. rewrite puts_after, Hputs1. simpl. lia.
      * rewrite (acceptTandC_run s1 address hs r3 rest' Haddr1 Hhs1 eq_refl).
        pose proof (Hkeeps eq_refl r2 r3 rest' eq_refl) as Hr3.
        destruct (read_accepted r3) as [e3|v3].
        { cbn [final]. rewrite puts_after, Hputs1. simpl. lia. }
        destruct (is_False v3) eqn:Hv3.
        { by destruct v3 as [|[|]| | | |]. }
        cbn [final]. rewrite puts_set_dict, puts_after, Hputs1. simpl. lia.
    + set (s1 := set_dict _ _).
      pose proof (acceptTandC_at_most_one_put s1) as Hle.
      assert (Hputs1 : puts s1 = puts s).
      { unfold s1. rewrite puts_set_dict, puts_after. simpl. lia. }
      lia.
Qed.

Lemma acceptTandC_idempotent_witness :
  let s := start token_session
             [terms_response false; terms_response true;
              terms_response true] in
  (puts (final ((acceptTandC ;;; acceptTandC) s)) <= puts s + 1)%nat.
Proof.
  intros s.
  refine (proj2 (proj2 (acceptTandC_idempotent s
                          (sample_endpoint
                             +:+ "/termsaccepted/Copernicus_General_License")
                          sample_headers (terms_response false)
                          [terms_response true; terms_response true]
                          _ _ _)) _).
  - vm_compute; reflexivity.
  - vm_compute; reflexivity.
  - reflexivity.
  - intros _ r2 r3 rest' [= <- <- <-]. vm_compute. discriminate.
Defined.

(** ** [downloadFile] *)

Lemma string_app_assoc (a b c : string) : (a +:+ b) +:+ c = a +:+ (b +:+ c).
Proof.
  induction a as [|x a IH]; [reflexivity|].
  change (String x ((a +:+ b) +:+ c) = String x (a +:+ (b +:+ c))).
  by rewrite IH.
Qed.

Lemma string_app_length (a b : string) :
  String.length (a +:+ b) = (String.length a + String.length b)%nat.
Proof.
  induction a as [|x a IH]; [reflexivity|].
  change (S (String.length (a +:+ b))
          = S (String.length a + String.length b)).
  by rewrite IH.
Qed.

Lemma string_app_empty_r (a : string) : a +:+ "" = a.
Proof.
  induction a as [|x a IH]; [reflexivity|].
  change (String x (a +:+ "") = String x a). by rewrite IH.
Qed.

Lemma running_ge (cs : list string) :
  forall dl, Forall (Z.le dl) (running dl cs).
Proof.
  induction cs as [|c cs IH]; intros dl; cbn [running]; [constructor|].
  constructor; [lia|].
  eapply Forall_impl; [apply IH|]. intros x Hx. simpl in Hx. lia.
Qed.

(** The byte counts go up: each is at least every earlier one. *)
Lemma running_sorted (cs : list string) :
  forall dl,
    StronglySorted Z.le
      (running dl cs ++ [dl + Z.of_nat (String.length (stream_bytes cs))]).
Proof.
  induction cs as [|c cs IH]; intros dl.
  - simpl. repeat constructor.
  - cbn [running stream_bytes app]. rewrite string_app_length.
    rewrite Nat2Z.inj_add, Z.add_assoc. constructor; [apply IH|].
    apply Forall_app. split; [apply running_ge|].
    constructor; [lia | constructor].
Qed.

(** One chunk, when the declared total is a number other than zero. *)
Lemma download_body_step (filename : string) (total : json) (n : Z)
    (c : string) (s : state) (dl : Z) :
  number total = Some n -> n <> 0 -> is_None total = false ->
  download_body filename total c dl s =
    let dl' := dl + Z.of_nat (String.length c) in
    Ret dl'
      {| hda_dict := hda_dict s; script := script s;
         trace := trace s ++ [Progress dl'];
         files := <[filename := default "" (files s !! filename) +:+ c]>
                    (files s) |}.
Proof.
  intros Hn Hn0 Hnone.
  unfold download_body, bind, fwrite, report. rewrite Hnone, Hn.
  destruct (Z.eqb_spec n 0) as [E|_]; [done|]. reflexivity.
Qed.

(** The loop of [downloadFile] over the chunks [cs], when the file holds
    [written]. *)
Lemma download_loop (filename : string) (total : json) (n : Z)
    (cs : list string) :
  number total = Some n -> n <> 0 -> is_None total = false ->
  forall (s : state) (dl : Z) (written : string),
    files s !! filename = Some written ->
    for_each cs (download_body filename total) dl s =
      Ret (dl + Z.of_nat (String.length (stream_bytes cs)))
        {| hda_dict := hda_dict s; script := script s;
           trace := trace s ++ map Progress (running dl cs);
           files := <[filename := written +:+ stream_bytes cs]> (files s) |}.
Proof.
  intros Hn Hn0 Hnone.
  induction cs as [|c cs IH]; intros s dl written Hfile.
  - simpl. unfold ret. rewrite Z.add_0_r, app_nil_r, string_app_empty_r.
    rewrite insert_id by done. by destruct s.
  - cbn [for_each]. unfold bind.
    rewrite (download_body_step filename total n c s dl Hn Hn0 Hnone).
    cbn zeta. rewrite Hfile. cbn [default].
    erewrite IH; [|cbn [files]; by rewrite lookup_insert_eq].
    cbn [running stream_bytes files hda_dict script trace map].
    rewrite string_app_length, Nat2Z.inj_add, Z.add_assoc.
    rewrite insert_insert_eq, string_app_assoc, <- app_assoc.
    reflexivity.
Qed.

Lemma Forall_of_sublist {A} (P : A -> Prop) (l1 l2 : list A) :
  sublist l1 l2 -> Forall P l2 -> Forall P l1.
Proof.
  induction 1 as [|x l1 l2 _ IH|x l1 l2 _ IH]; intros H; [done|..].
  - constructor; [exact (Forall_inv H) | exact (IH (Forall_inv_tail H))].
  - exact (IH (Forall_inv_tail H)).
Qed.

(** What is left of a sorted list when elements are taken out is sorted. *)
Lemma sorted_of_sublist (l1 l2 : list Z) :
  sublist l1 l2 -> StronglySorted Z.le l2 -> StronglySorted Z.le l1.
Proof.
  induction 1 as [|x l1 l2 Hsub IH|x l1 l2 _ IH]; intros H; [done|..].
  - apply StronglySorted_inv in H as [Hs Hx]. constructor; [by apply IH|].
    by apply (Forall_of_sublist _ l1 l2).
  - apply StronglySorted_inv in H as [Hs _]. by apply IH.
Qed.

Lemma reports_app (es es' : list event) :
  reports (es ++ es') = reports es ++ reports es'.
Proof. unfold reports. by rewrite flat_map_app. Qed.

Lemma reports_progress (l : list Z) : reports (map Progress l) = l.
Proof. induction l as [|x l IH]; [done|]. simpl. by rewrite IH. Qed.

(** C6. When the download request is answered with HTTP 200 and the
    declared total length is the length of the stream, [downloadFile]
    returns after writing one file, at the path of the directory and the
    file name: the file holds the chunks of the stream one after the
    other, so its length is the total length of the stream, and no other
    file changes.  The byte counts of its progress lines are the running
    totals after each chunk, then the total; whichever of these lines are
    printed, each byte count is at least every earlier one. *)
Theorem downloadFile_writes_stream (s : state) (url : string)
    (headers : pyval) (directory file_name : string) (r : response)
    (rest : list response) :
  script s = r :: rest ->
  status_code r = 200 ->
  Forall (fun c => c <> "") (chunks r) ->
  let data := stream_bytes (chunks r) in
  let total := Z.of_nat (String.length data) in
  let filename := path_join directory file_name in
  let run :=
    downloadFile (PJson (JStr url)) headers directory file_name (JNum total)
      s in
  run = Ret RElapsed (final run)
  /\ files (final run) = <[filename := data]> (files s)
  /\ (exists written,
        files (final run) !! filename = Some written
        /\ Z.of_nat (String.length written) = total)
  /\ reports (trace (final run))
     = reports (trace s) ++ running 0 (chunks r) ++ [total]
  /\ (forall printed,
        sublist printed (running 0 (chunks r) ++ [total]) ->
        StronglySorted Z.le printed).
Proof.
  intros Hs H200 Hchunks data total filename run.
  assert (Hrun : run =
            Ret RElapsed
              {| hda_dict := hda_dict s; script := rest;
                 trace := trace s
                          ++ Request GET url headers None
                          :: map Progress (running 0 (chunks r))
                          ++ [Progress total];
                 files := <[filename := data]> (files s) |}).
  { unfold run, downloadFile, bind, requests. cbn [script log]. rewrite Hs.
    rewrite H200. cbn [Z.eqb Pos.eqb fopen number ret].
    fold filename.
    destruct (chunks r) as [|c cs] eqn:Hcs.
    - unfold report, log, set_script, set_files. simpl.
      rewrite <- app_assoc. reflexivity.
    - assert (Hne : total <> 0).
      { unfold total, data. cbn [stream_bytes]. rewrite string_app_length.
        pose proof (Forall_inv Hchunks) as Hc. destruct c; [done|].
        simpl. lia. }
      erewrite (download_loop filename (JNum total) total (c :: cs));
        try done; [|cbn [files set_files]; by rewrite lookup_insert_eq].
      unfold report, log, set_script, set_files. simpl.
      rewrite insert_insert_eq. rewrite <- !app_assoc. simpl.
      reflexivity. }
  rewrite Hrun. cbn [final files trace].
  split; [reflexivity|]. split; [reflexivity|]. split; [|split].
  - exists data. split; [by rewrite lookup_insert_eq | reflexivity].
  - rewrite reports_app. cbn [reports flat_map app].
    fold (reports (map Progress (running 0 (chunks r)) ++ [Progress total])).
    rewrite reports_app, reports_progress. reflexivity.
  - intros printed Hsub. apply (sorted_of_sublist _ _ Hsub).
    apply (running_sorted (chunks r) 0).
Qed.

Lemma downloadFile_writes_stream_witness :
  let s := start sample_session [stream_response] in
  let run :=
    downloadFile (PJson (JStr "https://broker/dataorder/download/order-A"))
      sample_headers "/data" "S3A_SR_1.zip" (JNum 13) s in
  files (final run) = <["/data/S3A_SR_1.zip" := "PKnetcdf-data"]> ∅
  /\ reports (trace (final run)) = [2; 9; 13; 13].
Proof.
  intros s run.
  destruct (downloadFile_writes_stream s
              "https://broker/dataorder/download/order-A" sample_headers
              "/data" "S3A_SR_1.zip" stream_response [] eq_refl eq_refl
              ltac:(repeat constructor; discriminate))
    as (_ & Hfiles & _ & Hreports & _).
  split; [exact Hfiles | exact Hreports].
Defined.

(** C10. When the download request is answered with another code than
    200, [downloadFile] returns [None]: the files are what they were (no
    file is created, nothing is written), and the request is the only
    event of the call. *)
Theorem downloadFile_not_200 (s : state) (url : string) (headers : pyval)
    (directory file_name : string) (total_length : json) (r : response)
    (rest : list response) :
  script s = r :: rest ->
  status_code r <> 200 ->
  downloadFile (PJson (JStr url)) headers directory file_name total_length s
    = Ret RNone (after s rest [Request GET url headers None])
  /\ files (after s rest [Request GET url headers None]) = files s.
Proof.
  intros Hs Hr. split; [|reflexivity].
  unfold downloadFile, bind, requests. cbn [script log]. rewrite Hs.
  destruct (Z.eqb_spec (status_code r) 200) as [E|_]; [done|].
  reflexivity.
Qed.

Lemma downloadFile_not_200_witness :
  let s := start sample_session [error_response 404] in
  downloadFile (PJson (JStr "https://broker/dataorder/download/order-A"))
    sample_headers "/data" "S3A_SR_1.zip" (JNum 1000) s
  = Ret RNone
      (after s [] [Request GET "https://broker/dataorder/download/order-A"
                     sample_headers None]).
Proof.
  intros s.
  exact (proj1 (downloadFile_not_200 s
                  "https://broker/dataorder/download/order-A" sample_headers
                  "/data" "S3A_SR_1.zip" (JNum 1000) (error_response 404) []
                  eq_refl ltac:(vm_compute; discriminate))).
Defined.

(* ================================================================== *)
(** * Further properties *)

(** ** More of [downloadFile] *)

Lemma number_not_None (v : json) (n : Z) :
  number v = Some n -> is_None v = false.
Proof. by destruct v. Qed.

(** The run of [downloadFile] on an HTTP 200 response when the declared
    total is a number other than zero. *)
Lemma downloadFile_200_run (s : state) (url : string) (headers : pyval)
    (directory file_name : string) (total_length : json) (n : Z)
    (r : response) (rest : list response) :
  script s = r :: rest ->
  status_code r = 200 ->
  number total_length = Some n -> n <> 0 ->
  downloadFile (PJson (JStr url)) headers directory file_name total_length s
  = Ret RElapsed
      {| hda_dict := hda_dict s; script := rest;
         trace := trace s
                  ++ Request GET url headers None
                  :: map Progress (running 0 (chunks r))
                  ++ [Progress (Z.of_nat
                                  (String.length (stream_bytes (chunks r))))];
         files := <[path_join directory file_name := stream_bytes (chunks r)]>
                    (files s) |}.
Proof.
  intros Hs H200 Hn Hn0.
  unfold downloadFile, bind, requests. cbn [script log]. rewrite Hs.
  rewrite H200. cbn [Z.eqb Pos.eqb fopen ret]. rewrite Hn. cbn [ret].
  erewrite (download_loop (path_join directory file_name) total_length n
              (chunks r) Hn Hn0 (number_not_None _ _ Hn));
    [|cbn [files set_files]; by rewrite lookup_insert_eq].
  unfold report, log, set_script, set_files. simpl.
  rewrite insert_insert_eq. rewrite <- !app_assoc. simpl.
  reflexivity.
Qed.



(** X2. With a declared total of zero, which is the default of the
    parameter, an HTTP 200 download of a stream that has a chunk ends with
    [ZeroDivisionError] at the first chunk: the chunk is written, nothing
    more is, and no progress line is due. *)
Theorem downloadFile_zero_total (s : state) (url : string) (headers : pyval)
    (directory file_name : string) (total_length : json) (r : response)
    (rest : list response) (c : string) (cs : list string) :
  script s = r :: rest ->
  status_code r = 200 ->
  chunks r = c :: cs ->
  number total_length = Some 0 ->
  downloadFile (PJson (JStr url)) headers directory file_name total_length s
  = Raise ZeroDivisionError
      {| hda_dict := hda_dict s; script := rest;
         trace := trace s ++ [Request GET url headers None];
         files := <[path_join directory file_name := c]> (files s) |}.
Proof.
  intros Hs H200 Hc Hn.
  unfold downloadFile, bind, requests. cbn [script log]. rewrite Hs.
  rewrite H200. cbn [Z.eqb Pos.eqb fopen ret]. rewrite Hn, Hc.
  cbn [ret for_each]. unfold bind, download_body, bind, fwrite.
  rewrite (number_not_None _ _ Hn), Hn.
  cbn [negb Z.eqb raise files set_files set_script log].
  rewrite lookup_insert_eq, insert_insert_eq. reflexivity.
Qed.

Lemma downloadFile_zero_total_witness :
  let s := start sample_session [stream_response] in
  downloadFile (PJson (JStr "https://broker/dataorder/download/order-A"))
    sample_headers "/data" "S3A_SR_1.zip" (JNum 0) s
  = Raise ZeroDivisionError
      {| hda_dict := sample_session; script := [];
         trace := [Request GET "https://broker/dataorder/download/order-A"
                     sample_headers None];
         files := <["/data/S3A_SR_1.zip" := "PK"]> ∅ |}.
Proof.
  intros s.
  exact (downloadFile_zero_total s
           "https://broker/dataorder/download/order-A" sample_headers
           "/data" "S3A_SR_1.zip" (JNum 0) stream_response [] "PK"
           ["netcdf-"; "data"] eq_refl eq_refl eq_refl eq_refl).
Defined.

(** X3. With a declared total that is not a number ([None] among them),
    an HTTP 200 download ends with [TypeError] when the file size is
    printed, after the file has been opened for writing: the file is
    left empty, whatever it held before, and no chunk is read.  So the
    branch of the loop for an unknown total length is never taken. *)
Theorem downloadFile_total_not_a_number (s : state) (url : string)
    (headers : pyval) (directory file_name : string) (total_length : json)
    (r : response) (rest : list response) :
  script s = r :: rest ->
  status_code r = 200 ->
  number total_length = None ->
  downloadFile (PJson (JStr url)) headers directory file_name total_length s
  = Raise TypeError
      {| hda_dict := hda_dict s; script := rest;
         trace := trace s ++ [Request GET url headers None];
         files := <[path_join directory file_name := ""]> (files s) |}.
Proof.
  intros Hs H200 Hn.
  unfold downloadFile, bind, requests. cbn [script log]. rewrite Hs.
  rewrite H200. cbn [Z.eqb Pos.eqb fopen ret]. rewrite Hn. reflexivity.
Qed.

Lemma downloadFile_total_not_a_number_witness :
  let s :=
    {| hda_dict := sample_session; script := [stream_response]; trace := [];
       files := <["/data/S3A_SR_1.zip" := "an earlier download"]> ∅ |} in
  files (final (downloadFile
                  (PJson (JStr "https://broker/dataorder/download/order-A"))
                  sample_headers "/data" "S3A_SR_1.zip" JNull s))
  = <["/data/S3A_SR_1.zip" := ""]> ∅.
Proof.
  intros s.
  rewrite (downloadFile_total_not_a_number s
             "https://broker/dataorder/download/order-A" sample_headers
             "/data" "S3A_SR_1.zip" JNull stream_response []
             eq_refl eq_refl eq_refl).
  cbn [final files]. unfold s. cbn [files]. apply insert_insert_eq.
Defined.



(** ** More of [get_access_token] *)

(** The headers that [get_access_token] stores for the token [t]. *)
Lemma get_access_token_success (s : state) (key address t : string)
    (r : response) (rest : list response) (j : json) :
  hda_dict s !! "api_key" = Some (PJson (JStr key)) ->
  hda_dict s !! "accessToken_address" = Some (PJson (JStr address)) ->
  hda_dict s !! "CONST_HTTP_SUCCESS_CODE" = Some (PJson (JNum 200)) ->
  script s = r :: rest ->
  status_code r = 200 ->
  text_json r = Some j ->
  field "access_token" j = Some (JStr t) ->
  get_access_token s =
    Ret tt
      {| hda_dict :=
           <["headers" :=
               PJson (JObj [("Authorization", JStr ("Bearer " +:+ t));
                            ("Accept", JStr "application/json")])]>
             (<["access_token" := PJson (JStr t)]> (hda_dict s));
         script := rest;
         trace := trace s
                  ++ [Request GET address
                        (PJson (JObj [("Authorization",
                                       JStr ("Basic " +:+ key))])) None];
         files := files s |}.
Proof.
  intros Hkey Haddr Hok Hs H200 Hj Ht.
  unfold get_access_token, bind, getitem. rewrite Hkey. cbn [str_add ret].
  rewrite Haddr. unfold requests. cbn [script log]. rewrite Hs.
  cbn [hda_dict set_script log]. rewrite Hok. unfold int_eq.
  rewrite H200. cbn [Z.eqb Pos.eqb]. unfold json_loads. rewrite Hj.
  cbn [ret]. rewrite (subscript_field _ _ _ _ Ht).
  cbn [str_add ret local setitem hda_dict set_dict].
  rewrite lookup_insert_eq. reflexivity.
Qed.

(** X5. From the credentials to a session that can poll.  In a session
    made by [init] with the key of [generate_api_key], [get_access_token]
    sends one GET to the token address of the broker, whose
    [Authorization] header is [Basic] and the key, a key that decodes to
    [username:password].  When the reply is HTTP 200 with a string
    [access_token], the call returns and the session holds the token and
    the [Bearer] headers, with the broker address and the success code
    that every later call reads. *)
Theorem credentials_to_session (username password dataset_id dir t : string)
    (r : response) (rest : list response) (j : json) :
  status_code r = 200 ->
  text_json r = Some j ->
  field "access_token" j = Some (JStr t) ->
  let key := generate_api_key username password in
  let s := start (init dataset_id key dir) (r :: rest) in
  let hs :=
    PJson (JObj [("Authorization", JStr ("Bearer " +:+ t));
                 ("Accept", JStr "application/json")]) in
  let run := get_access_token s in
  run = Ret tt (final run)
  /\ trace (final run)
     = [Request GET (sample_endpoint +:+ "/gettoken")
          (PJson (JObj [("Authorization", JStr ("Basic " +:+ key))])) None]
  /\ option_map bytes_decode (Base64.b64decode (str_encode key))
     = Some (username +:+ ":" +:+ password)
  /\ hda_dict (final run) !! "access_token" = Some (PJson (JStr t))
  /\ can_poll (hda_dict (final run)) sample_endpoint hs
  /\ script (final run) = rest.
Proof.
  intros H200 Hj Ht key s hs run. unfold run.
  rewrite (get_access_token_success s key (sample_endpoint +:+ "/gettoken")
             t r rest j); try done.
  cbn [final trace hda_dict script start app].
  split; [reflexivity|]. split; [reflexivity|].
  split.
  { unfold key, generate_api_key, str_encode, bytes_decode.
    rewrite list_ascii_of_string_of_list_ascii.
    rewrite Base64Facts.b64decode_b64encode. simpl.
    by rewrite string_of_list_ascii_of_string. }
  split; [by simplify_map_eq|].
  split; [|reflexivity].
  unfold can_poll, init. repeat split; by simplify_map_eq.
Qed.

Lemma credentials_to_session_witness :
  let r := {| status_code := 200;
              text_json := Some (JObj [("access_token", JStr "6b2c")]);
              chunks := [] |} in
  let run := get_access_token (start fresh_session [r]) in
  run = Ret tt (final run)
  /\ trace (final run)
     = [Request GET (sample_endpoint +:+ "/gettoken")
          (PJson (JObj [("Authorization", JStr "Basic dXNlcjpwYXNz")])) None]
  /\ hda_dict (final run) = token_session.
Proof.
  intros r run.
  destruct (credentials_to_session "user" "pass"
              "EO:EUM:DAT:SENTINEL-3:SR_1_SRA___" "/data" "6b2c" r []
              (JObj [("access_token", JStr "6b2c")]) eq_refl eq_refl eq_refl)
    as (Hrun & Htrace & _).
  split; [exact Hrun|]. split; [exact Htrace|].
  vm_compute. reflexivity.
Defined.

(** X6. [get_access_token] is all or nothing.  Whatever the session and
    the reply are, a call that returns has stored a string token and the
    [Bearer] headers made of that same token, and a call that raises, or
    is left waiting, has changed nothing in the session. *)
Theorem get_access_token_all_or_nothing (s : state) :
  let run := get_access_token s in
  match run with
  | Ret _ s' =>
      exists t : string,
        hda_dict s'
        = <["headers" :=
              PJson (JObj [("Authorization", JStr ("Bearer " +:+ t));
                           ("Accept", JStr "application/json")])]>
            (<["access_token" := PJson (JStr t)]> (hda_dict s))
  | Raise _ s' | Blocked s' => hda_dict s' = hda_dict s
  end.
Proof.
  cbn zeta.
  unfold get_access_token, bind, getitem, str_add, requests, json_loads,
    subscript, local, setitem, ret, raise.
  repeat (case_match; simplify_eq; try done);
    cbn [hda_dict set_dict set_script log] in *; simplify_map_eq; eauto.
Qed.

(** ** [query_metadata] *)

(** X7. [query_metadata] sends one GET for the dataset of the session.
    When the reply is HTTP 200 with a JSON body, the body is stored under
    [parsedResponse]; when the reply has another code, the call ends with
    [UnboundLocalError] at that assignment and the session is as it
    was. *)
Theorem query_metadata_reply (s : state) (ep dataset token : string)
    (hs : pyval) (r : response) (rest : list response) :
  can_poll (hda_dict s) ep hs ->
  hda_dict s !! "dataset_id" = Some (PJson (JStr dataset)) ->
  hda_dict s !! "access_token" = Some (PJson (JStr token)) ->
  script s = r :: rest ->
  let s1 :=
    after s rest
      [Request GET ((ep +:+ "/querymetadata/") +:+ dataset) hs None] in
  (forall j, status_code r = 200 -> text_json r = Some j ->
     query_metadata s
     = Ret tt (set_dict (<["parsedResponse" := PJson j]> (hda_dict s)) s1))
  /\ (status_code r <> 200 ->
      query_metadata s = Raise (UnboundLocalError "parsedResponse") s1).
Proof.
  intros (Hep & Hhs & Hok) Hds Htok Hs s1.
  assert (Hrun : query_metadata s =
            if Z.eqb (status_code r) 200 then
              match text_json r with
              | Some j =>
                  Ret tt (set_dict (<["parsedResponse" := PJson j]>
                                      (hda_dict s)) s1)
              | None => Raise JSONDecodeError s1
              end
            else Raise (UnboundLocalError "parsedResponse") s1).
  { unfold query_metadata, bind, getitem.
    rewrite Hep. cbn [str_add ret]. rewrite Hds. cbn [str_add ret].
    rewrite Hhs. unfold requests. cbn [script log]. rewrite Hs.
    repeat (cbn [str_add ret hda_dict set_script log];
            first [rewrite Hep | rewrite Hds | rewrite Htok | rewrite Hok]).
    unfold int_eq, json_loads.
    destruct (Z.eqb (status_code r) 200); [|reflexivity].
    destruct (text_json r); reflexivity. }
  rewrite Hrun. split.
  - intros j H200 Hj. rewrite H200, Hj. reflexivity.
  - intros Hr. destruct (Z.eqb_spec (status_code r) 200) as [E|_]; [done|].
    reflexivity.
Qed.

Lemma query_metadata_reply_witness :
  let s := start token_session [error_response 503] in
  query_metadata s
  = Raise (UnboundLocalError "parsedResponse")
      (after s []
         [Request GET
            (sample_endpoint
               +:+ "/querymetadata/EO:EUM:DAT:SENTINEL-3:SR_1_SRA___")
            sample_headers None]).
Proof.
  intros s.
  refine (proj2 (query_metadata_reply s sample_endpoint
                   "EO:EUM:DAT:SENTINEL-3:SR_1_SRA___" "6b2c" sample_headers
                   (error_response 503) [] _ _ _ _) _).
  - repeat split; vm_compute; reflexivity.
  - vm_compute; reflexivity.
  - vm_compute; reflexivity.
  - reflexivity.
  - vm_compute; discriminate.
Defined.

(** ** More of [acceptTandC] *)

(** X8. [acceptTandC] does not read the status code of the reply, and it
    tests the flag with [is False]: whatever the code, a body whose
    [accepted] is anything but the JSON value [false] ([null], [0], the
    string ["false"]) counts as accepted.  The GET is then the only
    request, the call returns, and that value is stored under
    [isTandCAccepted]. *)
Theorem acceptTandC_anything_but_false (s : state) (address : string)
    (hs : pyval) (r : response) (rest : list response) (v : json) :
  hda_dict s !! "acceptTandC_address" = Some (PJson (JStr address)) ->
  hda_dict s !! "headers" = Some hs ->
  script s = r :: rest ->
  read_accepted r = inr v ->
  v <> JBool false ->
  acceptTandC s
  = Ret tt (set_dict (<["isTandCAccepted" := PJson v]> (hda_dict s))
              (after s rest [Request GET address hs None])).
Proof.
  intros Haddr Hhs Hs Hr Hv.
  rewrite (acceptTandC_run s address hs r rest Haddr Hhs Hs). cbn zeta.
  rewrite Hr. by destruct v as [|[|]| | | |].
Qed.

Lemma acceptTandC_anything_but_false_witness :
  let r := {| status_code := 401;
              text_json := Some (JObj [("accepted", JNull)]);
              chunks := [] |} in
  let s := start token_session [r] in
  acceptTandC s
  = Ret tt (set_dict (<["isTandCAccepted" := PJson JNull]> token_session)
              (after s []
                 [Request GET
                    (sample_endpoint
                       +:+ "/termsaccepted/Copernicus_General_License")
                    sample_headers None])).
Proof.
  intros r s.
  exact (acceptTandC_anything_but_false s
           (sample_endpoint +:+ "/termsaccepted/Copernicus_General_License")
           sample_headers r [] JNull
           ltac:(vm_compute; reflexivity) ltac:(vm_compute; reflexivity)
           eq_refl eq_refl ltac:(discriminate)).
Defined.

(** X9. After the PUT, [acceptTandC] stores what the reply to the PUT
    reports and returns, without a look at what that is: when the broker
    answers the PUT with [accepted] still [false], the call returns
    normally and the session holds [isTandCAccepted = false]. *)
Theorem acceptTandC_stores_put_reply (s : state) (address : string)
    (hs : pyval) (r r2 : response) (rest : list response) (v2 : json) :
  hda_dict s !! "acceptTandC_address" = Some (PJson (JStr address)) ->
  hda_dict s !! "headers" = Some hs ->
  script s = r :: r2 :: rest ->
  read_accepted r = inr (JBool false) ->
  read_accepted r2 = inr v2 ->
  acceptTandC s
  = Ret tt (set_dict (<["isTandCAccepted" := PJson v2]> (hda_dict s))
              (after s rest [Request GET address hs None;
                             Request PUT address hs None])).
Proof.
  intros Haddr Hhs Hs Hr Hr2.
  rewrite (acceptTandC_run s address hs r (r2 :: rest) Haddr Hhs Hs).
  cbn zeta. rewrite Hr. cbn [is_False]. by rewrite Hr2.
Qed.

Lemma acceptTandC_stores_put_reply_witness :
  let s := start token_session [terms_response false; terms_response false] in
  acceptTandC s
  = Ret tt (set_dict (<["isTandCAccepted" := PJson (JBool false)]>
                        token_session)
              (after s []
                 [Request GET
                    (sample_endpoint
                       +:+ "/termsaccepted/Copernicus_General_License")
                    sample_headers None;
                  Request PUT
                    (sample_endpoint
                       +:+ "/termsaccepted/Copernicus_General_License")
                    sample_headers None])).
Proof.
  intros s.
  exact (acceptTandC_stores_put_reply s
           (sample_endpoint +:+ "/termsaccepted/Copernicus_General_License")
           sample_headers (terms_response false) (terms_response false) []
           (JBool false)
           ltac:(vm_compute; reflexivity) ltac:(vm_compute; reflexivity)
           eq_refl eq_refl eq_refl).
Defined.

(** ** More of [get_order_ids] *)

(** X10. With a results page that holds no descriptor, [get_order_ids]
    sends nothing, stores two empty lists under [order_ids] and
    [order_sizes], and then ends with [UnboundLocalError]: its local
    [response] was never bound, and [order_status_response] is not
    stored. *)
Theorem get_order_ids_empty_page (s : state) (page : json) :
  hda_dict s !! "results" = Some (PJson page) ->
  field "content" page = Some (JArr []) ->
  get_order_ids s
  = Raise (UnboundLocalError "response")
      (set_dict (<["order_sizes" := PJson (JArr [])]>
                   (<["order_ids" := PJson (JArr [])]> (hda_dict s))) s).
Proof.
  intros Hres Hcontent.
  unfold get_order_ids, bind, getitem. rewrite Hres.
  rewrite (subscript_field _ _ _ _ Hcontent). reflexivity.
Qed.

Lemma get_order_ids_empty_page_witness :
  let s := start (session_with_results []) [] in
  get_order_ids s
  = Raise (UnboundLocalError "response")
      (set_dict (<["order_sizes" := PJson (JArr [])]>
                   (<["order_ids" := PJson (JArr [])]>
                      (session_with_results []))) s).
Proof.
  intros s.
  exact (get_order_ids_empty_page s (JObj [("content", JArr [])])
           ltac:(vm_compute; reflexivity) eq_refl).
Defined.

(** X11. An order request that the broker serves after one that it has
    refused ends [get_order_ids]: after any number of served orders, when
    the order request of one result is answered with another code than
    200 and that of the next result with HTTP 200 and an order id, the
    call ends with [IndexError], and the session is as it was before the
    call: the orders served so far are not stored either. *)
Theorem get_order_ids_served_after_refused (s : state) (ep : string)
    (hs : pyval) (job_id : json) (os : list order_run) (item1 item2 : json)
    (more : list json) (p1 p2 : response) (rest : list response)
    (uri1 bytes1 uri2 bytes2 oid : json) :
  can_order (hda_dict s) ep hs job_id
    (map o_result os ++ item1 :: item2 :: more) ->
  Forall order_served os ->
  field "url" item1 = Some uri1 -> field "size" item1 = Some bytes1 ->
  field "url" item2 = Some uri2 -> field "size" item2 = Some bytes2 ->
  script s = orders_script os ++ p1 :: p2 :: rest ->
  status_code p1 <> 200 ->
  status_code p2 = 200 -> order_id_of p2 = Some oid ->
  raised (get_order_ids s) = Some IndexError
  /\ hda_dict (final (get_order_ids s)) = hda_dict s
  /\ files (final (get_order_ids s)) = files s.
Proof.
  intros Hcan Hos Hu1 Hz1 Hu2 Hz2 Hs Hp1 Hp2 Hid.
  destruct (get_order_ids_index_error s ep hs job_id os item1 item2 more
              p1 p2 rest uri1 bytes1 uri2 bytes2 oid Hcan Hos Hu1 Hz1 Hu2
              Hz2 Hs Hp1 Hp2 Hid) as [Hraised Hdict].
  split; [exact Hraised|]. split; [exact Hdict|].
  destruct Hcan as (Hpoll & Hjob & page & Hres & Hcontent).
  unfold get_order_ids, bind at 1 2 3, getitem. rewrite Hres.
  rewrite (subscript_field _ _ _ _ Hcontent). cbn [iterate ret].
  unfold bind at 1. rewrite for_each_app. unfold bind at 1.
  pose proof (for_each_orders_served (hda_dict s) ep hs job_id Hpoll Hjob
                os s [] [] None (p1 :: p2 :: rest) eq_refl Hs Hos) as Hloop.
  change (Z.of_nat (List.length (@nil json))) with 0 in Hloop.
  rewrite Hloop. cbn [for_each app]. unfold bind at 1.
  erewrite (order_ids_body_failed (hda_dict s) ep hs job_id Hpoll Hjob
              item1 uri1 bytes1); try done.
  cbn [for_each]. unfold bind at 1.
  erewrite (order_ids_body_index_error (hda_dict s) ep hs job_id Hpoll Hjob
              item2 uri2 bytes2 oid); try done.
  cbn [app List.length]. rewrite length_map. lia.
Qed.

Lemma get_order_ids_served_after_refused_witness :
  let s := start (session_with_results two_results)
             [error_response 500; order_response "order-B";
              status_response "completed"] in
  raised (get_order_ids s) = Some IndexError
  /\ hda_dict (final (get_order_ids s)) = session_with_results two_results.
Proof.
  intros s.
  destruct (get_order_ids_served_after_refused s sample_endpoint
              sample_headers (JStr "job-1") []
              (descriptor "S3A_SR_1.zip" 1000 "https://store/S3A_SR_1")
              (descriptor "S3B_SR_1.zip" 2000 "https://store/S3B_SR_1") []
              (error_response 500) (order_response "order-B")
              [status_response "completed"]
              (JStr "https://store/S3A_SR_1") (JNum 1000)
              (JStr "https://store/S3B_SR_1") (JNum 2000) (JStr "order-B"))
    as (H1 & H2 & _); try reflexivity.
  - repeat split; try (vm_compute; reflexivity).
    exists (JObj [("content", JArr two_results)]).
    split; vm_compute; reflexivity.
  - constructor.
  - vm_compute. discriminate.
  - split; [exact H1 | exact H2].
Defined.

(** X12. What [get_order_ids] stores is aligned.  When the refused order
    requests come last (served orders [os], then refusals [xs]), the call
    stores the order ids of [os] and the sizes of all the results: the
    list of ids is shorter by the number of refusals, and at every index
    of [order_ids] the id and the size at that index belong to the same
    result. *)
Theorem get_order_ids_stored_aligned (s : state) (ep : string) (hs : pyval)
    (job_id : json) (os : list order_run) (xs : list order_refusal)
    (rest : list response) :
  can_order (hda_dict s) ep hs job_id (map o_result os ++ map x_result xs) ->
  script s = orders_script os ++ map x_post xs ++ rest ->
  Forall order_served os ->
  Forall order_refused xs ->
  exists ids sizes : list json,
    hda_dict (final (get_order_ids s)) !! "order_ids"
      = Some (PJson (JArr ids))
    /\ hda_dict (final (get_order_ids s)) !! "order_sizes"
       = Some (PJson (JArr sizes))
    /\ List.length ids = List.length os
    /\ List.length sizes = (List.length os + List.length xs)%nat
    /\ (forall i o, os !! i = Some o ->
          ids !! i = Some (JStr (o_id o)) /\ sizes !! i = Some (o_size o)).
Proof.
  intros Hcan Hs Hos Hxs.
  destruct (get_order_ids_refused_last s ep hs job_id os xs rest Hcan Hs Hos
              Hxs) as (Hids & Hsizes & Hlen).
  exists (map (fun o => JStr (o_id o)) os), (map o_size os ++ map x_size xs).
  split; [exact Hids|]. split; [exact Hsizes|].
  split; [by rewrite length_map|].
  split; [by rewrite length_app, !length_map|].
  intros i o Hi. split.
  - rewrite list_lookup_fmap. by rewrite Hi.
  - rewrite lookup_app_l.
    + rewrite list_lookup_fmap. by rewrite Hi.
    + rewrite length_map. by apply lookup_lt_Some in Hi.
Qed.

Lemma get_order_ids_stored_aligned_witness :
  let s := start (session_with_results two_results)
             [order_response "order-A"; status_response "completed";
              error_response 500] in
  exists ids sizes : list json,
    hda_dict (final (get_order_ids s)) !! "order_ids"
      = Some (PJson (JArr ids))
    /\ hda_dict (final (get_order_ids s)) !! "order_sizes"
       = Some (PJson (JArr sizes))
    /\ List.length ids = 1%nat
    /\ List.length sizes = 2%nat
    /\ (forall i o, served_first !! i = Some o ->
          ids !! i = Some (JStr (o_id o)) /\ sizes !! i = Some (o_size o)).
Proof.
  intros s.
  refine (get_order_ids_stored_aligned s sample_endpoint sample_headers
            (JStr "job-1") served_first refused_second [] _ _ _ _).
  - repeat split; try (vm_compute; reflexivity).
    exists (JObj [("content", JArr two_results)]).
    split; vm_compute; reflexivity.
  - reflexivity.
  - repeat constructor.
  - repeat constructor. vm_compute. discriminate.
Defined.

(** ** More of [get_job_id] and of the polling loops *)

(** The run of [get_job_id] after a submission that the broker takes. *)
Lemma get_job_id_run (s : state) (ep : string) (hs : pyval)
    (data j : json) (job : string) (r : response)
    (waiting : list response) (last : response) (rest : list response) :
  can_poll (hda_dict s) ep hs ->
  script s = r :: waiting ++ last :: rest ->
  status_code r = 200 ->
  text_json r = Some j ->
  field "jobId" j = Some (JStr job) ->
  Forall pending waiting ->
  completed last = true ->
  get_job_id data s
  = Ret tt
      {| hda_dict := <["job_id" := PJson (JStr job)]> (hda_dict s);
         script := rest;
         trace := trace s
                  ++ Request POST (ep +:+ "/datarequest") hs (Some data)
                  :: polls_from ((ep +:+ "/datarequest/status/") +:+ job) hs
                       0 (S (List.length waiting));
         files := files s |}.
Proof.
  intros Hpoll Hs H200 Hj Hjob Hw Hc.
  pose proof Hpoll as (Hep & Hhs & Hok).
  unfold get_job_id, bind, getitem. rewrite Hep. cbn [str_add ret].
  rewrite Hhs. unfold requests. cbn [script log]. rewrite Hs.
  cbn [hda_dict set_script log]. rewrite Hok. unfold int_eq.
  rewrite H200. cbn [Z.eqb Pos.eqb]. unfold json_loads. rewrite Hj.
  cbn [ret]. rewrite (subscript_field _ _ _ _ Hjob).
  cbn [str_add ret setitem].
  erewrite (get_request_status_completes _ ep hs job waiting last rest);
    try done.
  - unfold after. cbn [hda_dict set_dict set_script log script trace files].
    by rewrite <- app_assoc.
  - cbn [hda_dict set_dict]. repeat split; by simplify_map_eq.
  - cbn [hda_dict set_dict]. by simplify_map_eq.
Qed.

(** X13. A submission that succeeds is polled under the job id it was
    given.  When the POST is answered with HTTP 200 and a string [jobId],
    [get_job_id] stores that id and then asks for the status of that very
    id, until the first reply that is HTTP 200 with the status
    ["completed"]; it then returns. *)
Theorem get_job_id_submitted (s : state) (ep : string) (hs : pyval)
    (data j : json) (job : string) (r : response)
    (waiting : list response) (last : response) (rest : list response) :
  can_poll (hda_dict s) ep hs ->
  script s = r :: waiting ++ last :: rest ->
  status_code r = 200 ->
  text_json r = Some j ->
  field "jobId" j = Some (JStr job) ->
  Forall pending waiting ->
  completed last = true ->
  get_job_id data s
  = Ret tt
      {| hda_dict := <["job_id" := PJson (JStr job)]> (hda_dict s);
         script := rest;
         trace := trace s
                  ++ Request POST (ep +:+ "/datarequest") hs (Some data)
                  :: polls_from ((ep +:+ "/datarequest/status/") +:+ job) hs
                       0 (S (List.length waiting));
         files := files s |}.
Proof.
  apply get_job_id_run.
Qed.

Lemma get_job_id_submitted_witness :
  let r := {| status_code := 200;
              text_json := Some (JObj [("jobId", JStr "job-1")]);
              chunks := [] |} in
  let s := start token_session
             [r; status_response "running"; status_response "completed"] in
  get_job_id sample_query s
  = Ret tt
      {| hda_dict := sample_session; script := [];
         trace :=
           [Request POST (sample_endpoint +:+ "/datarequest") sample_headers
              (Some sample_query);
            Request GET (sample_endpoint +:+ "/datarequest/status/job-1")
              sample_headers None;
            Request GET (sample_endpoint +:+ "/datarequest/status/job-1")
              sample_headers None];
         files := ∅ |}.
Proof.
  intros r s.
  refine (get_job_id_submitted s sample_endpoint sample_headers sample_query
            (JObj [("jobId", JStr "job-1")]) "job-1" r
            [status_response "running"] (status_response "completed") []
            _ _ _ _ _ _ _); try reflexivity.
  - repeat split; vm_compute; reflexivity.
  - repeat constructor.
Defined.

(** X14. A reply that is HTTP 200 without a readable status ends a
    polling loop with an exception.  After any replies that keep the loop
    going, when a reply is HTTP 200 and its body is not JSON, or is not
    an object, or has no [status], or has a [status] that is not a
    string, [get_request_status] and [get_order_status] end with the
    exception of that reading ([JSONDecodeError], [TypeError] or
    [KeyError]), after the poll that received it; the replies that came
    later are not read. *)
Theorem polling_ends_on_unreadable_reply (s : state) (ep : string)
    (hs : pyval) (job oid : string) (waiting : list response)
    (bad : response) (rest : list response) (e : exn) :
  can_poll (hda_dict s) ep hs ->
  hda_dict s !! "job_id" = Some (PJson (JStr job)) ->
  script s = waiting ++ bad :: rest ->
  Forall pending waiting ->
  status_code bad = 200 ->
  read_status bad = inl e ->
  get_request_status s
  = Raise e (after s rest
               (polls_from ((ep +:+ "/datarequest/status/") +:+ job) hs 0
                  (S (List.length waiting))))
  /\ get_order_status (JStr oid) s
     = Raise e (after s rest
                  (polls_from ((ep +:+ "/dataorder/status/") +:+ oid) hs 0
                     (S (List.length waiting)))).
Proof.
  intros Hpoll Hjob Hs Hw H200 Hbad. split.
  - by apply (get_request_status_raises s ep hs job waiting bad rest e).
  - by apply (get_order_status_raises s ep hs oid waiting bad rest e).
Qed.

Lemma polling_ends_on_unreadable_reply_witness :
  let bad := {| status_code := 200; text_json := Some (JObj []);
                chunks := [] |} in
  let s := start sample_session
             [status_response "running"; bad; status_response "completed"] in
  get_request_status s
  = Raise (KeyError "status")
      (after s [status_response "completed"]
         [Request GET (sample_endpoint +:+ "/datarequest/status/job-1")
            sample_headers None;
          Request GET (sample_endpoint +:+ "/datarequest/status/job-1")
            sample_headers None]).
Proof.
  intros bad s.
  refine (proj1 (polling_ends_on_unreadable_reply s sample_endpoint
                   sample_headers "job-1" "order-A"
                   [status_response "running"] bad
                   [status_response "completed"] (KeyError "status")
                   _ _ _ _ _ _)); try reflexivity.
  - repeat split; vm_compute; reflexivity.
  - repeat constructor.
Defined.

(** A loop whose body keeps the session and the files keeps them. *)
Lemma while_keeps_store {L : Type} (cond : L -> bool) (body : L -> M L) :
  (forall l s, hda_dict (final (body l s)) = hda_dict s
               /\ files (final (body l s)) = files s) ->
  forall fuel l s,
    hda_dict (final (while fuel cond body l s)) = hda_dict s
    /\ files (final (while fuel cond body l s)) = files s.
Proof.
  intros Hbody. induction fuel as [|fuel IH]; intros l s.
  - simpl. by destruct (cond l).
  - cbn [while]. destruct (cond l); [|done].
    pose proof (Hbody l s) as [Hd Hf].
    destruct (body l s) as [l1 s1|e s1|s1]; cbn [final] in *; try done.
    destruct (IH l1 s1) as [Hd1 Hf1]. by rewrite Hd1, Hf1.
Qed.

Lemma request_status_body_keeps_store l s :
  hda_dict (final (request_status_body l s)) = hda_dict s
  /\ files (final (request_status_body l s)) = files s.
Proof.
  destruct l as [status count].
  destruct (request_status_body (status, count) s) as [l1 s1|e s1|s1] eqn:H;
    cbn [final]; unfold request_status_body, bind, sleep, getitem, str_add,
      requests, json_loads, subscript, ret, raise in H;
    repeat (case_match; try discriminate; simplify_eq);
    cbn [hda_dict files log set_script] in *; done.
Qed.

Lemma order_status_body_keeps_store oid l s :
  hda_dict (final (order_status_body oid l s)) = hda_dict s
  /\ files (final (order_status_body oid l s)) = files s.
Proof.
  destruct l as [[status count] resp].
  destruct (order_status_body oid (status, count, resp) s)
    as [l1 s1|e s1|s1] eqn:H;
    cbn [final]; unfold order_status_body, bind, sleep, getitem, str_add,
      requests, json_loads, subscript, ret, raise in H;
    repeat (case_match; try discriminate; simplify_eq);
    cbn [hda_dict files log set_script] in *; done.
Qed.

(** X15. Polling changes nothing in the session.  Whatever the session
    and the replies are, and however the loop ends (it returns, it
    raises, it is left waiting), [get_request_status] and
    [get_order_status] leave every entry of [hda_dict] and every file as
    they were: no status, no count and no reply is kept. *)
Theorem polling_keeps_the_session (s : state) (order_id : json) :
  hda_dict (final (get_request_status s)) = hda_dict s
  /\ files (final (get_request_status s)) = files s
  /\ hda_dict (final (get_order_status order_id s)) = hda_dict s
  /\ files (final (get_order_status order_id s)) = files s.
Proof.
  assert (H1 : hda_dict (final (get_request_status s)) = hda_dict s
               /\ files (final (get_request_status s)) = files s).
  { unfold get_request_status, bind, polls_left.
    pose proof (while_keeps_store
                  (fun l : json * Z => negb (str_eq (fst l) "completed"))
                  request_status_body request_status_body_keeps_store
                  (S (List.length (script s))) (JStr "not started", 0) s)
      as H.
    destruct (while _ _ _ _ s); exact H. }
  assert (H2 : hda_dict (final (get_order_status order_id s)) = hda_dict s
               /\ files (final (get_order_status order_id s)) = files s).
  { unfold get_order_status, bind, polls_left.
    pose proof (while_keeps_store
                  (fun l : json * Z * option response =>
                     negb (str_eq (fst (fst l)) "completed"))
                  (order_status_body order_id)
                  (order_status_body_keeps_store order_id)
                  (S (List.length (script s))) (JStr "not started", 0, None)
                  s) as H.
    destruct (while _ _ _ _ s) as [l1 s1| |]; try exact H.
    unfold local, ret, raise. destruct (snd l1); exact H. }
  tauto.
Qed.

(** ** [get_results_list] and [get_filenames] *)

(** The run of [get_results_list] for a reply whose body is JSON. *)
Lemma get_results_list_run (s : state) (ep job : string) (hs : pyval)
    (r : response) (rest : list response) (page : json) :
  can_poll (hda_dict s) ep hs ->
  hda_dict s !! "job_id" = Some (PJson (JStr job)) ->
  script s = r :: rest ->
  text_json r = Some page ->
  get_results_list s
  = Ret tt
      {| hda_dict := <["results" := PJson page]> (hda_dict s);
         script := rest;
         trace := trace s
                  ++ [Request GET
                        (((ep +:+ "/datarequest/jobs/") +:+ job) +:+ "/result")
                        hs
                        (Some (JObj [("page", JStr "0"); ("size", JStr "5")]))];
         files := files s |}.
Proof.
  intros (Hep & Hhs & Hok) Hjob Hs Hpage.
  unfold get_results_list, bind, getitem. rewrite Hep. cbn [str_add ret].
  rewrite Hjob. cbn [str_add ret]. rewrite Hhs.
  unfold requests. cbn [script log]. rewrite Hs.
  unfold json_loads. by rewrite Hpage.
Qed.

(** X16. [get_results_list] sends one GET, for page 0 with 5 results of
    the job of the session, and does not read the status code of the
    reply: whatever the code, a body that is JSON is stored under
    [results] and the call returns; a body that is not JSON ends the call
    with [JSONDecodeError], and the session is as it was. *)
Theorem get_results_list_reply (s : state) (ep job : string) (hs : pyval)
    (r : response) (rest : list response) :
  can_poll (hda_dict s) ep hs ->
  hda_dict s !! "job_id" = Some (PJson (JStr job)) ->
  script s = r :: rest ->
  let s1 :=
    after s rest
      [Request GET (((ep +:+ "/datarequest/jobs/") +:+ job) +:+ "/result") hs
         (Some (JObj [("page", JStr "0"); ("size", JStr "5")]))] in
  (forall j, text_json r = Some j ->
     get_results_list s
     = Ret tt (set_dict (<["results" := PJson j]> (hda_dict s)) s1))
  /\ (text_json r = None -> get_results_list s = Raise JSONDecodeError s1).
Proof.
  intros (Hep & Hhs & Hok) Hjob Hs s1.
  assert (Hrun : get_results_list s =
            match text_json r with
            | Some j =>
                Ret tt (set_dict (<["results" := PJson j]> (hda_dict s)) s1)
            | None => Raise JSONDecodeError s1
            end).
  { unfold get_results_list, bind, getitem. rewrite Hep. cbn [str_add ret].
    rewrite Hjob. cbn [str_add ret]. rewrite Hhs.
    unfold requests. cbn [script log]. rewrite Hs.
    unfold json_loads. destruct (text_json r); reflexivity. }
  rewrite Hrun. split.
  - by intros j ->.
  - by intros ->.
Qed.

Lemma get_results_list_reply_witness :
  let r := {| status_code := 500;
              text_json := Some (JObj [("error", JStr "job not found")]);
              chunks := [] |} in
  let s := start sample_session [r] in
  get_results_list s
  = Ret tt
      (set_dict (<["results" := PJson (JObj [("error",
                                              JStr "job not found")])]>
                   sample_session)
         (after s []
            [Request GET
               (sample_endpoint +:+ "/datarequest/jobs/job-1/result")
               sample_headers
               (Some (JObj [("page", JStr "0"); ("size", JStr "5")]))])).
Proof.
  intros r s.
  refine (proj1 (get_results_list_reply s sample_endpoint "job-1"
                   sample_headers r [] _ _ _) _ _).
  - repeat split; vm_compute; reflexivity.
  - vm_compute; reflexivity.
  - reflexivity.
  - reflexivity.
Defined.

(** X17. An error reply of the results endpoint is found out one step
    later.  When the reply to [get_results_list] is a JSON object without
    [content], [get_results_list] returns and it is [get_order_ids],
    called next, that ends with [KeyError] for [content], before it sends
    anything. *)
Theorem results_without_content (s : state) (ep job : string) (hs : pyval)
    (r : response) (rest : list response) (fields : list (string * json)) :
  can_poll (hda_dict s) ep hs ->
  hda_dict s !! "job_id" = Some (PJson (JStr job)) ->
  script s = r :: rest ->
  text_json r = Some (JObj fields) ->
  assoc "content" fields = None ->
  (get_results_list ;;; get_order_ids) s
  = Raise (KeyError "content")
      (set_dict (<["results" := PJson (JObj fields)]> (hda_dict s))
         (after s rest
            [Request GET
               (((ep +:+ "/datarequest/jobs/") +:+ job) +:+ "/result") hs
               (Some (JObj [("page", JStr "0"); ("size", JStr "5")]))])).
Proof.
  intros Hpoll Hjob Hs Hr Hf.
  unfold bind at 1.
  rewrite (get_results_list_run s ep job hs r rest _ Hpoll Hjob Hs Hr).
  unfold get_order_ids, bind, getitem. cbn [hda_dict set_dict after].
  rewrite lookup_insert_eq. cbn [subscript]. by rewrite Hf.
Qed.

Lemma results_without_content_witness :
  let r := {| status_code := 500;
              text_json := Some (JObj [("error", JStr "job not found")]);
              chunks := [] |} in
  raised ((get_results_list ;;; get_order_ids) (start sample_session [r]))
  = Some (KeyError "content").
Proof.
  intros r.
  rewrite (results_without_content (start sample_session [r])
             sample_endpoint "job-1" sample_headers r []
             [("error", JStr "job not found")]); try reflexivity.
  repeat split; vm_compute; reflexivity.
Defined.

(** The loop of [get_filenames] over results that have a file name. *)
Lemma get_filenames_loop (items names : list json) :
  Forall2 (fun file name => field "filename" file = Some name) items names ->
  forall (acc : list json) (s : state),
    for_each items
      (fun file fileName =>
         name <- subscript (PJson file) "filename" ;;
         ret (fileName ++ [name]))
      acc s
    = Ret (acc ++ names) s.
Proof.
  induction 1 as [|file name items names Hf _ IH]; intros acc s.
  - simpl. unfold ret. by rewrite app_nil_r.
  - cbn [for_each]. unfold bind at 1. unfold bind at 1.
    rewrite (subscript_field _ _ _ _ Hf). cbn [ret].
    rewrite IH. by rewrite <- app_assoc.
Qed.

(** X18. [get_filenames] gives one file name for every result of the
    page, in the order of the page, and touches nothing; a result that is
    an object without [filename] ends it with [KeyError], whatever the
    results after it are. *)
Theorem get_filenames_of_page (s : state) (page : json)
    (items names : list json) :
  hda_dict s !! "results" = Some (PJson page) ->
  Forall2 (fun file name => field "filename" file = Some name) items names ->
  (field "content" page = Some (JArr items) ->
     get_filenames s = Ret names s /\ List.length names = List.length items)
  /\ (forall fields more,
        field "content" page = Some (JArr (items ++ JObj fields :: more)) ->
        assoc "filename" fields = None ->
        get_filenames s = Raise (KeyError "filename") s).
Proof.
  intros Hres Hnames. split.
  - intros Hcontent. split.
    + unfold get_filenames, bind at 1 2 3, getitem. rewrite Hres.
      rewrite (subscript_field _ _ _ _ Hcontent). cbn [iterate ret].
      by rewrite (get_filenames_loop items names Hnames [] s).
    + symmetry. by eapply Forall2_length.
  - intros fields more Hcontent Hf.
    unfold get_filenames, bind at 1 2 3, getitem. rewrite Hres.
    rewrite (subscript_field _ _ _ _ Hcontent). cbn [iterate ret].
    rewrite for_each_app. unfold bind at 1.
    rewrite (get_filenames_loop items names Hnames [] s).
    cbn [for_each]. unfold bind. cbn [subscript]. by rewrite Hf.
Qed.

Lemma get_filenames_of_page_witness :
  get_filenames (start (session_with_results two_results) [])
  = Ret [JStr "S3A_SR_1.zip"; JStr "S3B_SR_1.zip"]
      (start (session_with_results two_results) []).
Proof.
  refine (proj1 (proj1 (get_filenames_of_page
                          (start (session_with_results two_results) [])
                          (JObj [("content", JArr two_results)]) two_results
                          [JStr "S3A_SR_1.zip"; JStr "S3B_SR_1.zip"] _ _)
                   _)).
  - vm_compute; reflexivity.
  - repeat constructor.
  - reflexivity.
Defined.

(** ** [get_filename_from_cd] *)

Lemma prefix_cons (a b : ascii) (s1 s2 : string) :
  String.prefix (String a s1) (String b s2) = true <->
  a = b /\ String.prefix s1 s2 = true.
Proof.
  cbn [String.prefix]. destruct (ascii_dec a b) as [E|N].
  - split; [by intros ? | by intros [_ ?]].
  - split; [done | by intros [? _]].
Qed.

Lemma prefix_filename (cd : string) :
  String.prefix "filename=" cd = true ->
  cd = "filename=" +:+ string_drop 9 cd.
Proof.
  intros H.
  do 9 (destruct cd as [|? cd]; [discriminate|];
        apply prefix_cons in H as [<- H]).
  reflexivity.
Qed.

Lemma prefix_filename_app (tail : string) :
  String.prefix "filename=" ("filename=" +:+ tail) = true
  /\ string_drop 9 ("filename=" +:+ tail) = tail.
Proof.
  split; [|reflexivity].
  change ("filename=" +:+ tail)
    with (String "f" (String "i" (String "l" (String "e" (String "n"
            (String "a" (String "m" (String "e" (String "=" tail))))))))).
  do 9 (apply prefix_cons; split; [reflexivity|]).
  by destruct tail.
Qed.

Lemma dot_plus_empty (s : string) :
  dot_plus s = EmptyString <->
  s = EmptyString \/ exists post, s = String newline post.
Proof.
  destruct s as [|c s]; [by split; [left|]|].
  cbn [dot_plus]. destruct (Ascii.eqb_spec c "010"%char) as [->|Hc].
  - split; [|done]. intros _. right. by exists s.
  - split; [done|]. intros [|[post [= ? ?]]]; done.
Qed.

(** The scan finds a match exactly where the text has one. *)
Lemma findall_first_is_Some (cd : string) :
  is_Some (findall_first cd) <->
  exists pre c post,
    cd = pre +:+ "filename=" +:+ String c post /\ c <> newline.
Proof.
  induction cd as [|a rest IH].
  - split; [by intros [? [=]]|].
    intros (pre & c & post & H & _). by destruct pre.
  - assert (Hhere : forall g, dot_plus (string_drop 9 (String a rest)) = g ->
              String.prefix "filename=" (String a rest) = true ->
              g <> EmptyString ->
              exists pre c post,
                String a rest = pre +:+ "filename=" +:+ String c post
                /\ c <> newline).
    { intros g Hg Hp Hne. apply prefix_filename in Hp.
      destruct (string_drop 9 (String a rest)) as [|c post] eqn:Hd;
        [by subst g|].
      exists EmptyString, c, post. split; [exact Hp|].
      intros ->. subst g. by apply Hne. }
    split.
    + cbn [findall_first].
      destruct (String.prefix "filename=" (String a rest)) eqn:Hp.
      * destruct (dot_plus (string_drop 9 (String a rest))) as [|x g] eqn:Hg.
        -- intros H. apply IH in H as (pre & c & post & -> & Hc).
           by exists (String a pre), c, post.
        -- intros _. by apply (Hhere (String x g)).
      * intros H. apply IH in H as (pre & c & post & -> & Hc).
        by exists (String a pre), c, post.
    + intros (pre & c & post & Hcd & Hc). cbn [findall_first].
      destruct pre as [|a' pre].
      * change (String a rest = "filename=" +:+ String c post) in Hcd.
        rewrite Hcd.
        destruct (prefix_filename_app (String c post)) as [-> ->].
        cbn [dot_plus]. destruct (Ascii.eqb_spec c "010"%char); [done|].
        by eexists.
      * injection Hcd as -> ->.
        assert (Hrest : is_Some (findall_first
                                   (pre +:+ "filename=" +:+ String c post))).
        { apply IH. by exists pre, c, post. }
        destruct (String.prefix _ _); [|exact Hrest].
        destruct (dot_plus _); [exact Hrest | by eexists].
Qed.

(** X19. [get_filename_from_cd] gives [None] for [None], for the empty
    string, and for a text in which [filename=] is nowhere followed by a
    character other than a newline; for every other text it gives a
    string. *)
Theorem get_filename_from_cd_None (cd : option string) :
  get_filename_from_cd cd = None <->
  (forall text pre c post,
      cd = Some text ->
      text = pre +:+ "filename=" +:+ String c post -> c = newline).
Proof.
  destruct cd as [text|]; [|by split].
  assert (Hscan : findall_first text = None <->
            forall pre c post,
              text = pre +:+ "filename=" +:+ String c post -> c = newline).
  { split.
    - intros Hnone pre c post Htext.
      destruct (Ascii.eqb_spec c newline) as [|Hc]; [done|].
      assert (H : is_Some (findall_first text)).
      { apply findall_first_is_Some. by exists pre, c, post. }
      rewrite Hnone in H. by destruct H.
    - intros Hall. destruct (findall_first text) as [g|] eqn:Hg; [|done].
      assert (H : is_Some (findall_first text)) by (by rewrite Hg).
      apply findall_first_is_Some in H as (pre & c & post & Htext & Hc).
      by destruct (Hc (Hall pre c post Htext)). }
  unfold get_filename_from_cd. destruct text as [|a text].
  - split; [|done]. intros _ text pre c post [= <-] H. by destruct pre.
  - destruct (findall_first (String a text)) as [g|] eqn:Hg.
    + split; [done|]. intros Hall.
      assert (Hn : Some g = None); [|done].
      apply Hscan. intros pre c post. by apply (Hall (String a text)).
    + split; [|done]. intros _ text' pre c post [= <-].
      by apply (proj1 Hscan).
Qed.

Lemma findall_first_skip (pre rest : string) :
  lacks "f" pre = true ->
  findall_first (pre +:+ rest) = findall_first rest.
Proof.
  induction pre as [|a pre IH]; [done|].
  cbn [lacks]. intros H. apply andb_true_iff in H as [Ha Hpre].
  change (String a pre +:+ rest) with (String a (pre +:+ rest)).
  cbn [findall_first].
  destruct (String.prefix "filename=" (String a (pre +:+ rest))) eqn:Hp.
  - apply prefix_cons in Hp as [<- _]. done.
  - by apply IH.
Qed.

Lemma dot_plus_app (x y : string) :
  lacks newline x = true -> dot_plus (x +:+ y) = x +:+ dot_plus y.
Proof.
  induction x as [|a x IH]; [done|].
  cbn [lacks]. intros H. apply andb_true_iff in H as [Ha Hx].
  change (String a x +:+ y) with (String a (x +:+ y)).
  cbn [dot_plus]. unfold newline in Ha.
  destruct (Ascii.eqb a "010"%char); [done|].
  rewrite (IH Hx). reflexivity.
Qed.

Lemma characters_cons (b : ascii) (s : string) :
  characters (String b s) <> [].
Proof.
  cbn [characters]. destruct (continues s); [|done].
  by destruct (characters s).
Qed.

(** A byte that starts a character, put after a text, is one more
    character. *)
Lemma characters_snoc (s : string) (q : ascii) :
  continuation q = false ->
  characters (s +:+ String q EmptyString)
  = characters s ++ [String q EmptyString].
Proof.
  intros Hq. induction s as [|b s IH].
  - change (EmptyString +:+ String q EmptyString) with (String q EmptyString).
    cbn [characters continues]. reflexivity.
  - change (String b s +:+ String q EmptyString)
      with (String b (s +:+ String q EmptyString)).
    cbn [characters]. rewrite IH.
    assert (Hc : continues (s +:+ String q EmptyString) = continues s).
    { destruct s as [|b' s']; [exact Hq | reflexivity]. }
    rewrite Hc. destruct (continues s) eqn:Hs; [|reflexivity].
    destruct s as [|b' s']; [discriminate|].
    pose proof (characters_cons b' s') as Hne.
    by destruct (characters (String b' s')).
Qed.

Lemma concat_no_sep (cs : list string) (c : string) :
  String.concat EmptyString (c :: cs) = c +:+ String.concat EmptyString cs.
Proof.
  destruct cs as [|c' cs]; [|reflexivity].
  cbn [String.concat]. by rewrite string_app_empty_r.
Qed.

(** What is left of a quoted name: the name without its first
    character. *)
Lemma slice_quoted (q q' : ascii) (name : string) :
  continues name = false ->
  continuation q' = false ->
  slice_2_m1 (String q (name +:+ String q' EmptyString)) = str_from 1 name.
Proof.
  intros Hname Hq'. unfold slice_2_m1, str_from.
  assert (Hc : continues (name +:+ String q' EmptyString) = false).
  { destruct name as [|b name]; [exact Hq' | exact Hname]. }
  cbn [characters]. rewrite Hc, characters_snoc by done.
  cbn [skipn].
  destruct (characters name) as [|c cs]; [reflexivity|].
  cbn [app skipn]. by rewrite !drop_0, removelast_last.
Qed.

Lemma lacks_app (c : ascii) (x y : string) :
  lacks c (x +:+ y) = lacks c x && lacks c y.
Proof.
  induction x as [|a x IH]; [done|].
  change (String a x +:+ y) with (String a (x +:+ y)).
  cbn [lacks]. by rewrite IH, andb_assoc.
Qed.

(** X20. [get_filename_from_cd] does not give back a quoted file name:
    the slice [[2:-1]] takes off the opening quote and the first
    character of the name.  For a header text that ends with [filename=],
    a name in double quotes, and nothing more, where the text before has
    no [f] and the name no newline, the result is the name without its
    first character, be that character of one byte or of more. *)
Theorem get_filename_from_cd_quoted (pre name : string) :
  lacks "f" pre = true ->
  lacks newline name = true ->
  continues name = false ->
  get_filename_from_cd
    (Some (pre +:+ "filename="
             +:+ String quote (name +:+ String quote EmptyString)))
  = Some (str_from 1 name).
Proof.
  intros Hpre Hname Htext.
  set (quoted := String quote (name +:+ String quote EmptyString)).
  assert (Hl : lacks newline quoted = true).
  { unfold quoted. cbn [lacks]. rewrite lacks_app, Hname. reflexivity. }
  assert (Hline : dot_plus quoted = quoted).
  { pose proof (dot_plus_app quoted EmptyString Hl) as H.
    by rewrite !string_app_empty_r in H. }
  assert (Hscan : findall_first (pre +:+ "filename=" +:+ quoted)
                  = Some quoted).
  { rewrite (findall_first_skip pre _ Hpre).
    change ("filename=" +:+ quoted)
      with (String "f" ("ilename=" +:+ quoted)).
    cbn [findall_first].
    change (String "f" ("ilename=" +:+ quoted))
      with ("filename=" +:+ quoted).
    destruct (prefix_filename_app quoted) as [-> ->].
    rewrite Hline. reflexivity. }
  unfold get_filename_from_cd. rewrite Hscan.
  unfold quoted at 2. rewrite slice_quoted by done.
  destruct (pre +:+ "filename=" +:+ quoted) eqn:E; [|reflexivity].
  by destruct pre.
Qed.

Lemma get_filename_from_cd_quoted_witness :
  get_filename_from_cd
    (Some ("attachment; filename="
             +:+ String quote ("S3A_SR_1.zip" +:+ String quote EmptyString)))
  = Some "3A_SR_1.zip"
  /\ get_filename_from_cd
       (Some ("attachment; filename="
                +:+ String quote (e_acute +:+ "t" +:+ e_acute +:+ ".zip"
                                    +:+ String quote EmptyString)))
     = Some ("t" +:+ e_acute +:+ ".zip").
Proof.
  split.
  - exact (get_filename_from_cd_quoted "attachment; " "S3A_SR_1.zip"
             eq_refl eq_refl eq_refl).
  - exact (get_filename_from_cd_quoted "attachment; "
             (e_acute +:+ "t" +:+ e_acute +:+ ".zip") eq_refl eq_refl
             eq_refl).
Defined.

(** ** [download_data] *)

Lemma downloadFile_other_code (s : state) (url : string) (headers : pyval)
    (directory file_name : string) (total_length : json) (r : response)
    (rest : list response) :
  script s = r :: rest ->
  status_code r <> 200 ->
  downloadFile (PJson (JStr url)) headers directory file_name total_length s
  = Ret RNone (after s rest [Request GET url headers None]).
Proof.
  intros Hs Hr.
  unfold downloadFile, bind, requests. cbn [script log]. rewrite Hs.
  destruct (Z.eqb_spec (status_code r) 200) as [E|_]; [done|].
  reflexivity.
Qed.

(** One download, with or without HTTP 200. *)
Lemma downloadFile_fetch (s : state) (ep : string) (hs : pyval)
    (dir : string) (ext user : option string) (w : download)
    (rest : list response) :
  script s = d_reply w :: rest ->
  d_sized w ->
  exists t,
    downloadFile (PJson (JStr (d_url ep w))) hs dir (d_file ext user w)
      (d_size w) s
    = Ret t
        {| hda_dict := hda_dict s; script := rest;
           trace := trace s ++ fetch_events ep hs w;
           files := fetch dir ext user (files s) w |}.
Proof.
  intros Hs Hsized. unfold fetch, fetch_events.
  destruct (Z.eqb_spec (status_code (d_reply w)) 200) as [H200|Hne].
  - destruct (Hsized H200) as (n & Hn & Hn0 & _). exists RElapsed.
    by rewrite (downloadFile_200_run s (d_url ep w) hs dir
                  (d_file ext user w) (d_size w) n (d_reply w) rest Hs H200
                  Hn Hn0).
  - exists RNone.
    by rewrite (downloadFile_other_code s (d_url ep w) hs dir
                  (d_file ext user w) (d_size w) (d_reply w) rest Hs Hne).
Qed.

Section Downloads.

Variables (d : gmap string pyval) (ep : string) (hs : pyval) (dir : string).
Variables (ext user : option string).
Variables (names sizes : list json) (r0 : response).
Hypothesis Hpoll : can_poll d ep hs.
Hypothesis Hdir : d !! "download_dir_path" = Some (PJson (JStr dir)).
Hypothesis Hsizes : d !! "order_sizes" = Some (PJson (JArr sizes)).
Hypothesis Hresp : d !! "order_status_response" = Some (PResponse r0).

(** One turn of the loop of [download_data]. *)
Lemma download_data_body_run (w : download) (s : state) (i : nat)
    (acc : list json) (rest : list response) :
  hda_dict s = d ->
  script s = d_reply w :: rest ->
  names !! i = Some (JStr (d_name w)) ->
  sizes !! i = Some (d_size w) ->
  d_sized w ->
  download_data_body ext user names (JStr (d_order w)) (Z.of_nat i, acc) s
  = Ret (Some (Z.of_nat i + 1, acc ++ [JStr (d_path dir ext user w)]))
      {| hda_dict := d; script := rest;
         trace := trace s ++ fetch_events ep hs w;
         files := fetch dir ext user (files s) w |}.
Proof.
  intros Hd Hs Hname Hsize Hsized.
  destruct Hpoll as (Hep & Hhs & Hok).
  destruct (downloadFile_fetch s ep hs dir ext user w rest Hs Hsized)
    as [t Hrun].
  unfold d_url in Hrun.
  unfold download_data_body, bind, getitem, index.
  rewrite Nat2Z.id, Hname.
  unfold fetch, d_path, d_file in *.
  destruct (truthy user), (truthy ext); cbn [ret str_add];
    rewrite ?Hd, Hep; cbn [str_add ret];
    rewrite ?Hd, Hsizes; cbn [item]; unfold index; rewrite Nat2Z.id, Hsize;
    cbn [ret]; rewrite ?Hd, Hhs; cbn beta iota; rewrite ?Hd, Hdir;
    cbn [downloadFile_call];
    rewrite Hrun;
    cbn [hda_dict]; rewrite ?Hd, Hdir; cbn [os_path_join ret hda_dict];
    rewrite ?Hd, Hresp; cbn [hda_dict]; rewrite ?Hd, Hok; reflexivity.
Qed.

(** The loop of [download_data] over the orders [todo], after [seen]. *)
Lemma download_each_run (todo : list download) :
  forall (seen : list download) (s : state) (acc : list json)
         (rest : list response),
    hda_dict s = d ->
    script s = map d_reply todo ++ rest ->
    (forall k w, todo !! k = Some w ->
       names !! (List.length seen + k)%nat = Some (JStr (d_name w))
       /\ sizes !! (List.length seen + k)%nat = Some (d_size w)) ->
    Forall d_sized todo ->
    download_each ext user names (map (fun w => JStr (d_order w)) todo)
      (Z.of_nat (List.length seen), acc) s
    = Ret (Some (Z.of_nat (List.length seen + List.length todo),
                 acc ++ map (fun w => JStr (d_path dir ext user w)) todo))
        {| hda_dict := d; script := rest;
           trace := trace s ++ flat_map (fetch_events ep hs) todo;
           files := foldl (fetch dir ext user) (files s) todo |}.
Proof.
  induction todo as [|w todo IH]; intros seen s acc rest Hd Hs Hat Hall.
  - simpl. unfold ret. rewrite !app_nil_r, Nat.add_0_r.
    destruct s; simpl in *. by subst.
  - cbn [map download_each]. unfold bind.
    destruct (Hat 0%nat w eq_refl) as [Hname Hsize].
    rewrite Nat.add_0_r in Hname, Hsize.
    rewrite (download_data_body_run w s (List.length seen) acc
               (map d_reply todo ++ rest) Hd Hs Hname Hsize
               (Forall_inv Hall)).
    replace (Z.of_nat (List.length seen) + 1)
      with (Z.of_nat (List.length (seen ++ [w])))
      by (rewrite length_app; simpl; lia).
    rewrite (IH (seen ++ [w]) _ _ rest); try done.
    + f_equal.
      * f_equal. f_equal.
        -- rewrite length_app. simpl. lia.
        -- by rewrite <- app_assoc.
      * cbn [trace files flat_map foldl]. by rewrite <- app_assoc.
    + intros k w' Hk. rewrite length_app. simpl.
      replace (List.length seen + 1 + k)%nat
        with (List.length seen + S k)%nat by lia.
      by apply Hat.
    + exact (Forall_inv_tail Hall).
Qed.

End Downloads.

(** The whole of [download_data] on a session that can download. *)
Lemma download_data_run (s : state) (ep : string) (hs : pyval) (dir : string)
    (ext user : option string) (ws : list download) (rest : list response) :
  can_download (hda_dict s) ep hs dir ws ->
  script s = map d_reply ws ++ rest ->
  Forall d_sized ws ->
  download_data ext user s
  = Ret Downloaded
      {| hda_dict :=
           <["filenames" :=
               PJson (JArr (map (fun w => JStr (d_path dir ext user w)) ws))]>
             (hda_dict s);
         script := rest;
         trace := trace s ++ flat_map (fetch_events ep hs) ws;
         files := foldl (fetch dir ext user) (files s) ws |}.
Proof.
  intros (Hpoll & Hdir & (page & items & more & Hres & Hcontent & Hnames)
          & Hids & (more_sizes & Hsizes) & (r0 & Hresp)) Hs Hall.
  unfold download_data, bind at 1.
  assert (Hfn : get_filenames s
                = Ret (map (fun w => JStr (d_name w)) ws ++ more) s).
  { unfold get_filenames, bind at 1 2 3, getitem. rewrite Hres.
    rewrite (subscript_field _ _ _ _ Hcontent). cbn [iterate ret].
    by rewrite (get_filenames_loop items _ Hnames [] s). }
  rewrite Hfn. unfold bind at 1, getitem. rewrite Hids.
  unfold bind at 1. cbn [iterate_value iterate ret]. unfold bind at 1.
  pose proof (download_each_run (hda_dict s) ep hs dir ext user
                (map (fun w => JStr (d_name w)) ws ++ more)
                (map d_size ws ++ more_sizes) r0 Hpoll Hdir Hsizes Hresp
                ws [] s [] rest eq_refl Hs) as Hloop.
  cbn [List.length Nat.add app] in Hloop.
  change (Z.of_nat 0) with 0 in Hloop.
  rewrite Hloop; [reflexivity| |exact Hall].
  intros k w Hk. split.
  - rewrite lookup_app_l by (rewrite length_map; by apply lookup_lt_Some in Hk).
    rewrite list_lookup_fmap. by rewrite Hk.
  - rewrite lookup_app_l by (rewrite length_map; by apply lookup_lt_Some in Hk).
    rewrite list_lookup_fmap. by rewrite Hk.
Qed.



Lemma download_session_can_download (ws : list download) :
  map (fun w => JStr (d_name w)) ws
    = [JStr "S3A_SR_1.zip"; JStr "S3B_SR_1.zip"] ->
  map (fun w => JStr (d_order w)) ws = [JStr "order-A"; JStr "order-B"] ->
  map d_size ws = [JNum 1000; JNum 2000] ->
  can_download download_session sample_endpoint sample_headers "/data" ws.
Proof.
  intros Hn Ho Hz. unfold can_download. rewrite Hn, Ho, Hz.
  split; [repeat split; vm_compute; reflexivity|].
  split; [vm_compute; reflexivity|].
  split.
  { exists (JObj [("content", JArr two_results)]), two_results, [].
    split; [vm_compute; reflexivity|]. split; [reflexivity|].
    repeat constructor. }
  split; [vm_compute; reflexivity|].
  split; [exists []; vm_compute; reflexivity|].
  eexists. vm_compute. reflexivity.
Qed.





Lemma fetch_nothing (dir : string) (ext user : option string)
    (ws : list download) :
  Forall (fun w => status_code (d_reply w) <> 200) ws ->
  forall fs, foldl (fetch dir ext user) fs ws = fs.
Proof.
  induction 1 as [|w ws Hw _ IH]; intros fs; [done|].
  cbn [foldl]. rewrite IH. unfold fetch.
  by destruct (Z.eqb_spec (status_code (d_reply w)) 200).
Qed.

(** X23. [download_data] does not tell a failed download from a good one.
    When every download request is answered with another code than 200,
    no file is written and the call still returns, with [filenames]
    holding the path of a file for every order id: the paths of files
    that do not exist, unless they were there before. *)
Theorem download_data_lists_missing_files (s : state) (ep : string)
    (hs : pyval) (dir : string) (file_extension user_filename : option string)
    (ws : list download) (rest : list response) :
  can_download (hda_dict s) ep hs dir ws ->
  script s = map d_reply ws ++ rest ->
  Forall (fun w => status_code (d_reply w) <> 200) ws ->
  let run := download_data file_extension user_filename s in
  run = Ret Downloaded (final run)
  /\ files (final run) = files s
  /\ exists paths,
       hda_dict (final run) !! "filenames" = Some (PJson (JArr paths))
       /\ List.length paths = List.length ws.
Proof.
  intros Hcan Hs Hall run. unfold run.
  assert (Hsized : Forall d_sized ws).
  { eapply Forall_impl; [exact Hall|]. intros w Hw H200. done. }
  rewrite (download_data_run s ep hs dir file_extension user_filename ws rest
             Hcan Hs Hsized).
  cbn [final hda_dict files].
  split; [reflexivity|]. split; [by apply fetch_nothing|].
  eexists. split; [by rewrite lookup_insert_eq|]. by rewrite length_map.
Qed.

Lemma download_data_lists_missing_files_witness :
  let run := download_data None None
               (start download_session
                  [error_response 403; error_response 404]) in
  run = Ret Downloaded (final run)
  /\ files (final run) = ∅
  /\ exists paths,
       hda_dict (final run) !! "filenames" = Some (PJson (JArr paths))
       /\ List.length paths = 2%nat.
Proof.
  intros run.
  refine (download_data_lists_missing_files
            (start download_session [error_response 403; error_response 404])
            sample_endpoint sample_headers "/data" None None two_refusals []
            (download_session_can_download two_refusals eq_refl eq_refl
               eq_refl)
            eq_refl _).
  repeat constructor; vm_compute; discriminate.
Defined.





(** ** The download cell *)




